(** * A model of the Hadoop JobHistory MCP server (jobhistory_mcp.py)

    The tool handlers of the server are embedded as programs of a small
    free monad over the two upstream operations they perform
    ([_make_request], [_fetch_logs_html]); the formatters and the HTML log
    extractor are plain functions.

    Representation choices:
    - a Python [str] is a Rocq [string] holding its UTF-8 bytes.  Every
      pattern the source searches for is ASCII, so searching bytes and
      searching code points agree on well-formed text;
    - a Python [int] is a [Z]; a Python [float] is a binary64 value of
      [SpecFloat.spec_float];
    - a decoded JSON document (what [response.json()] returns) is a value
      of [json]; objects keep their fields in order as an association list
      and [dict.get] reads the first binding of a key;
    - a raised exception (an instance of [Exception]) is a value [inl e]
      of [result], told apart by the classes [_handle_error] distinguishes;
    - what the Python runtime and its libraries compute outside the
      repository (json.dumps and json.loads, repr of floats and
      containers, float arithmetic and formatting, the local calendar,
      [str.lower]) is a field of [runtime], over which every statement is
      universally quantified.

    Logging ([logger.*], the [log_tool_call] decorator) has no influence on
    what a handler returns and is left out. *)

From Stdlib Require Import ZArith String Ascii List Bool Lia.
From Stdlib Require Import DecimalString DecimalFacts DecimalZ.
From Stdlib Require Import Permutation Sorted.
From Stdlib Require Import Floats.SpecFloat.
Import ListNotations.

Local Open Scope string_scope.
Local Open Scope Z_scope.

(** ** Python strings *)

Definition nl : string := String "010"%char "".
Definition dquote : string := String "034"%char "".

(** ["\n".join(lines)] *)
Definition join_lines (lines : list string) : string := String.concat nl lines.

(** [sub in s] *)
Fixpoint str_contains (sub s : string) : bool :=
  if String.prefix sub s then true
  else match s with
       | EmptyString => false
       | String _ rest => str_contains sub rest
       end.

(** [s.replace(old, new)] for a non-empty [old]: occurrences are replaced
    from left to right and do not overlap.  [skip] counts the characters
    of an occurrence that remain to be dropped. *)
Fixpoint replace_from (old new : string) (skip : nat) (s : string) : string :=
  match s with
  | EmptyString => EmptyString
  | String c rest =>
      match skip with
      | S k => replace_from old new k rest
      | O =>
          if String.prefix old s
          then new ++ replace_from old new (Nat.pred (String.length old)) rest
          else String c (replace_from old new O rest)
      end
  end.

Definition str_replace (old new s : string) : string := replace_from old new O s.

(** [s.split(sep)] for a one-character separator: the pieces between the
    separators, in order; never empty. *)
Fixpoint str_split (sep : ascii) (s : string) : list string :=
  match s with
  | EmptyString => [EmptyString]
  | String c rest =>
      if Ascii.eqb c sep then EmptyString :: str_split sep rest
      else match str_split sep rest with
           | piece :: pieces => String c piece :: pieces
           | [] => [String c EmptyString]
           end
  end.

(** [l[-1]] on a list of strings. *)
Definition last_piece (l : list string) : string := List.last l EmptyString.

(** [s.rsplit(sep, 1)] for a one-character separator: [s] alone when the
    separator does not occur, else what precedes and what follows its last
    occurrence. *)
Fixpoint str_rsplit1 (sep : ascii) (s : string) : list string :=
  match s with
  | EmptyString => [EmptyString]
  | String c rest =>
      if str_contains (String sep EmptyString) rest then
        match str_rsplit1 sep rest with
        | before :: after => String c before :: after
        | [] => [s]
        end
      else if Ascii.eqb c sep then [EmptyString; rest]
      else [s]
  end.

(** [l[0]] on a list of strings. *)
Definition first_piece (l : list string) : string := List.hd EmptyString l.

(** The characters [str.strip()] removes, in UTF-8: U+0009..U+000D,
    U+001C..U+0020, U+0085, U+00A0, U+1680, U+2000..U+200A, U+2028, U+2029,
    U+202F, U+205F and U+3000. *)
Definition bytes (l : list nat) : string :=
  string_of_list_ascii (List.map ascii_of_nat l).

Definition whitespace_codes : list (list nat) :=
  ([ [9]; [10]; [11]; [12]; [13]; [28]; [29]; [30]; [31]; [32];
     [194; 133]; [194; 160]; [225; 154; 128] ]
   ++ List.map (fun b => [226; 128; b])
        [128; 129; 130; 131; 132; 133; 134; 135; 136; 137; 138; 168; 169; 175]
   ++ [ [226; 129; 159]; [227; 128; 128] ])%nat%list.

Definition whitespace : list string := List.map bytes whitespace_codes.

Definition str_rev (s : string) : string :=
  string_of_list_ascii (List.rev (list_ascii_of_string s)).

Definition str_drop (n : nat) (s : string) : string :=
  String.substring n (String.length s - n) s.

(** One leading character of [chars], if any, removed. *)
Fixpoint drop_one_of (chars : list string) (s : string) : option string :=
  match chars with
  | [] => None
  | w :: ws =>
      if String.prefix w s then Some (str_drop (String.length w) s)
      else drop_one_of ws s
  end.

Fixpoint lstrip_fuel (chars : list string) (fuel : nat) (s : string) : string :=
  match fuel with
  | O => s
  | S k => match drop_one_of chars s with
           | Some s' => lstrip_fuel chars k s'
           | None => s
           end
  end.

Definition str_lstrip (s : string) : string :=
  lstrip_fuel whitespace (String.length s) s.

Definition str_rstrip (s : string) : string :=
  str_rev (lstrip_fuel (List.map str_rev whitespace) (String.length s) (str_rev s)).

(** [s.strip()] *)
Definition str_strip (s : string) : string := str_rstrip (str_lstrip s).

(** ASCII case folding, as used by [re.IGNORECASE] on the letters of the
    pattern of [_extract_pre_content]. *)
Definition ascii_lower (c : ascii) : ascii :=
  let n := nat_of_ascii c in
  if (Nat.leb 65 n && Nat.leb n 90)%bool then ascii_of_nat (n + 32) else c.

Fixpoint prefix_ci (p s : string) : bool :=
  match p, s with
  | EmptyString, _ => true
  | String a p', String b s' =>
      (Ascii.eqb (ascii_lower a) (ascii_lower b) && prefix_ci p' s')%bool
  | String _ _, EmptyString => false
  end.

(** ** Python integers and floats *)

(** [str(n)] for an int. *)
Definition str_int (z : Z) : string := NilZero.string_of_int (Z.to_int z).

(** Digits grouped by three from the right: [format(n, ",")] for n >= 0. *)
Fixpoint group3 (digits : list ascii) : list ascii :=
  match digits with
  | a :: b :: c :: (_ :: _) as rest => a :: b :: c :: ","%char :: group3 rest
  | _ => digits
  end.

Definition format_int_comma (z : Z) : string :=
  let body :=
    string_of_list_ascii
      (List.rev (group3 (List.rev (list_ascii_of_string (str_int (Z.abs z)))))) in
  if z <? 0 then "-" ++ body else body.

Definition float_prec : Z := 53.
Definition float_emax : Z := 1024.

Definition float_zero : spec_float := S754_zero false.

(** [float(n)] when it is representable. *)
Definition float_of_int (z : Z) : spec_float :=
  binary_normalize float_prec float_emax z 0 false.

(** The correctly rounded quotient [a / b] of two ints ([b > 0]), as
    CPython's true division computes it; [None] when it exceeds the range
    of a float (OverflowError). *)
Definition int_truediv (a b : Z) : option spec_float :=
  if a =? 0 then Some float_zero
  else
    let n := Z.abs a in
    let k := 64 + Z.log2 b - Z.log2 n + 1 in
    let num := if 0 <=? k then n * 2 ^ k else n in
    let den := if 0 <=? k then b else b * 2 ^ (- k) in
    let q := num / den in
    let sticky := if num mod den =? 0 then 0 else 1 in
    let m := 2 * q + sticky in
    match binary_normalize float_prec float_emax (Z.sgn a * m) (- k - 1) false with
    | S754_infinity _ => None
    | f => Some f
    end.

(** [x / y] on floats. *)
Definition float_div (x y : spec_float) : spec_float :=
  SFdiv float_prec float_emax x y.

(** A Python number: what [int], [bool] and [float] values denote in
    arithmetic. *)
Inductive pynum : Type :=
| NInt (z : Z)
| NFloat (f : spec_float).

(** ** Decoded JSON documents *)

#[warnings="-register-all"]
Inductive json : Type :=
| JNull
| JBool (b : bool)
| JInt (z : Z)
| JFloat (f : spec_float)
| JStr (s : string)
| JArr (items : list json)
| JObj (fields : list (string * json)).

(** [type(v).__name__] *)
Definition type_name (v : json) : string :=
  match v with
  | JNull => "NoneType"
  | JBool _ => "bool"
  | JInt _ => "int"
  | JFloat _ => "float"
  | JStr _ => "str"
  | JArr _ => "list"
  | JObj _ => "dict"
  end.

(** [bool(v)] *)
Definition truthy (v : json) : bool :=
  match v with
  | JNull => false
  | JBool b => b
  | JInt z => negb (z =? 0)
  | JFloat (S754_zero _) => false
  | JFloat _ => true
  | JStr s => negb (String.eqb s "")
  | JArr items => match items with [] => false | _ :: _ => true end
  | JObj fields => match fields with [] => false | _ :: _ => true end
  end.

Fixpoint assoc (key : string) (fields : list (string * json)) : option json :=
  match fields with
  | [] => None
  | (k, v) :: rest => if String.eqb k key then Some v else assoc key rest
  end.

Definition as_num (v : json) : option pynum :=
  match v with
  | JInt z => Some (NInt z)
  | JBool b => Some (NInt (if b then 1 else 0))
  | JFloat f => Some (NFloat f)
  | _ => None
  end.

(** ** Exceptions *)

(** The exceptions a handler can meet, by the classes [_handle_error]
    tells apart; [PyError cls msg] is any other exception, of class name
    [cls] and text [str(e) = msg]. *)
Inductive exn : Type :=
| HTTPStatusError (status_code : Z)
| TimeoutException
| ConnectError
| PyError (cls msg : string).

(** A computation that returns a value or raises. *)
Definition result (A : Type) : Type := (exn + A)%type.

Definition ok {A : Type} (a : A) : result A := inr a.
Definition raise {A : Type} (e : exn) : result A := inl e.

Definition rbind {A B : Type} (r : result A) (k : A -> result B) : result B :=
  match r with
  | inl e => inl e
  | inr a => k a
  end.

Declare Scope result_scope.
Delimit Scope result_scope with result.
Notation "x <- r ;; k" := (rbind r (fun x => k))
  (at level 61, r at next level, right associativity) : result_scope.

Definition TypeError {A : Type} (msg : string) : result A :=
  raise (PyError "TypeError" msg).
Definition AttributeError {A : Type} (msg : string) : result A :=
  raise (PyError "AttributeError" msg).
Definition ValueError {A : Type} (msg : string) : result A :=
  raise (PyError "ValueError" msg).
Definition OverflowError {A : Type} (msg : string) : result A :=
  raise (PyError "OverflowError" msg).

Definition no_attribute {A : Type} (v : json) (attr : string) : result A :=
  AttributeError ("'" ++ type_name v ++ "' object has no attribute '" ++ attr ++ "'").

(** ** Operations of Python on decoded JSON *)

(** [d.get(key, default)] *)
Definition py_get (d : json) (key : string) (default : json) : result json :=
  match d with
  | JObj fields =>
      ok (match assoc key fields with Some v => v | None => default end)
  | _ => no_attribute d "get"
  end.

(** [d.get(key)] *)
Definition py_get_opt (d : json) (key : string) : result json := py_get d key JNull.

Definition is_continuation (c : ascii) : bool :=
  let n := nat_of_ascii c in (Nat.leb 128 n && Nat.ltb n 192)%bool.

Definition starts_with_continuation (s : string) : bool :=
  match s with
  | String c _ => is_continuation c
  | EmptyString => false
  end.

(** The characters (code points) of a string, each as a string. *)
Fixpoint utf8_chars (s : string) : list string :=
  match s with
  | EmptyString => []
  | String c rest =>
      match utf8_chars rest with
      | piece :: pieces =>
          if starts_with_continuation rest then String c piece :: pieces
          else String c EmptyString :: piece :: pieces
      | [] => [String c EmptyString]
      end
  end.

(** What [for x in v] ranges over. *)
Definition py_iter (v : json) : result (list json) :=
  match v with
  | JArr items => ok items
  | JObj fields => ok (List.map (fun kv => JStr (fst kv)) fields)
  | JStr s => ok (List.map JStr (utf8_chars s))
  | _ => TypeError ("'" ++ type_name v ++ "' object is not iterable")
  end.

(** [len(v)] *)
Definition py_len (v : json) : result Z :=
  match v with
  | JArr items => ok (Z.of_nat (List.length items))
  | JObj fields => ok (Z.of_nat (List.length fields))
  | JStr s => ok (Z.of_nat (List.length (utf8_chars s)))
  | _ => TypeError ("object of type '" ++ type_name v ++ "' has no len()")
  end.

(** [v == s] for a string literal [s]. *)
Definition py_eq_str (v : json) (s : string) : bool :=
  match v with
  | JStr t => String.eqb t s
  | _ => false
  end.

(** [table.get(key, default)] on a dict literal with string keys: the key
    is hashed first, which lists and dicts refuse. *)
Definition literal_get (table : list (string * string)) (key : json)
    (default : string) : result string :=
  match key with
  | JArr _ | JObj _ => TypeError ("unhashable type: '" ++ type_name key ++ "'")
  | JStr s =>
      ok (match List.find (fun kv => String.eqb (fst kv) s) table with
          | Some kv => snd kv
          | None => default
          end)
  | _ => ok default
  end.

(** ** The runtime outside the repository *)

(** Outcome of [datetime.fromtimestamp(t).strftime("%Y-%m-%d %H:%M:%S")]. *)
Inductive calendar_outcome : Type :=
| CalendarText (text : string)
| CalendarValueError (msg : string)
| CalendarOSError (msg : string)
| CalendarOverflowError (msg : string).

Record runtime : Type := {
  (** [json.dumps(v, indent=2, ensure_ascii=False)] *)
  json_dumps : json -> string;
  (** [repr(x)] of a float *)
  float_repr : spec_float -> string;
  (** [str(v)] of a list or a dict *)
  container_str : json -> string;
  (** [x // y] and [x % y] on floats, [y] not zero *)
  float_floordiv : spec_float -> spec_float -> spec_float;
  float_mod : spec_float -> spec_float -> spec_float;
  (** [format(x, spec)] of a float *)
  float_format : string -> spec_float -> string;
  (** the local calendar *)
  fromtimestamp_strftime : spec_float -> calendar_outcome;
  (** [s.lower()] *)
  str_lower : string -> string;
  (** [json.loads(s)] *)
  json_loads : string -> result json;
  (** the exception of [d[:100]] on a dict, which depends on the version
      of the interpreter *)
  dict_slice_error : exn
}.

(** The module-level configuration constants, read from the environment
    at start-up.  [LOGS_BASE_URL] is computed once by [_get_logs_base_url]
    from the scheme and network location of [JOBHISTORY_BASE_URL]. *)
Record config : Type := {
  JOBHISTORY_BASE_URL : string;
  NODEMANAGER_PORT : string;
  REQUEST_TIMEOUT : spec_float;
  LOGS_BASE_URL : string
}.

(** ** The upstream and the programs that talk to it *)

Definition query : Type := list (string * json).

(** A handler body: it returns, raises, or performs one of the two HTTP
    GETs of the server and goes on with the outcome. *)
Inductive io (A : Type) : Type :=
| Return (a : A)
| Raise (e : exn)
| HttpGetJson (url : string) (params : option query) (k : result json -> io A)
| HttpGetText (url : string) (k : result string -> io A).

Arguments Return {A} a.
Arguments Raise {A} e.
Arguments HttpGetJson {A} url params k.
Arguments HttpGetText {A} url k.

Fixpoint bind {A B : Type} (m : io A) (f : A -> io B) : io B :=
  match m with
  | Return a => f a
  | Raise e => Raise e
  | HttpGetJson url params k => HttpGetJson url params (fun r => bind (k r) f)
  | HttpGetText url k => HttpGetText url (fun r => bind (k r) f)
  end.

(** [try: m  except Exception as e: return h e] *)
Fixpoint try_except {A : Type} (m : io A) (h : exn -> A) : io A :=
  match m with
  | Return a => Return a
  | Raise e => Return (h e)
  | HttpGetJson url params k => HttpGetJson url params (fun r => try_except (k r) h)
  | HttpGetText url k => HttpGetText url (fun r => try_except (k r) h)
  end.

Definition lift {A : Type} (r : result A) : io A :=
  match r with
  | inl e => Raise e
  | inr a => Return a
  end.

Declare Scope io_scope.
Delimit Scope io_scope with io.
Notation "x <- m ;; k" := (bind m (fun x => k))
  (at level 61, m at next level, right associativity) : io_scope.

(** One exchange with the upstream, as observed from outside. *)
Inductive event : Type :=
| Requested (url : string) (params : option query) (reply : result json)
| Fetched (url : string) (reply : result string).

(** An upstream answers each GET from the exchanges so far and the
    request; an answer is a document or an exception of the HTTP client. *)
Record upstream : Type := {
  get_json : list event -> string -> option query -> result json;
  get_text : list event -> string -> result string
}.

(** Running a program against an upstream: the exchanges, oldest first,
    and the outcome. *)
Fixpoint run {A : Type} (u : upstream) (m : io A) (past : list event)
    : list event * result A :=
  match m with
  | Return a => (past, inr a)
  | Raise e => (past, inl e)
  | HttpGetJson url params k =>
      let reply := get_json u past url params in
      run u (k reply) (past ++ [Requested url params reply])
  | HttpGetText url k =>
      let reply := get_text u past url in
      run u (k reply) (past ++ [Fetched url reply])
  end.

(** A tool call from the host: the exchanges it caused and what it
    returned or raised. *)
Definition call {A : Type} (u : upstream) (m : io A) : list event * result A :=
  run u m [].

Definition exchanges {A : Type} (u : upstream) (m : io A) : list event :=
  fst (call u m).

Definition outcome {A : Type} (u : upstream) (m : io A) : result A :=
  snd (call u m).

(** The reply of an exchange, when it is an exception. *)
Definition reply_exception (ev : event) : option exn :=
  match ev with
  | Requested _ _ (inl e) => Some e
  | Fetched _ (inl e) => Some e
  | _ => None
  end.

(** ** Enumerations (lines 272-360) *)

Inductive ResponseFormat : Type := MARKDOWN | JSON.

Inductive JobState : Type :=
| JobNEW | JobINITED | JobRUNNING | JobSUCCEEDED | JobFAILED | JobKILL_WAIT
| JobKILLED | JobERROR.

Definition JobState_value (s : JobState) : string :=
  match s with
  | JobNEW => "NEW"
  | JobINITED => "INITED"
  | JobRUNNING => "RUNNING"
  | JobSUCCEEDED => "SUCCEEDED"
  | JobFAILED => "FAILED"
  | JobKILL_WAIT => "KILL_WAIT"
  | JobKILLED => "KILLED"
  | JobERROR => "ERROR"
  end.

Inductive TaskType : Type := MAP | REDUCE.

Definition TaskType_value (t : TaskType) : string :=
  match t with
  | MAP => "m"
  | REDUCE => "r"
  end.

Inductive LogType : Type :=
| STDOUT | STDERR | SYSLOG | SYSLOG_SHUFFLE | PRELAUNCH_OUT | PRELAUNCH_ERR
| CONTAINER_LOCALIZER_SYSLOG.

Definition LogType_value (t : LogType) : string :=
  match t with
  | STDOUT => "stdout"
  | STDERR => "stderr"
  | SYSLOG => "syslog"
  | SYSLOG_SHUFFLE => "syslog.shuffle"
  | PRELAUNCH_OUT => "prelaunch.out"
  | PRELAUNCH_ERR => "prelaunch.err"
  | CONTAINER_LOCALIZER_SYSLOG => "container-localizer-syslog"
  end.

(** ** Validated inputs (lines 402-769)

    A value of these records is an input that passed validation; the
    constraints the validators put on the fields are [ListJobsInput.valid]
    and the like. *)

Module ListJobsInput.
Record t : Type := {
  user : option string;
  state : option JobState;
  queue : option string;
  limit : option Z;
  started_time_begin : option Z;
  started_time_end : option Z;
  finished_time_begin : option Z;
  finished_time_end : option Z;
  response_format : ResponseFormat
}.

Definition at_least (bound : Z) (field : option Z) : Prop :=
  match field with
  | Some v => bound <= v
  | None => True
  end.

(** [limit]: ge=1, le=100; the four times: ge=0. *)
Definition valid (p : t) : Prop :=
  match limit p with Some l => 1 <= l <= 100 | None => True end
  /\ at_least 0 (started_time_begin p)
  /\ at_least 0 (started_time_end p)
  /\ at_least 0 (finished_time_begin p)
  /\ at_least 0 (finished_time_end p).

(** The field defaults. *)
Definition default : t :=
  {| user := None; state := None; queue := None; limit := Some 20;
     started_time_begin := None; started_time_end := None;
     finished_time_begin := None; finished_time_end := None;
     response_format := MARKDOWN |}.
End ListJobsInput.

Module GetJobInput.
Record t : Type := { job_id : string; response_format : ResponseFormat }.
End GetJobInput.

Module GetJobCountersInput.
Record t : Type := { job_id : string; response_format : ResponseFormat }.
End GetJobCountersInput.

Module GetJobConfInput.
Record t : Type := {
  job_id : string; filter_key : option string; response_format : ResponseFormat
}.
End GetJobConfInput.

Module GetJobAttemptsInput.
Record t : Type := { job_id : string; response_format : ResponseFormat }.
End GetJobAttemptsInput.

Module ListTasksInput.
Record t : Type := {
  job_id : string; task_type : option TaskType; response_format : ResponseFormat
}.
End ListTasksInput.

Module GetTaskInput.
Record t : Type := {
  job_id : string; task_id : string; response_format : ResponseFormat
}.
End GetTaskInput.

Module ListTaskAttemptsInput.
Record t : Type := {
  job_id : string; task_id : string; response_format : ResponseFormat
}.
End ListTaskAttemptsInput.

Module GetTaskAttemptInput.
Record t : Type := {
  job_id : string; task_id : string; attempt_id : string;
  response_format : ResponseFormat
}.
End GetTaskAttemptInput.

Module GetTaskCountersInput.
Record t : Type := {
  job_id : string; task_id : string; response_format : ResponseFormat
}.
End GetTaskCountersInput.

Module GetTaskAttemptCountersInput.
Record t : Type := {
  job_id : string; task_id : string; attempt_id : string;
  response_format : ResponseFormat
}.
End GetTaskAttemptCountersInput.

Module GetTaskAttemptLogsInput.
Record t : Type := {
  job_id : string; task_id : string; attempt_id : string;
  log_type : LogType; response_format : ResponseFormat
}.
End GetTaskAttemptLogsInput.

Module GetTaskAttemptLogsPartialInput.
Record t : Type := {
  job_id : string; task_id : string; attempt_id : string;
  log_type : LogType; start : Z; end_ : Z;
  response_format : ResponseFormat
}.
End GetTaskAttemptLogsPartialInput.

Section Server.

Variable cfg : config.
Variable rt : runtime.

Local Open Scope result_scope.

(** ** Formatting of values *)

(** [str(v)], what an f-string field [{v}] expands to. *)
Definition py_str (v : json) : string :=
  match v with
  | JNull => "None"
  | JBool true => "True"
  | JBool false => "False"
  | JInt z => str_int z
  | JFloat f => float_repr rt f
  | JStr s => s
  | JArr _ | JObj _ => container_str rt v
  end.

Definition unsupported_format {A : Type} (v : json) : result A :=
  TypeError ("unsupported format string passed to " ++ type_name v ++ ".__format__").

(** [format(v, ",")], the f-string field [{v:,}]. *)
Definition py_format_comma (v : json) : result string :=
  match v with
  | JInt z => ok (format_int_comma z)
  | JBool b => ok (format_int_comma (if b then 1 else 0))
  | JFloat f => ok (float_format rt "," f)
  | JStr _ => ValueError "Cannot specify ',' with 's'."
  | _ => unsupported_format v
  end.

(** [needle in v] for a string literal [needle]. *)
Definition py_contains_str (needle : string) (v : json) : result bool :=
  match v with
  | JStr s => ok (str_contains needle s)
  | JArr items => ok (List.existsb (fun item => py_eq_str item needle) items)
  | JObj fields => ok (List.existsb (fun kv => String.eqb (fst kv) needle) fields)
  | _ => TypeError ("argument of type '" ++ type_name v ++ "' is not iterable")
  end.

Definition num_le (n : pynum) (c : Z) : bool :=
  match n with
  | NInt z => z <=? c
  | NFloat f => SFleb f (float_of_int c)
  end.

Definition num_lt (n : pynum) (c : Z) : bool :=
  match n with
  | NInt z => z <? c
  | NFloat f => SFltb f (float_of_int c)
  end.

Definition num_floordiv (n : pynum) (d : Z) : pynum :=
  match n with
  | NInt z => NInt (z / d)
  | NFloat f => NFloat (float_floordiv rt f (float_of_int d))
  end.

Definition num_mod (n : pynum) (d : Z) : pynum :=
  match n with
  | NInt z => NInt (z mod d)
  | NFloat f => NFloat (float_mod rt f (float_of_int d))
  end.

Definition num_str (n : pynum) : string :=
  match n with
  | NInt z => str_int z
  | NFloat f => float_repr rt f
  end.

(** [n / d] with [d] a positive int literal. *)
Definition num_truediv (n : pynum) (d : Z) : result spec_float :=
  match n with
  | NInt z =>
      match int_truediv z d with
      | Some f => ok f
      | None => OverflowError "integer division result too large for a float"
      end
  | NFloat f => ok (float_div f (float_of_int d))
  end.

(** The left operand of [ms <= 0] as a number; on a value that is not a
    number the comparison raises. *)
Definition ordered_with_int (ms : json) : result pynum :=
  match as_num ms with
  | Some n => ok n
  | None =>
      TypeError ("'<=' not supported between instances of '" ++ type_name ms
                 ++ "' and 'int'")
  end.

(** ** [_handle_error] (lines 850-880) *)

Definition _handle_error (e : exn) : string :=
  match e with
  | HTTPStatusError status_code =>
      if status_code =? 404 then
        "错误：资源未找到。请检查 ID 是否正确，或者该作业/任务可能已被清理。"
      else if status_code =? 403 then
        "错误：权限不足，无法访问该资源。请检查访问权限配置。"
      else if status_code =? 401 then
        "错误：认证失败。如果启用了安全模式，请检查认证配置。"
      else if status_code =? 500 then
        "错误：服务器内部错误。请检查 JobHistory Server 日志。"
      else if status_code =? 503 then
        "错误：服务暂时不可用。JobHistory Server 可能正在启动或过载。"
      else "错误：API 请求失败，HTTP 状态码 " ++ str_int status_code ++ "。"
  | TimeoutException =>
      "错误：请求超时（" ++ float_repr rt (REQUEST_TIMEOUT cfg)
      ++ "秒）。请检查网络连接或增加超时时间。"
  | ConnectError =>
      "错误：无法连接到 JobHistory Server (" ++ JOBHISTORY_BASE_URL cfg ++ ")。"
      ++ nl ++ "请检查：" ++ nl ++ "1. 服务是否已启动" ++ nl
      ++ "2. 地址和端口是否正确" ++ nl ++ "3. 网络是否可达"
  | PyError cls msg => "错误：" ++ cls ++ " - " ++ msg
  end.

(** ** [_format_timestamp] (lines 883-899) *)

(** The body of the [try]: [datetime.fromtimestamp(ms / 1000).strftime(...)]. *)
Definition timestamp_text (n : pynum) : result string :=
  t <- num_truediv n 1000 ;;
  match fromtimestamp_strftime rt t with
  | CalendarText text => ok text
  | CalendarValueError msg => raise (PyError "ValueError" msg)
  | CalendarOSError msg => raise (PyError "OSError" msg)
  | CalendarOverflowError msg => raise (PyError "OverflowError" msg)
  end.

(** [except (ValueError, OSError)] *)
Definition is_ValueError_or_OSError (e : exn) : bool :=
  match e with
  | PyError cls _ => (String.eqb cls "ValueError" || String.eqb cls "OSError")%bool
  | _ => false
  end.

Definition _format_timestamp (ms : json) : result string :=
  if negb (truthy ms) then ok "N/A"
  else
    n <- ordered_with_int ms ;;
    if num_le n 0 then ok "N/A"
    else
      match timestamp_text n with
      | inr text => ok text
      | inl e => if is_ValueError_or_OSError e then ok "N/A" else raise e
      end.

(** ** [_format_duration] (lines 902-926) *)

Definition _format_duration (ms : json) : result string :=
  if negb (truthy ms) then ok "N/A"
  else
    n <- ordered_with_int ms ;;
    if num_le n 0 then ok "N/A"
    else
      let seconds := num_floordiv n 1000 in
      if num_lt seconds 60 then
        ok (num_str seconds ++ "秒")
      else if num_lt seconds 3600 then
        let minutes := num_floordiv seconds 60 in
        let secs := num_mod seconds 60 in
        ok (num_str minutes ++ "分" ++ num_str secs ++ "秒")
      else
        let hours := num_floordiv seconds 3600 in
        let minutes := num_floordiv (num_mod seconds 3600) 60 in
        let secs := num_mod seconds 60 in
        ok (num_str hours ++ "时" ++ num_str minutes ++ "分"
            ++ num_str secs ++ "秒").

Fixpoint map_result {A B : Type} (f : A -> result B) (l : list A) : result (list B) :=
  match l with
  | [] => ok []
  | a :: rest =>
      b <- f a ;;
      bs <- map_result f rest ;;
      ok (b :: bs)
  end.

(** [f"{d.get(key, default)}"] *)
Definition get_str (d : json) (key : string) (default : json) : result string :=
  v <- py_get d key default ;;
  ok (py_str v).

(** ["\n".join(lines)] when [lines] may hold values that are not strings:
    the first such item raises. *)
Fixpoint join_items (index : Z) (lines : list json) : result (list string) :=
  match lines with
  | [] => ok []
  | JStr s :: rest =>
      pieces <- join_items (index + 1) rest ;;
      ok (s :: pieces)
  | v :: _ =>
      TypeError ("sequence item " ++ str_int index ++ ": expected str instance, "
                 ++ type_name v ++ " found")
  end.

Definition join_checked (lines : list json) : result string :=
  pieces <- join_items 0 lines ;;
  ok (join_lines pieces).

(** ** [_format_counters_markdown] (lines 955-995) *)

(** Lines 968-972: the group list, from the first of the three keys whose
    value is not falsy. *)
Definition counter_groups_of (counters_data : json) : result json :=
  counter_groups <- py_get counters_data "counterGroup" (JArr []) ;;
  counter_groups <-
    (if negb (truthy counter_groups)
     then py_get counters_data "taskCounterGroup" (JArr [])
     else ok counter_groups) ;;
  if negb (truthy counter_groups)
  then py_get counters_data "taskAttemptCounterGroup" (JArr [])
  else ok counter_groups.

(** Line 977: [group_name.split(".")[-1] if "." in group_name else group_name] *)
Definition short_name_of (group_name : json) : result json :=
  dotted <- py_contains_str "." group_name ;;
  if (dotted : bool) then
    match group_name with
    | JStr s => ok (JStr (last_piece (str_split "."%char s)))
    | _ => no_attribute group_name "split"
    end
  else ok group_name.

Definition is_not_None (v : json) : bool :=
  match v with
  | JNull => false
  | _ => true
  end.

(** Line 985: [counter.get("totalCounterValue", counter.get("value", 0))] *)
Definition total_value_of (counter : json) : result json :=
  fallback <- py_get counter "value" (JInt 0) ;;
  py_get counter "totalCounterValue" fallback.

(** Lines 983-992: the line of one counter. *)
Definition counter_line (counter : json) : result string :=
  name <- py_get counter "name" (JStr "Unknown") ;;
  total_value <- total_value_of counter ;;
  map_value <- py_get_opt counter "mapCounterValue" ;;
  reduce_value <- py_get_opt counter "reduceCounterValue" ;;
  if (is_not_None map_value && is_not_None reduce_value)%bool then
    total <- py_format_comma total_value ;;
    map_side <- py_format_comma map_value ;;
    reduce_side <- py_format_comma reduce_value ;;
    ok ("- **" ++ py_str name ++ "**: " ++ total ++ " (Map: " ++ map_side
        ++ ", Reduce: " ++ reduce_side ++ ")")
  else
    total <- py_format_comma total_value ;;
    ok ("- **" ++ py_str name ++ "**: " ++ total).

(** Lines 975-993: the lines of one group. *)
Definition group_lines (group : json) : result (list string) :=
  group_name <- py_get group "counterGroupName" (JStr "Unknown Group") ;;
  short_name <- short_name_of group_name ;;
  counters <- py_get group "counter" (JArr []) ;;
  items <- py_iter counters ;;
  counter_lines <- map_result counter_line items ;;
  ok (List.app ["## " ++ py_str short_name; ""] (List.app counter_lines [""])).

Definition _format_counters_markdown (counters_data : json) (title : string)
    : result string :=
  counter_groups <- counter_groups_of counters_data ;;
  groups <- py_iter counter_groups ;;
  blocks <- map_result group_lines groups ;;
  ok (join_lines (List.app ["# " ++ title; ""] (List.concat blocks))).

(** ** [_extract_hostname] (lines 998-1014) *)

Definition _extract_hostname (node_http_address : json) : result json :=
  has_colon <- py_contains_str ":" node_http_address ;;
  if (has_colon : bool) then
    match node_http_address with
    | JStr s => ok (JStr (first_piece (str_rsplit1 ":"%char s)))
    | _ => no_attribute node_http_address "rsplit"
    end
  else ok node_http_address.

(** ** [_extract_pre_content] (lines 1076-1098) *)

(** [[^>]*>] : up to and including the first [>]; what follows it. *)
Fixpoint after_tag_end (s : string) : option string :=
  match s with
  | EmptyString => None
  | String c rest => if Ascii.eqb c ">"%char then Some rest else after_tag_end rest
  end.

(** [(.*?)</pre>] : the shortest text followed by the closing tag. *)
Fixpoint until_close (s : string) : option string :=
  if prefix_ci "</pre>" s then Some EmptyString
  else match s with
       | EmptyString => None
       | String c rest => option_map (String c) (until_close rest)
       end.

(** The pattern [<pre[^>]*>(.*?)</pre>] matched at the start of [s] under
    DOTALL and IGNORECASE: group 1. *)
Definition match_pre (s : string) : option string :=
  if prefix_ci "<pre" s then
    match after_tag_end (str_drop 4 s) with
    | Some body => until_close body
    | None => None
    end
  else None.

(** [re.search]: the match at the leftmost position that has one. *)
Fixpoint search_pre (html : string) : option string :=
  match match_pre html with
  | Some group1 => Some group1
  | None =>
      match html with
      | EmptyString => None
      | String _ rest => search_pre rest
      end
  end.

(** Lines 1091-1096: the six replacements, in the order of the source. *)
Definition replace_entities (content : string) : string :=
  let content := str_replace "&lt;" "<" content in
  let content := str_replace "&gt;" ">" content in
  let content := str_replace "&amp;" "&" content in
  let content := str_replace "&quot;" dquote content in
  let content := str_replace "&#39;" "'" content in
  let content := str_replace "&nbsp;" " " content in
  content.

Definition _extract_pre_content (html : string) : string :=
  match search_pre html with
  | Some content => str_strip (replace_entities content)
  | None => ""
  end.

(** ** The two upstream operations *)

Local Open Scope io_scope.

Notation "x <~ r ;; k" := (bind (lift r) (fun x => k))
  (at level 61, r at next level, right associativity) : io_scope.

(** [_make_request] (lines 777-847): one GET of [JOBHISTORY_BASE_URL/endpoint];
    the reply is decoded JSON, or the exception of the client, re-raised
    by each of the four [except] clauses. *)
Definition _make_request (endpoint : string) (params : option query) : io json :=
  let url := JOBHISTORY_BASE_URL cfg ++ "/" ++ endpoint in
  HttpGetJson url params lift.

(** [_fetch_logs_html] (lines 1017-1073): one GET of [url], taken whole. *)
Definition _fetch_logs_html (url : string) : io string :=
  HttpGetText url lift.

(** ** [jobhistory_list_jobs] (lines 1164-1265) *)

Definition str_is_truthy (s : string) : bool := negb (String.eqb s "").
Definition int_is_truthy (z : Z) : bool := negb (z =? 0).

(** [if field: query_params[name] = value] *)
Definition add_if {A : Type} (field : option A) (is_truthy : A -> bool)
    (name : string) (value : A -> json) (query_params : query) : query :=
  match field with
  | Some v => if is_truthy v then List.app query_params [(name, value v)] else query_params
  | None => query_params
  end.

(** Lines 1196-1212. *)
Definition list_jobs_query_params (params : ListJobsInput.t) : query :=
  let query_params := [] in
  let query_params :=
    add_if (ListJobsInput.user params) str_is_truthy "user" JStr query_params in
  let query_params :=
    add_if (ListJobsInput.state params)
      (fun s => str_is_truthy (JobState_value s)) "state"
      (fun s => JStr (JobState_value s)) query_params in
  let query_params :=
    add_if (ListJobsInput.queue params) str_is_truthy "queue" JStr query_params in
  let query_params :=
    add_if (ListJobsInput.limit params) int_is_truthy "limit" JInt query_params in
  let query_params :=
    add_if (ListJobsInput.started_time_begin params) int_is_truthy
      "startedTimeBegin" JInt query_params in
  let query_params :=
    add_if (ListJobsInput.started_time_end params) int_is_truthy
      "startedTimeEnd" JInt query_params in
  let query_params :=
    add_if (ListJobsInput.finished_time_begin params) int_is_truthy
      "finishedTimeBegin" JInt query_params in
  let query_params :=
    add_if (ListJobsInput.finished_time_end params) int_is_truthy
      "finishedTimeEnd" JInt query_params in
  query_params.

Definition job_state_icons : list (string * string) :=
  [("SUCCEEDED", "✅"); ("FAILED", "❌"); ("KILLED", "⚠️"); ("RUNNING", "🔄")].

Definition timestamp_field (d : json) (key : string) : result string :=
  (v <- py_get d key (JInt 0) ;; _format_timestamp v)%result.

Definition duration_field (d : json) (key : string) : result string :=
  (v <- py_get d key (JInt 0) ;; _format_duration v)%result.

(** Lines 1235-1261: the lines of one job. *)
Definition job_lines (job : json) : result (list string) :=
  (job_id <- py_get job "id" (JStr "N/A") ;;
   job_name <- py_get job "name" (JStr "N/A") ;;
   state <- py_get job "state" (JStr "N/A") ;;
   user <- py_get job "user" (JStr "N/A") ;;
   queue <- py_get job "queue" (JStr "N/A") ;;
   state_icon <- literal_get job_state_icons state "❓" ;;
   start_time <- timestamp_field job "startTime" ;;
   finish_time <- timestamp_field job "finishTime" ;;
   maps_completed <- get_str job "mapsCompleted" (JInt 0) ;;
   maps_total <- get_str job "mapsTotal" (JInt 0) ;;
   reduces_completed <- get_str job "reducesCompleted" (JInt 0) ;;
   reduces_total <- get_str job "reducesTotal" (JInt 0) ;;
   ok [ "## " ++ state_icon ++ " " ++ py_str job_name;
        "**ID**: `" ++ py_str job_id ++ "`";
        "";
        "| 属性 | 值 |";
        "|------|-----|";
        "| 用户 | " ++ py_str user ++ " |";
        "| 队列 | " ++ py_str queue ++ " |";
        "| 状态 | " ++ py_str state ++ " |";
        "| 开始时间 | " ++ start_time ++ " |";
        "| 结束时间 | " ++ finish_time ++ " |";
        "| Map 进度 | " ++ maps_completed ++ "/" ++ maps_total ++ " |";
        "| Reduce 进度 | " ++ reduces_completed ++ "/" ++ reduces_total ++ " |";
        "" ])%result.

Definition no_jobs_found : string := "没有找到符合条件的作业。".

Definition jobhistory_list_jobs (params : ListJobsInput.t) : io string :=
  try_except
    (let query_params := list_jobs_query_params params in
     data <- _make_request "mapreduce/jobs" (Some query_params) ;;
     jobs_field <~ py_get data "jobs" (JObj []) ;;
     jobs <~ py_get jobs_field "job" (JArr []) ;;
     if negb (truthy jobs) then Return no_jobs_found
     else
       match ListJobsInput.response_format params with
       | JSON =>
           total <~ py_len jobs ;;
           Return (json_dumps rt (JObj [("total", JInt total); ("jobs", jobs)]))
       | MARKDOWN =>
           total <~ py_len jobs ;;
           items <~ py_iter jobs ;;
           blocks <~ map_result job_lines items ;;
           Return (join_lines
                     (List.app [ "# MapReduce 作业列表";
                                 "共找到 **" ++ str_int total ++ "** 个作业";
                                 "" ]
                               (List.concat blocks)))
       end)
    _handle_error.

(** ** [jobhistory_get_info] (lines 1117-1150) *)

Definition jobhistory_get_info : io string :=
  try_except
    (data <- _make_request "info" None ;;
     info <~ py_get data "historyInfo" (JObj []) ;;
     started_on <~ timestamp_field info "startedOn" ;;
     hadoop_version <~ get_str info "hadoopVersion" (JStr "N/A") ;;
     hadoop_build_version <~ get_str info "hadoopBuildVersion" (JStr "N/A") ;;
     hadoop_version_built_on <~ get_str info "hadoopVersionBuiltOn" (JStr "N/A") ;;
     Return (join_lines
               [ "# JobHistory Server 信息";
                 "";
                 "## 服务状态";
                 "- **启动时间**: " ++ started_on;
                 "- **运行状态**: 正常";
                 "";
                 "## Hadoop 版本信息";
                 "- **版本**: " ++ hadoop_version;
                 "- **构建版本**: " ++ hadoop_build_version;
                 "- **构建时间**: " ++ hadoop_version_built_on;
                 "";
                 "## 连接信息";
                 "- **服务地址**: " ++ JOBHISTORY_BASE_URL cfg;
                 "" ]))
    _handle_error.

(** ** [jobhistory_get_job] (lines 1279-1374) *)

(** Line 1370: one row of the access-control table. *)
Definition acl_line (acl : json) : result json :=
  (name <- get_str acl "name" (JStr "N/A") ;;
   value <- get_str acl "value" (JStr "N/A") ;;
   ok (JStr ("| " ++ name ++ " | " ++ value ++ " |")))%result.

(** Lines 1306-1372: the narrative rendering of a job. *)
Definition job_markdown (job : json) : result string :=
  (state <- py_get job "state" (JStr "N/A") ;;
   state_icon <- literal_get job_state_icons state "❓" ;;
   name <- get_str job "name" (JStr "N/A") ;;
   id <- get_str job "id" (JStr "N/A") ;;
   user <- get_str job "user" (JStr "N/A") ;;
   queue <- get_str job "queue" (JStr "N/A") ;;
   uberized <- py_get_opt job "uberized" ;;
   submit_time <- timestamp_field job "submitTime" ;;
   start_time <- timestamp_field job "startTime" ;;
   finish_time <- timestamp_field job "finishTime" ;;
   maps_completed <- get_str job "mapsCompleted" (JInt 0) ;;
   maps_total <- get_str job "mapsTotal" (JInt 0) ;;
   successful_maps <- get_str job "successfulMapAttempts" (JInt 0) ;;
   failed_maps <- get_str job "failedMapAttempts" (JInt 0) ;;
   killed_maps <- get_str job "killedMapAttempts" (JInt 0) ;;
   reduces_completed <- get_str job "reducesCompleted" (JInt 0) ;;
   reduces_total <- get_str job "reducesTotal" (JInt 0) ;;
   successful_reduces <- get_str job "successfulReduceAttempts" (JInt 0) ;;
   failed_reduces <- get_str job "failedReduceAttempts" (JInt 0) ;;
   killed_reduces <- get_str job "killedReduceAttempts" (JInt 0) ;;
   avg_map_time <- duration_field job "avgMapTime" ;;
   avg_reduce_time <- duration_field job "avgReduceTime" ;;
   avg_shuffle_time <- duration_field job "avgShuffleTime" ;;
   avg_merge_time <- duration_field job "avgMergeTime" ;;
   let lines :=
     List.map JStr
       [ "# " ++ state_icon ++ " 作业详情: " ++ name;
         "";
         "## 基本信息";
         "| 属性 | 值 |";
         "|------|-----|";
         "| 作业 ID | `" ++ id ++ "` |";
         "| 作业名称 | " ++ name ++ " |";
         "| 用户 | " ++ user ++ " |";
         "| 队列 | " ++ queue ++ " |";
         "| 状态 | " ++ py_str state ++ " |";
         "| Uber 模式 | " ++ (if truthy uberized then "是" else "否") ++ " |";
         "";
         "## 时间信息";
         "| 阶段 | 时间 |";
         "|------|-----|";
         "| 提交时间 | " ++ submit_time ++ " |";
         "| 开始时间 | " ++ start_time ++ " |";
         "| 结束时间 | " ++ finish_time ++ " |";
         "";
         "## 任务统计";
         "| 类型 | 完成/总数 | 成功 | 失败 | 终止 |";
         "|------|----------|------|------|------|";
         "| Map | " ++ maps_completed ++ "/" ++ maps_total ++ " | "
           ++ successful_maps ++ " | " ++ failed_maps ++ " | " ++ killed_maps ++ " |";
         "| Reduce | " ++ reduces_completed ++ "/" ++ reduces_total ++ " | "
           ++ successful_reduces ++ " | " ++ failed_reduces ++ " | "
           ++ killed_reduces ++ " |";
         "";
         "## 性能统计";
         "| 指标 | 耗时 |";
         "|------|------|";
         "| 平均 Map 时间 | " ++ avg_map_time ++ " |";
         "| 平均 Reduce 时间 | " ++ avg_reduce_time ++ " |";
         "| 平均 Shuffle 时间 | " ++ avg_shuffle_time ++ " |";
         "| 平均 Merge 时间 | " ++ avg_merge_time ++ " |" ] in
   diagnostics <- py_get_opt job "diagnostics" ;;
   let lines :=
     if truthy diagnostics then
       List.app lines
         [JStr ""; JStr "## 诊断信息"; JStr "```"; diagnostics; JStr "```"]
     else lines in
   acls <- py_get job "acls" (JArr []) ;;
   lines <-
     (if truthy acls then
        items <- py_iter acls ;;
        rows <- map_result acl_line items ;;
        ok (List.app lines
              (List.app [JStr ""; JStr "## 访问控制"; JStr "| ACL 名称 | 值 |";
                         JStr "|----------|-----|"]
                        rows))
      else ok lines) ;;
   join_checked lines)%result.

Definition jobhistory_get_job (params : GetJobInput.t) : io string :=
  try_except
    (data <- _make_request ("mapreduce/jobs/" ++ GetJobInput.job_id params) None ;;
     job <~ py_get data "job" (JObj []) ;;
     match GetJobInput.response_format params with
     | JSON => Return (json_dumps rt job)
     | MARKDOWN => lift (job_markdown job)
     end)
    _handle_error.

(** ** The three counter handlers (lines 1388-1417, 1726-1751, 1931-1956) *)

(** What follows the request in each of them: [counters] is the reply's
    field [key], [own_id] the identifier of the input and [label] the
    literal part of the title. *)
Definition counters_reply (data : json) (key : string) (format : ResponseFormat)
    (own_id : string) (label : string) : io string :=
  counters <~ py_get data key (JObj []) ;;
  match format with
  | JSON => Return (json_dumps rt counters)
  | MARKDOWN =>
      id <~ py_get counters "id" (JStr own_id) ;;
      lift (_format_counters_markdown counters (label ++ py_str id))
  end.

Definition jobhistory_get_job_counters (params : GetJobCountersInput.t) : io string :=
  try_except
    (data <- _make_request
               ("mapreduce/jobs/" ++ GetJobCountersInput.job_id params ++ "/counters")
               None ;;
     counters_reply data "jobCounters" (GetJobCountersInput.response_format params)
       (GetJobCountersInput.job_id params) "作业计数器: ")
    _handle_error.

Definition jobhistory_get_task_counters (params : GetTaskCountersInput.t) : io string :=
  try_except
    (data <- _make_request
               ("mapreduce/jobs/" ++ GetTaskCountersInput.job_id params
                ++ "/tasks/" ++ GetTaskCountersInput.task_id params ++ "/counters")
               None ;;
     counters_reply data "jobTaskCounters"
       (GetTaskCountersInput.response_format params)
       (GetTaskCountersInput.task_id params) "任务计数器: ")
    _handle_error.

Definition jobhistory_get_task_attempt_counters
    (params : GetTaskAttemptCountersInput.t) : io string :=
  try_except
    (data <- _make_request
               ("mapreduce/jobs/" ++ GetTaskAttemptCountersInput.job_id params
                ++ "/tasks/" ++ GetTaskAttemptCountersInput.task_id params
                ++ "/attempts/" ++ GetTaskAttemptCountersInput.attempt_id params
                ++ "/counters")
               None ;;
     counters_reply data "jobTaskAttemptCounters"
       (GetTaskAttemptCountersInput.response_format params)
       (GetTaskAttemptCountersInput.attempt_id params) "任务尝试计数器: ")
    _handle_error.

(** ** [jobhistory_get_job_conf] (lines 1431-1500) *)

(** [float(n)]; too large an int raises. *)
Definition int_to_float (z : Z) : result spec_float :=
  match float_of_int z with
  | S754_infinity _ => OverflowError "int too large to convert to float"
  | f => ok f
  end.

(** [format(v, ".1f")], the f-string field [{v:.1f}]. *)
Definition py_format_1f (v : json) : result string :=
  match v with
  | JInt z => (f <- int_to_float z ;; ok (float_format rt ".1f" f))%result
  | JBool b =>
      (f <- int_to_float (if b then 1 else 0) ;; ok (float_format rt ".1f" f))%result
  | JFloat f => ok (float_format rt ".1f" f)
  | JStr _ => ValueError "Unknown format code 'f' for object of type 'str'"
  | _ => unsupported_format v
  end.

(** [v.lower()] *)
Definition py_lower (v : json) : result string :=
  match v with
  | JStr s => ok (str_lower rt s)
  | _ => no_attribute v "lower"
  end.

(** Line 1465: [filter_lower in p.get('name', '').lower()] *)
Definition name_matches (filter_lower : string) (p : json) : result bool :=
  (name <- py_get p "name" (JStr "") ;;
   lowered <- py_lower name ;;
   ok (str_contains filter_lower lowered))%result.

Fixpoint filter_result {A : Type} (f : A -> result bool) (l : list A)
    : result (list A) :=
  match l with
  | [] => ok []
  | a :: rest =>
      (keep <- f a ;;
       kept <- filter_result f rest ;;
       ok (if (keep : bool) then a :: kept else kept))%result
  end.

(** Line 1480: [name.split('.')[0] if '.' in name else 'other'] *)
Definition prefix_of (name : json) : result string :=
  (dotted <- py_contains_str "." name ;;
   if (dotted : bool) then
     match name with
     | JStr s => ok (first_piece (str_split "."%char s))
     | _ => no_attribute name "split"
     end
   else ok "other")%result.

(** Lines 1481-1483: [prop] appended to the list of its prefix, a new
    prefix going last. *)
Fixpoint group_add (prefix : string) (prop : json)
    (groups : list (string * list json)) : list (string * list json) :=
  match groups with
  | [] => [(prefix, [prop])]
  | (p, props) :: rest =>
      if String.eqb p prefix then (p, List.app props [prop]) :: rest
      else (p, props) :: group_add prefix prop rest
  end.

Fixpoint group_by_prefix (properties : list json)
    (groups : list (string * list json)) : result (list (string * list json)) :=
  match properties with
  | [] => ok groups
  | prop :: rest =>
      (name <- py_get prop "name" (JStr "") ;;
       prefix <- prefix_of name ;;
       group_by_prefix rest (group_add prefix prop groups))%result
  end.

(** [sorted(groups.keys())], with the list of each key. *)
Fixpoint insert_sorted (entry : string * list json)
    (sorted : list (string * list json)) : list (string * list json) :=
  match sorted with
  | [] => [entry]
  | e :: rest =>
      if String.leb (fst entry) (fst e) then entry :: e :: rest
      else e :: insert_sorted entry rest
  end.

Definition sorted_groups (groups : list (string * list json))
    : list (string * list json) :=
  List.fold_right insert_sorted [] groups.

(** [value[:100] + "..."] *)
Definition truncated (value : json) : result json :=
  match value with
  | JStr s => ok (JStr (String.concat "" (List.firstn 100 (utf8_chars s)) ++ "..."))
  | JObj _ => raise (dict_slice_error rt)
  | _ =>
      TypeError ("can only concatenate list (not " ++ dquote ++ "str" ++ dquote
                 ++ ") to list")
  end.

(** Lines 1490-1495: the line of one property. *)
Definition property_line (prop : json) : result string :=
  (name <- py_get prop "name" (JStr "N/A") ;;
   value <- py_get prop "value" (JStr "N/A") ;;
   size <- py_len value ;;
   value <- (if 100 <? size then truncated value else ok value) ;;
   ok ("- `" ++ py_str name ++ "` = `" ++ py_str value ++ "`"))%result.

(** Lines 1487-1496: the lines of one prefix. *)
Definition prefix_lines (entry : string * list json) : result (list string) :=
  (let (prefix, props) := entry in
   rows <- map_result property_line props ;;
   ok (List.app
         [ "## " ++ prefix ++ " (" ++ str_int (Z.of_nat (List.length props)) ++ " 项)";
           "" ]
         (List.app rows [""])))%result.

(** Lines 1457-1498. *)
Definition conf_markdown (job_id : string) (filter_key : option string)
    (conf : json) : result string :=
  (path <- py_get conf "path" (JStr "N/A") ;;
   properties <- py_get conf "property" (JArr []) ;;
   let filtering :=
     match filter_key with
     | Some key => str_is_truthy key
     | None => false
     end in
   properties <-
     (if filtering then
        let filter_lower :=
          str_lower rt (match filter_key with Some key => key | None => "" end) in
        items <- py_iter properties ;;
        kept <- filter_result (name_matches filter_lower) items ;;
        ok (JArr kept)
      else ok properties) ;;
   size <- py_len properties ;;
   let lines :=
     [ "# 作业配置: " ++ job_id;
       "**配置文件路径**: `" ++ py_str path ++ "`";
       "";
       "共 **" ++ str_int size ++ "** 个配置项"
         ++ (if filtering then
               "（过滤: '" ++ match filter_key with Some key => key | None => "" end
               ++ "'）"
             else "");
       "" ] in
   items <- py_iter properties ;;
   groups <- group_by_prefix items [] ;;
   blocks <- map_result prefix_lines (sorted_groups groups) ;;
   ok (join_lines (List.app lines (List.concat blocks))))%result.

Definition jobhistory_get_job_conf (params : GetJobConfInput.t) : io string :=
  try_except
    (data <- _make_request
               ("mapreduce/jobs/" ++ GetJobConfInput.job_id params ++ "/conf") None ;;
     conf <~ py_get data "conf" (JObj []) ;;
     match GetJobConfInput.response_format params with
     | JSON => Return (json_dumps rt conf)
     | MARKDOWN =>
         lift (conf_markdown (GetJobConfInput.job_id params)
                 (GetJobConfInput.filter_key params) conf)
     end)
    _handle_error.

(** ** [jobhistory_get_job_attempts] (lines 1514-1564) *)

(** Lines 1547-1560: the lines of one attempt of the application master. *)
Definition job_attempt_lines (attempt : json) : result (list string) :=
  (attempt_id <- get_str attempt "id" (JStr "N/A") ;;
   container_id <- get_str attempt "containerId" (JStr "N/A") ;;
   node_id <- get_str attempt "nodeId" (JStr "N/A") ;;
   node_http_address <- get_str attempt "nodeHttpAddress" (JStr "N/A") ;;
   start_time <- timestamp_field attempt "startTime" ;;
   logs_link <- py_get attempt "logsLink" (JStr "") ;;
   ok (List.app
         [ "## 尝试 #" ++ attempt_id;
           "";
           "| 属性 | 值 |";
           "|------|-----|";
           "| 容器 ID | `" ++ container_id ++ "` |";
           "| 节点 ID | " ++ node_id ++ " |";
           "| 节点 HTTP 地址 | " ++ node_http_address ++ " |";
           "| 开始时间 | " ++ start_time ++ " |" ]
         (List.app
            (if truthy logs_link
             then ["| 日志链接 | [查看日志](" ++ py_str logs_link ++ ") |"]
             else [])
            [""])))%result.

Definition jobhistory_get_job_attempts (params : GetJobAttemptsInput.t) : io string :=
  try_except
    (data <- _make_request
               ("mapreduce/jobs/" ++ GetJobAttemptsInput.job_id params ++ "/jobattempts")
               None ;;
     attempts_field <~ py_get data "jobAttempts" (JObj []) ;;
     attempts <~ py_get attempts_field "jobAttempt" (JArr []) ;;
     match GetJobAttemptsInput.response_format params with
     | JSON =>
         total <~ py_len attempts ;;
         Return (json_dumps rt (JObj [("total", JInt total); ("attempts", attempts)]))
     | MARKDOWN =>
         if negb (truthy attempts) then Return "没有找到作业尝试记录。"
         else
           total <~ py_len attempts ;;
           items <~ py_iter attempts ;;
           blocks <~ map_result job_attempt_lines items ;;
           Return (join_lines
                     (List.app
                        [ "# 作业尝试列表: " ++ GetJobAttemptsInput.job_id params;
                          "共 **" ++ str_int total ++ "** 次尝试";
                          "" ]
                        (List.concat blocks)))
     end)
    _handle_error.

(** ** [jobhistory_list_tasks] (lines 1578-1653) *)

(** Lines 1622-1623: [[t for t in tasks if t.get('type') == kind]] *)
Definition tasks_of_type (kind : string) (tasks : list json) : result (list json) :=
  filter_result
    (fun t => (type <- py_get_opt t "type" ;; ok (py_eq_str type kind))%result)
    tasks.

(** Lines 1631-1635 and 1644-1648: the row of one task. *)
Definition task_row (task : json) : result string :=
  (task_id <- py_get task "id" (JStr "N/A") ;;
   state <- py_get task "state" (JStr "N/A") ;;
   progress <- py_get task "progress" (JInt 0) ;;
   elapsed <- duration_field task "elapsedTime" ;;
   progress_text <- py_format_1f progress ;;
   ok ("| `" ++ py_str task_id ++ "` | " ++ py_str state ++ " | " ++ progress_text
       ++ "% | " ++ elapsed ++ " |"))%result.

(** Lines 1625-1636 and 1638-1649: the table of the tasks of one type. *)
Definition task_table (heading : string) (tasks : list json) : result (list string) :=
  match tasks with
  | [] => ok []
  | _ :: _ =>
      (rows <- map_result task_row tasks ;;
       ok (List.app
             [ "## " ++ heading ++ " 任务 (" ++ str_int (Z.of_nat (List.length tasks))
               ++ " 个)";
               "";
               "| 任务 ID | 状态 | 进度 | 耗时 |";
               "|---------|------|------|------|" ]
             (List.app rows [""])))%result
  end.

Definition jobhistory_list_tasks (params : ListTasksInput.t) : io string :=
  try_except
    (let query_params :=
       add_if (ListTasksInput.task_type params)
         (fun t => str_is_truthy (TaskType_value t)) "type"
         (fun t => JStr (TaskType_value t)) [] in
     data <- _make_request
               ("mapreduce/jobs/" ++ ListTasksInput.job_id params ++ "/tasks")
               (Some query_params) ;;
     tasks_field <~ py_get data "tasks" (JObj []) ;;
     tasks <~ py_get tasks_field "task" (JArr []) ;;
     match ListTasksInput.response_format params with
     | JSON =>
         total <~ py_len tasks ;;
         Return (json_dumps rt (JObj [("total", JInt total); ("tasks", tasks)]))
     | MARKDOWN =>
         if negb (truthy tasks) then Return "没有找到任务。"
         else
           total <~ py_len tasks ;;
           items <~ py_iter tasks ;;
           map_tasks <~ tasks_of_type "MAP" items ;;
           reduce_tasks <~ tasks_of_type "REDUCE" items ;;
           map_table <~ task_table "Map" map_tasks ;;
           reduce_table <~ task_table "Reduce" reduce_tasks ;;
           Return (join_lines
                     (List.app
                        [ "# 任务列表: " ++ ListTasksInput.job_id params;
                          "共 **" ++ str_int total ++ "** 个任务";
                          "" ]
                        (List.app map_table reduce_table)))
     end)
    _handle_error.

(** ** [jobhistory_get_task] (lines 1667-1712) *)

Definition task_markdown (task : json) : result string :=
  (task_type <- py_get task "type" (JStr "UNKNOWN") ;;
   state <- py_get task "state" (JStr "N/A") ;;
   state_icon <- literal_get job_state_icons state "❓" ;;
   id <- get_str task "id" (JStr "N/A") ;;
   progress <- py_get task "progress" (JInt 0) ;;
   progress_text <- py_format_1f progress ;;
   start_time <- timestamp_field task "startTime" ;;
   finish_time <- timestamp_field task "finishTime" ;;
   elapsed <- duration_field task "elapsedTime" ;;
   successful_attempt <- get_str task "successfulAttempt" (JStr "N/A") ;;
   ok (join_lines
         [ "# " ++ state_icon ++ " 任务详情: " ++ id;
           "";
           "| 属性 | 值 |";
           "|------|-----|";
           "| 任务 ID | `" ++ id ++ "` |";
           "| 类型 | " ++ py_str task_type ++ " |";
           "| 状态 | " ++ py_str state ++ " |";
           "| 进度 | " ++ progress_text ++ "% |";
           "| 开始时间 | " ++ start_time ++ " |";
           "| 结束时间 | " ++ finish_time ++ " |";
           "| 耗时 | " ++ elapsed ++ " |";
           "| 成功尝试 | `" ++ successful_attempt ++ "` |" ]))%result.

Definition jobhistory_get_task (params : GetTaskInput.t) : io string :=
  try_except
    (data <- _make_request
               ("mapreduce/jobs/" ++ GetTaskInput.job_id params ++ "/tasks/"
                ++ GetTaskInput.task_id params)
               None ;;
     task <~ py_get data "task" (JObj []) ;;
     match GetTaskInput.response_format params with
     | JSON => Return (json_dumps rt task)
     | MARKDOWN => lift (task_markdown task)
     end)
    _handle_error.

(** ** [jobhistory_list_task_attempts] (lines 1765-1829) *)

Definition attempt_state_icons : list (string * string) :=
  [("SUCCEEDED", "✅"); ("FAILED", "❌"); ("KILLED", "⚠️")].

(** Lines 1800-1825: the lines of one attempt. *)
Definition task_attempt_lines (attempt : json) : result (list string) :=
  (attempt_id <- py_get attempt "id" (JStr "N/A") ;;
   state <- py_get attempt "state" (JStr "N/A") ;;
   state_icon <- literal_get attempt_state_icons state "❓" ;;
   type <- get_str attempt "type" (JStr "N/A") ;;
   progress <- py_get attempt "progress" (JInt 0) ;;
   progress_text <- py_format_1f progress ;;
   container_id <- get_str attempt "assignedContainerId" (JStr "N/A") ;;
   node <- get_str attempt "nodeHttpAddress" (JStr "N/A") ;;
   rack <- get_str attempt "rack" (JStr "N/A") ;;
   start_time <- timestamp_field attempt "startTime" ;;
   finish_time <- timestamp_field attempt "finishTime" ;;
   elapsed <- duration_field attempt "elapsedTime" ;;
   diagnostics <- py_get_opt attempt "diagnostics" ;;
   ok (List.app
         [ "## " ++ state_icon ++ " " ++ py_str attempt_id;
           "";
           "| 属性 | 值 |";
           "|------|-----|";
           "| 状态 | " ++ py_str state ++ " |";
           "| 类型 | " ++ type ++ " |";
           "| 进度 | " ++ progress_text ++ "% |";
           "| 容器 ID | `" ++ container_id ++ "` |";
           "| 节点 | " ++ node ++ " |";
           "| 机架 | " ++ rack ++ " |";
           "| 开始时间 | " ++ start_time ++ " |";
           "| 结束时间 | " ++ finish_time ++ " |";
           "| 耗时 | " ++ elapsed ++ " |" ]
         (List.app
            (if truthy diagnostics
             then ["| 诊断信息 | " ++ py_str diagnostics ++ " |"]
             else [])
            [""])))%result.

Definition jobhistory_list_task_attempts (params : ListTaskAttemptsInput.t)
    : io string :=
  try_except
    (data <- _make_request
               ("mapreduce/jobs/" ++ ListTaskAttemptsInput.job_id params ++ "/tasks/"
                ++ ListTaskAttemptsInput.task_id params ++ "/attempts")
               None ;;
     attempts_field <~ py_get data "taskAttempts" (JObj []) ;;
     attempts <~ py_get attempts_field "taskAttempt" (JArr []) ;;
     match ListTaskAttemptsInput.response_format params with
     | JSON =>
         total <~ py_len attempts ;;
         Return (json_dumps rt (JObj [("total", JInt total); ("attempts", attempts)]))
     | MARKDOWN =>
         if negb (truthy attempts) then Return "没有找到任务尝试记录。"
         else
           total <~ py_len attempts ;;
           items <~ py_iter attempts ;;
           blocks <~ map_result task_attempt_lines items ;;
           Return (join_lines
                     (List.app
                        [ "# 任务尝试列表";
                          "**任务 ID**: `" ++ ListTaskAttemptsInput.task_id params ++ "`";
                          "共 **" ++ str_int total ++ "** 次尝试";
                          "" ]
                        (List.concat blocks)))
     end)
    _handle_error.

(** ** [jobhistory_get_task_attempt] (lines 1843-1917) *)

Definition task_attempt_markdown (attempt : json) : result string :=
  (state <- py_get attempt "state" (JStr "N/A") ;;
   state_icon <- literal_get attempt_state_icons state "❓" ;;
   id <- get_str attempt "id" (JStr "N/A") ;;
   type <- get_str attempt "type" (JStr "N/A") ;;
   progress <- py_get attempt "progress" (JInt 0) ;;
   progress_text <- py_format_1f progress ;;
   container_id <- get_str attempt "assignedContainerId" (JStr "N/A") ;;
   node <- get_str attempt "nodeHttpAddress" (JStr "N/A") ;;
   rack <- get_str attempt "rack" (JStr "N/A") ;;
   start_time <- timestamp_field attempt "startTime" ;;
   finish_time <- timestamp_field attempt "finishTime" ;;
   elapsed <- duration_field attempt "elapsedTime" ;;
   let lines :=
     List.map JStr
       [ "# " ++ state_icon ++ " 任务尝试详情";
         "**尝试 ID**: `" ++ id ++ "`";
         "";
         "## 基本信息";
         "| 属性 | 值 |";
         "|------|-----|";
         "| 状态 | " ++ py_str state ++ " |";
         "| 类型 | " ++ type ++ " |";
         "| 进度 | " ++ progress_text ++ "% |";
         "";
         "## 执行环境";
         "| 属性 | 值 |";
         "|------|-----|";
         "| 容器 ID | `" ++ container_id ++ "` |";
         "| 节点地址 | " ++ node ++ " |";
         "| 机架 | " ++ rack ++ " |";
         "";
         "## 时间信息";
         "| 阶段 | 时间/耗时 |";
         "|------|----------|";
         "| 开始时间 | " ++ start_time ++ " |";
         "| 结束时间 | " ++ finish_time ++ " |";
         "| 总耗时 | " ++ elapsed ++ " |" ] in
   attempt_type <- py_get_opt attempt "type" ;;
   lines <-
     (if py_eq_str attempt_type "REDUCE" then
        shuffle_finish <- timestamp_field attempt "shuffleFinishTime" ;;
        merge_finish <- timestamp_field attempt "mergeFinishTime" ;;
        elapsed_shuffle <- duration_field attempt "elapsedShuffleTime" ;;
        elapsed_merge <- duration_field attempt "elapsedMergeTime" ;;
        elapsed_reduce <- duration_field attempt "elapsedReduceTime" ;;
        ok (List.app lines
              (List.map JStr
                 [ "| Shuffle 完成时间 | " ++ shuffle_finish ++ " |";
                   "| Merge 完成时间 | " ++ merge_finish ++ " |";
                   "| Shuffle 耗时 | " ++ elapsed_shuffle ++ " |";
                   "| Merge 耗时 | " ++ elapsed_merge ++ " |";
                   "| Reduce 耗时 | " ++ elapsed_reduce ++ " |" ]))
      else ok lines) ;;
   diagnostics <- py_get_opt attempt "diagnostics" ;;
   let lines :=
     if truthy diagnostics then
       List.app lines
         [JStr ""; JStr "## 诊断信息"; JStr "```"; diagnostics; JStr "```"]
     else lines in
   join_checked lines)%result.

Definition jobhistory_get_task_attempt (params : GetTaskAttemptInput.t) : io string :=
  try_except
    (data <- _make_request
               ("mapreduce/jobs/" ++ GetTaskAttemptInput.job_id params ++ "/tasks/"
                ++ GetTaskAttemptInput.task_id params ++ "/attempts/"
                ++ GetTaskAttemptInput.attempt_id params)
               None ;;
     attempt <~ py_get data "taskAttempt" (JObj []) ;;
     match GetTaskAttemptInput.response_format params with
     | JSON => Return (json_dumps rt attempt)
     | MARKDOWN => lift (task_attempt_markdown attempt)
     end)
    _handle_error.

(** ** [jobhistory_get_task_attempt_logs] (lines 1970-2081) *)

Definition no_container_id : string :=
  "错误：无法获取容器 ID 信息。请检查 attempt_id 是否正确。".
Definition no_node_address : string :=
  "错误：无法获取节点地址信息。请检查 attempt_id 是否正确。".
Definition no_job_user : string :=
  "错误：无法获取作业用户信息。请检查 job_id 是否正确。".

Definition attempt_endpoint (job_id task_id attempt_id : string) : string :=
  "mapreduce/jobs/" ++ job_id ++ "/tasks/" ++ task_id ++ "/attempts/" ++ attempt_id.

Definition empty_log (log_url : string) : string :=
  "日志为空或无法解析日志内容。" ++ nl ++ nl ++ "**日志 URL**: " ++ log_url.

Definition jobhistory_get_task_attempt_logs (params : GetTaskAttemptLogsInput.t)
    : io string :=
  let job_id := GetTaskAttemptLogsInput.job_id params in
  let task_id := GetTaskAttemptLogsInput.task_id params in
  let attempt_id := GetTaskAttemptLogsInput.attempt_id params in
  let log_type := LogType_value (GetTaskAttemptLogsInput.log_type params) in
  try_except
    (attempt_data <- _make_request (attempt_endpoint job_id task_id attempt_id) None ;;
     attempt <~ py_get attempt_data "taskAttempt" (JObj []) ;;
     container_id <~ py_get_opt attempt "assignedContainerId" ;;
     node_http_address <~ py_get_opt attempt "nodeHttpAddress" ;;
     if negb (truthy container_id) then Return no_container_id
     else if negb (truthy node_http_address) then Return no_node_address
     else
       job_data <- _make_request ("mapreduce/jobs/" ++ job_id) None ;;
       job <~ py_get job_data "job" (JObj []) ;;
       user <~ py_get_opt job "user" ;;
       if negb (truthy user) then Return no_job_user
       else
         hostname <~ _extract_hostname node_http_address ;;
         let node_manager := py_str hostname ++ ":" ++ NODEMANAGER_PORT cfg in
         let log_url :=
           LOGS_BASE_URL cfg ++ "/" ++ node_manager ++ "/" ++ py_str container_id ++ "/"
           ++ attempt_id ++ "/" ++ py_str user ++ "/" ++ log_type ++ "/"
           ++ "?start=0&start.time=0&end.time=9223372036854775807" in
         html_content <- _fetch_logs_html log_url ;;
         let log_content := _extract_pre_content html_content in
         if negb (str_is_truthy log_content) then Return (empty_log log_url)
         else
           match GetTaskAttemptLogsInput.response_format params with
           | JSON =>
               Return (json_dumps rt
                         (JObj [ ("job_id", JStr job_id);
                                 ("task_id", JStr task_id);
                                 ("attempt_id", JStr attempt_id);
                                 ("container_id", container_id);
                                 ("node_manager", JStr node_manager);
                                 ("user", user);
                                 ("log_type", JStr log_type);
                                 ("log_url", JStr log_url);
                                 ("content", JStr log_content) ]))
           | MARKDOWN =>
               Return (join_lines
                         [ "# 任务尝试日志: " ++ log_type;
                           "";
                           "## 日志信息";
                           "| 属性 | 值 |";
                           "|------|-----|";
                           "| 作业 ID | `" ++ job_id ++ "` |";
                           "| 任务 ID | `" ++ task_id ++ "` |";
                           "| 尝试 ID | `" ++ attempt_id ++ "` |";
                           "| 容器 ID | `" ++ py_str container_id ++ "` |";
                           "| 节点 | " ++ node_manager ++ " |";
                           "| 用户 | " ++ py_str user ++ " |";
                           "| 日志类型 | " ++ log_type ++ " |";
                           "";
                           "## 日志内容";
                           "```";
                           log_content;
                           "```" ])
           end)
    _handle_error.

(** ** [jobhistory_get_task_attempt_logs_partial] (lines 2095-2231) *)

(** Lines 2176-2181. *)
Definition range_desc (start end_ : Z) : string :=
  if start <? 0 then "末尾 " ++ str_int (Z.abs start) ++ " 字节"
  else if end_ =? 0 then "从 " ++ str_int start ++ " 字节到末尾"
  else str_int start ++ " - " ++ str_int end_ ++ " 字节".

Definition jobhistory_get_task_attempt_logs_partial
    (params : GetTaskAttemptLogsPartialInput.t) : io string :=
  let job_id := GetTaskAttemptLogsPartialInput.job_id params in
  let task_id := GetTaskAttemptLogsPartialInput.task_id params in
  let attempt_id := GetTaskAttemptLogsPartialInput.attempt_id params in
  let log_type := LogType_value (GetTaskAttemptLogsPartialInput.log_type params) in
  let start := GetTaskAttemptLogsPartialInput.start params in
  let end_ := GetTaskAttemptLogsPartialInput.end_ params in
  try_except
    (attempt_data <- _make_request (attempt_endpoint job_id task_id attempt_id) None ;;
     attempt <~ py_get attempt_data "taskAttempt" (JObj []) ;;
     container_id <~ py_get_opt attempt "assignedContainerId" ;;
     node_http_address <~ py_get_opt attempt "nodeHttpAddress" ;;
     if negb (truthy container_id) then Return no_container_id
     else if negb (truthy node_http_address) then Return no_node_address
     else
       job_data <- _make_request ("mapreduce/jobs/" ++ job_id) None ;;
       job <~ py_get job_data "job" (JObj []) ;;
       user <~ py_get_opt job "user" ;;
       if negb (truthy user) then Return no_job_user
       else
         hostname <~ _extract_hostname node_http_address ;;
         let node_manager := py_str hostname ++ ":" ++ NODEMANAGER_PORT cfg in
         let log_url :=
           LOGS_BASE_URL cfg ++ "/" ++ node_manager ++ "/" ++ py_str container_id ++ "/"
           ++ attempt_id ++ "/" ++ py_str user ++ "/" ++ log_type ++ "/"
           ++ "?start=" ++ str_int start ++ "&end=" ++ str_int end_ in
         html_content <- _fetch_logs_html log_url ;;
         let log_content := _extract_pre_content html_content in
         if negb (str_is_truthy log_content) then Return (empty_log log_url)
         else
           let content_length := Z.of_nat (List.length (utf8_chars log_content)) in
           match GetTaskAttemptLogsPartialInput.response_format params with
           | JSON =>
               Return (json_dumps rt
                         (JObj [ ("job_id", JStr job_id);
                                 ("task_id", JStr task_id);
                                 ("attempt_id", JStr attempt_id);
                                 ("container_id", container_id);
                                 ("node_manager", JStr node_manager);
                                 ("user", user);
                                 ("log_type", JStr log_type);
                                 ("byte_range",
                                  JObj [ ("start", JInt start);
                                         ("end", JInt end_);
                                         ("description", JStr (range_desc start end_)) ]);
                                 ("log_url", JStr log_url);
                                 ("content_length", JInt content_length);
                                 ("content", JStr log_content) ]))
           | MARKDOWN =>
               Return (join_lines
                         [ "# 任务尝试日志（部分）: " ++ log_type;
                           "";
                           "## 日志信息";
                           "| 属性 | 值 |";
                           "|------|-----|";
                           "| 作业 ID | `" ++ job_id ++ "` |";
                           "| 任务 ID | `" ++ task_id ++ "` |";
                           "| 尝试 ID | `" ++ attempt_id ++ "` |";
                           "| 容器 ID | `" ++ py_str container_id ++ "` |";
                           "| 节点 | " ++ node_manager ++ " |";
                           "| 用户 | " ++ py_str user ++ " |";
                           "| 日志类型 | " ++ log_type ++ " |";
                           "| 读取范围 | " ++ range_desc start end_ ++ " |";
                           "| 内容长度 | " ++ str_int content_length ++ " 字节 |";
                           "";
                           "## 日志内容";
                           "```";
                           log_content;
                           "```";
                           "";
                           "*提示：如需完整日志，请使用 `jobhistory_get_task_attempt_logs` 工具*" ])
           end)
    _handle_error.

(** ** The tools the server registers *)

Inductive tool_call : Type :=
| get_info
| list_jobs (params : ListJobsInput.t)
| get_job (params : GetJobInput.t)
| get_job_counters (params : GetJobCountersInput.t)
| get_job_conf (params : GetJobConfInput.t)
| get_job_attempts (params : GetJobAttemptsInput.t)
| list_tasks (params : ListTasksInput.t)
| get_task (params : GetTaskInput.t)
| get_task_counters (params : GetTaskCountersInput.t)
| list_task_attempts (params : ListTaskAttemptsInput.t)
| get_task_attempt (params : GetTaskAttemptInput.t)
| get_task_attempt_counters (params : GetTaskAttemptCountersInput.t)
| get_task_attempt_logs (params : GetTaskAttemptLogsInput.t)
| get_task_attempt_logs_partial (params : GetTaskAttemptLogsPartialInput.t).

Definition handler (c : tool_call) : io string :=
  match c with
  | get_info => jobhistory_get_info
  | list_jobs params => jobhistory_list_jobs params
  | get_job params => jobhistory_get_job params
  | get_job_counters params => jobhistory_get_job_counters params
  | get_job_conf params => jobhistory_get_job_conf params
  | get_job_attempts params => jobhistory_get_job_attempts params
  | list_tasks params => jobhistory_list_tasks params
  | get_task params => jobhistory_get_task params
  | get_task_counters params => jobhistory_get_task_counters params
  | list_task_attempts params => jobhistory_list_task_attempts params
  | get_task_attempt params => jobhistory_get_task_attempt params
  | get_task_attempt_counters params => jobhistory_get_task_attempt_counters params
  | get_task_attempt_logs params => jobhistory_get_task_attempt_logs params
  | get_task_attempt_logs_partial params =>
      jobhistory_get_task_attempt_logs_partial params
  end.

(** ** [BaseInput.parse_json_string] (lines 376-399) *)

Definition is_JSONDecodeError (e : exn) : bool :=
  match e with
  | PyError cls _ => String.eqb cls "JSONDecodeError"
  | _ => false
  end.

(** The validator that runs before the fields are validated. *)
Definition parse_json_string (data : json) : result json :=
  match data with
  | JStr s =>
      match json_loads rt s with
      | inr parsed => ok parsed
      | inl e => if is_JSONDecodeError e then ok data else raise e
      end
  | _ => ok data
  end.

Section Tool.

(** A tool: the validation of the fields of its input class and its
    handler. *)
Variable Input : Type.
Variable validate_fields : json -> result Input.
Variable tool : Input -> io string.

(** [Input.model_validate(data)] *)
Definition model_validate (data : json) : result Input :=
  (normalized <- parse_json_string data ;; validate_fields normalized)%result.

(** The host calls the tool with the argument [data]. *)
Definition invoke (data : json) : io string :=
  params <~ model_validate data ;;
  tool params.

End Tool.

End Server.

(** * Functions beside the handlers *)

Section Helpers.

Variable rt : runtime.

Local Open Scope result_scope.

(** ** [_format_bytes] (lines 929-952) *)

(** The left operand of [bytes_value < 0] as a number; on a value that is
    not a number the comparison raises. *)
Definition below_int (bytes_value : json) : result pynum :=
  match as_num bytes_value with
  | Some n => ok n
  | None =>
      TypeError ("'<' not supported between instances of '" ++ type_name bytes_value
                 ++ "' and 'int'")
  end.

(** [float(n)] *)
Definition py_float (n : pynum) : result spec_float :=
  match n with
  | NInt z => int_to_float z
  | NFloat f => ok f
  end.

(** [int(x)] of a float: its integer part. *)
Definition float_to_int (x : spec_float) : result Z :=
  match x with
  | S754_zero _ => ok 0
  | S754_finite negative m e =>
      let magnitude := if 0 <=? e then Z.pos m * 2 ^ e else Z.pos m / 2 ^ (- e) in
      ok (if negative then - magnitude else magnitude)
  | S754_infinity _ => OverflowError "cannot convert float infinity to integer"
  | S754_nan => ValueError "cannot convert float NaN to integer"
  end.

Definition units : list string := ["B"; "KB"; "MB"; "GB"; "TB"; "PB"].

(** Lines 946-948: [while value >= 1024 and unit_index < len(units) - 1],
    which goes round at most once per unit. *)
Fixpoint scale_bytes (rounds : nat) (value : spec_float) (unit_index : nat)
    : spec_float * nat :=
  match rounds with
  | O => (value, unit_index)
  | S rounds' =>
      if (SFleb (float_of_int 1024) value
          && Nat.ltb unit_index (List.length units - 1))%bool
      then scale_bytes rounds' (float_div value (float_of_int 1024)) (S unit_index)
      else (value, unit_index)
  end.

Definition _format_bytes (bytes_value : json) : result string :=
  if negb (truthy bytes_value) then ok "0 B"
  else
    n <- below_int bytes_value ;;
    if num_lt n 0 then ok "0 B"
    else
      value <- py_float n ;;
      let (value, unit_index) := scale_bytes (List.length units) value 0 in
      let unit := List.nth unit_index units "" in
      if Nat.eqb unit_index 0 then
        whole <- float_to_int value ;;
        ok (str_int whole ++ " " ++ unit)
      else ok (float_format rt ".2f" value ++ " " ++ unit).

End Helpers.

(** ** [GetJobInput.validate_job_id] (lines 491-497) *)

Definition validate_job_id (v : string) : result string :=
  if negb (str_is_truthy (str_strip v)) then ValueError "作业 ID 不能为空"
  else ok (str_strip v).

(** ** [_safe_serialize_params] (lines 224-258) *)

(** [len(s)] and [s[:n]], in characters (code points). *)
Definition str_len (s : string) : nat := List.length (utf8_chars s).

Definition str_take (n : nat) (s : string) : string :=
  String.concat "" (List.firstn n (utf8_chars s)).

(** What the function is given, apart from [None]: an object, seen
    through the attribute the function finds on it and the outcome of the
    call it then makes. *)
Inductive logged_object : Type :=
| WithModelDump (model_dump : result json)
| WithDict (dict : result json)
| Plain (str : result string).

(** Lines 240-247: [data]. *)
Definition dumped (params : logged_object) : result json :=
  match params with
  | WithModelDump model_dump => model_dump
  | WithDict dict => dict
  | Plain str => (text <- str ;; ok (JStr text))%result
  end.

Section Logging.

(** [json.dumps(data, ensure_ascii=False, default=str)] *)
Variable dumps_for_log : json -> result string.

Definition _safe_serialize_params (params : option logged_object) : string :=
  match params with
  | None => "{}"
  | Some object =>
      match (data <- dumped object ;;
             result <- dumps_for_log data ;;
             ok (if (500 <? str_len result)%nat
                 then str_take 500 result ++ "..."
                 else result))%result
      with
      | inr result => result
      | inl _ => "<序列化失败>"
      end
  end.

End Logging.

(** ** Vocabulary of the specification *)

(** The dict [d] has no value under [key]: [d.get(key)] is [None]. *)
Definition lacks (d : json) (key : string) : Prop :=
  py_get_opt d key = ok JNull.

(** The dict [d] has the usable (truthy) value [v] under [key]. *)
Definition provides (d : json) (key : string) (v : json) : Prop :=
  py_get_opt d key = ok v /\ truthy v = true.

(** The path of a log page, as the specification writes it:
    [{logs_base}/{node_manager}/{container_id}/{attempt_id}/{user}/{log_type}/] *)
Definition log_url_path
    (logs_base node_manager container_id attempt_id user log_type : string) : string :=
  logs_base ++ "/" ++ node_manager ++ "/" ++ container_id ++ "/" ++ attempt_id
  ++ "/" ++ user ++ "/" ++ log_type ++ "/".

(** The two query strings of the specification. *)
Definition full_query : string := "start=0&start.time=0&end.time=9223372036854775807".

Definition range_query (start end_ : Z) : string :=
  "start=" ++ str_int start ++ "&end=" ++ str_int end_.

(** A call of one of the two log-retrieval tools. *)
Inductive log_call : Type :=
| full_logs (params : GetTaskAttemptLogsInput.t)
| partial_logs (params : GetTaskAttemptLogsPartialInput.t).

Definition log_handler (cfg : config) (rt : runtime) (c : log_call) : io string :=
  match c with
  | full_logs params => jobhistory_get_task_attempt_logs cfg rt params
  | partial_logs params => jobhistory_get_task_attempt_logs_partial cfg rt params
  end.

Definition log_job_id (c : log_call) : string :=
  match c with
  | full_logs params => GetTaskAttemptLogsInput.job_id params
  | partial_logs params => GetTaskAttemptLogsPartialInput.job_id params
  end.

Definition log_task_id (c : log_call) : string :=
  match c with
  | full_logs params => GetTaskAttemptLogsInput.task_id params
  | partial_logs params => GetTaskAttemptLogsPartialInput.task_id params
  end.

Definition log_attempt_id (c : log_call) : string :=
  match c with
  | full_logs params => GetTaskAttemptLogsInput.attempt_id params
  | partial_logs params => GetTaskAttemptLogsPartialInput.attempt_id params
  end.

Definition log_type_of (c : log_call) : string :=
  match c with
  | full_logs params => LogType_value (GetTaskAttemptLogsInput.log_type params)
  | partial_logs params => LogType_value (GetTaskAttemptLogsPartialInput.log_type params)
  end.

(** [full] mode for the full tool, [range(start, end)] for the partial one. *)
Definition log_query (c : log_call) : string :=
  match c with
  | full_logs _ => full_query
  | partial_logs params =>
      range_query (GetTaskAttemptLogsPartialInput.start params)
                  (GetTaskAttemptLogsPartialInput.end_ params)
  end.

(** The two lookups of a log-retrieval call, as the upstream sees them. *)
Definition attempt_url (cfg : config) (c : log_call) : string :=
  JOBHISTORY_BASE_URL cfg ++ "/"
  ++ attempt_endpoint (log_job_id c) (log_task_id c) (log_attempt_id c).

Definition job_url (cfg : config) (c : log_call) : string :=
  JOBHISTORY_BASE_URL cfg ++ "/" ++ "mapreduce/jobs/" ++ log_job_id c.

(** The group list of a counters response as the specification words it:
    the value of the first of the three keys that is present, else an
    empty list. *)
Definition groups_by_first_present_key (fields : list (string * json)) : json :=
  match assoc "counterGroup" fields with
  | Some groups => groups
  | None =>
      match assoc "taskCounterGroup" fields with
      | Some groups => groups
      | None =>
          match assoc "taskAttemptCounterGroup" fields with
          | Some groups => groups
          | None => JArr []
          end
      end
  end.

(** The value under [key] when it is usable: present and not falsy. *)
Definition usable (key : string) (fields : list (string * json)) : option json :=
  match assoc key fields with
  | Some groups => if truthy groups then Some groups else None
  | None => None
  end.

(** The group list as the handler takes it: the value of the first of
    [counterGroup] and [taskCounterGroup] that is usable, else what
    [taskAttemptCounterGroup] holds, else an empty list. *)
Definition groups_by_first_usable_key (fields : list (string * json)) : json :=
  match usable "counterGroup" fields with
  | Some groups => groups
  | None =>
      match usable "taskCounterGroup" fields with
      | Some groups => groups
      | None =>
          match assoc "taskAttemptCounterGroup" fields with
          | Some groups => groups
          | None => JArr []
          end
      end
  end.

(** A counters response with an empty job-level list and one task-level
    group. *)
Definition two_level_counters : list (string * json) :=
  [ ("counterGroup", JArr []);
    ("taskCounterGroup",
     JArr [JObj [("counterGroupName", JStr "org.apache.hadoop.mapreduce.TaskCounter");
                 ("counter",
                  JArr [JObj [("name", JStr "CPU_MILLISECONDS");
                              ("value", JInt 1234567)]])]]) ].

(** Entity decoding as the specification words it: each of the six
    entities that occurs in the text stands for its character, so one pass
    from left to right decodes it. *)
Definition entities : list (string * string) :=
  [("&lt;", "<"); ("&gt;", ">"); ("&amp;", "&"); ("&quot;", dquote);
   ("&#39;", "'"); ("&nbsp;", " ")].

Fixpoint decode_from (skip : nat) (s : string) : string :=
  match s with
  | EmptyString => EmptyString
  | String c rest =>
      match skip with
      | S k => decode_from k rest
      | O =>
          match List.find (fun e => String.prefix (fst e) s) entities with
          | Some (name, char) => char ++ decode_from (Nat.pred (String.length name)) rest
          | None => String c (decode_from O rest)
          end
      end
  end.

Definition decode_entities (s : string) : string := decode_from O s.

(** No character of [t] is one of [avoid]. *)
Definition free_of (avoid : list ascii) (t : string) : Prop :=
  forall a, In a (list_ascii_of_string t) -> ~ In a avoid.

(** One replacement of the chain: the entity [&name] by [new]. *)
Definition replace_entity (name new s : string) : string :=
  str_replace (String "&"%char name) new s.

(** What follows an [&] that starts none of the six entities. *)
Definition plain_amp (s : string) : Prop :=
  String.prefix "lt;" s = false /\ String.prefix "gt;" s = false
  /\ String.prefix "amp;" s = false /\ String.prefix "quot;" s = false
  /\ String.prefix "#39;" s = false /\ String.prefix "nbsp;" s = false.

(** The query the specification asks of the jobs listing: every optional
    filter that is present (not null), under its upstream name. *)
Definition present {A : Type} (field : option A) (name : string) (value : A -> json)
    : query :=
  match field with
  | Some v => [(name, value v)]
  | None => []
  end.

Definition query_of_present_fields (params : ListJobsInput.t) : query :=
  List.concat
    [ present (ListJobsInput.user params) "user" JStr;
      present (ListJobsInput.state params) "state" (fun s => JStr (JobState_value s));
      present (ListJobsInput.queue params) "queue" JStr;
      present (ListJobsInput.limit params) "limit" JInt;
      present (ListJobsInput.started_time_begin params) "startedTimeBegin" JInt;
      present (ListJobsInput.started_time_end params) "startedTimeEnd" JInt;
      present (ListJobsInput.finished_time_begin params) "finishedTimeBegin" JInt;
      present (ListJobsInput.finished_time_end params) "finishedTimeEnd" JInt ].

(** A program re-raises what the upstream raises: after an exchange whose
    reply is an exception, it raises that exception. *)
Inductive reraises {A : Type} : io A -> Prop :=
| reraises_Return a : reraises (Return a)
| reraises_Raise e : reraises (Raise e)
| reraises_HttpGetJson url params k :
    (forall e, k (inl e) = Raise e) ->
    (forall data, reraises (k (inr data))) ->
    reraises (HttpGetJson url params k)
| reraises_HttpGetText url k :
    (forall e, k (inl e) = Raise e) ->
    (forall text, reraises (k (inr text))) ->
    reraises (HttpGetText url k).

(** The first request of each tool: the endpoint under
    [JOBHISTORY_BASE_URL] and the query parameters. *)
Definition first_request (c : tool_call) : string * option query :=
  match c with
  | get_info => ("info", None)
  | list_jobs params => ("mapreduce/jobs", Some (list_jobs_query_params params))
  | get_job params => ("mapreduce/jobs/" ++ GetJobInput.job_id params, None)
  | get_job_counters params =>
      ("mapreduce/jobs/" ++ GetJobCountersInput.job_id params ++ "/counters", None)
  | get_job_conf params =>
      ("mapreduce/jobs/" ++ GetJobConfInput.job_id params ++ "/conf", None)
  | get_job_attempts params =>
      ("mapreduce/jobs/" ++ GetJobAttemptsInput.job_id params ++ "/jobattempts", None)
  | list_tasks params =>
      ("mapreduce/jobs/" ++ ListTasksInput.job_id params ++ "/tasks",
       Some match ListTasksInput.task_type params with
            | Some t => [("type", JStr (TaskType_value t))]
            | None => []
            end)
  | get_task params =>
      ("mapreduce/jobs/" ++ GetTaskInput.job_id params ++ "/tasks/"
       ++ GetTaskInput.task_id params, None)
  | get_task_counters params =>
      ("mapreduce/jobs/" ++ GetTaskCountersInput.job_id params ++ "/tasks/"
       ++ GetTaskCountersInput.task_id params ++ "/counters", None)
  | list_task_attempts params =>
      ("mapreduce/jobs/" ++ ListTaskAttemptsInput.job_id params ++ "/tasks/"
       ++ ListTaskAttemptsInput.task_id params ++ "/attempts", None)
  | get_task_attempt params =>
      ("mapreduce/jobs/" ++ GetTaskAttemptInput.job_id params ++ "/tasks/"
       ++ GetTaskAttemptInput.task_id params ++ "/attempts/"
       ++ GetTaskAttemptInput.attempt_id params, None)
  | get_task_attempt_counters params =>
      ("mapreduce/jobs/" ++ GetTaskAttemptCountersInput.job_id params ++ "/tasks/"
       ++ GetTaskAttemptCountersInput.task_id params ++ "/attempts/"
       ++ GetTaskAttemptCountersInput.attempt_id params ++ "/counters", None)
  | get_task_attempt_logs params =>
      ("mapreduce/jobs/" ++ GetTaskAttemptLogsInput.job_id params ++ "/tasks/"
       ++ GetTaskAttemptLogsInput.task_id params ++ "/attempts/"
       ++ GetTaskAttemptLogsInput.attempt_id params, None)
  | get_task_attempt_logs_partial params =>
      ("mapreduce/jobs/" ++ GetTaskAttemptLogsPartialInput.job_id params ++ "/tasks/"
       ++ GetTaskAttemptLogsPartialInput.task_id params ++ "/attempts/"
       ++ GetTaskAttemptLogsPartialInput.attempt_id params, None)
  end.

Definition request_url (cfg : config) (c : tool_call) : string :=
  JOBHISTORY_BASE_URL cfg ++ "/" ++ fst (first_request c).

Definition request_params (c : tool_call) : option query := snd (first_request c).

Definition is_log_tool (c : tool_call) : bool :=
  match c with
  | get_task_attempt_logs _ | get_task_attempt_logs_partial _ => true
  | _ => false
  end.

(** The tools that answer one object of the upstream: the key it sits
    under in the reply, and the output format the input asks for. *)
Definition detail_of (c : tool_call) : option (string * ResponseFormat) :=
  match c with
  | get_job params => Some ("job", GetJobInput.response_format params)
  | get_job_counters params =>
      Some ("jobCounters", GetJobCountersInput.response_format params)
  | get_job_conf params => Some ("conf", GetJobConfInput.response_format params)
  | get_task params => Some ("task", GetTaskInput.response_format params)
  | get_task_counters params =>
      Some ("jobTaskCounters", GetTaskCountersInput.response_format params)
  | get_task_attempt params =>
      Some ("taskAttempt", GetTaskAttemptInput.response_format params)
  | get_task_attempt_counters params =>
      Some ("jobTaskAttemptCounters", GetTaskAttemptCountersInput.response_format params)
  | _ => None
  end.

(** The tools that answer a list of the upstream: the two keys the list
    sits under, the name it gets in the JSON output, the text for an empty
    list, and whether the list is tested for emptiness before the output
    format is looked at. *)
Record listing : Type := {
  outer_key : string;
  inner_key : string;
  output_key : string;
  none_found : string;
  emptiness_first : bool
}.

Definition listing_of (c : tool_call) : option (listing * ResponseFormat) :=
  match c with
  | list_jobs params =>
      Some ({| outer_key := "jobs"; inner_key := "job"; output_key := "jobs";
               none_found := "没有找到符合条件的作业。"; emptiness_first := true |},
            ListJobsInput.response_format params)
  | get_job_attempts params =>
      Some ({| outer_key := "jobAttempts"; inner_key := "jobAttempt";
               output_key := "attempts"; none_found := "没有找到作业尝试记录。";
               emptiness_first := false |},
            GetJobAttemptsInput.response_format params)
  | list_tasks params =>
      Some ({| outer_key := "tasks"; inner_key := "task"; output_key := "tasks";
               none_found := "没有找到任务。"; emptiness_first := false |},
            ListTasksInput.response_format params)
  | list_task_attempts params =>
      Some ({| outer_key := "taskAttempts"; inner_key := "taskAttempt";
               output_key := "attempts"; none_found := "没有找到任务尝试记录。";
               emptiness_first := false |},
            ListTaskAttemptsInput.response_format params)
  | _ => None
  end.

(** A program that performs no exchange: it returns or raises at once. *)
Inductive quiet {A : Type} : io A -> Prop :=
| quiet_Return a : quiet (Return a)
| quiet_Raise e : quiet (Raise e).

(** A value that is a dict. *)
Definition is_dict (v : json) : Prop := exists fields, v = JObj fields.

(** The type of a task of the tasks listing is [kind]. *)
Definition has_type (kind : string) (task : json) : bool :=
  match py_get_opt task "type" with
  | inr v => py_eq_str v kind
  | inl _ => false
  end.

(** Lines 1479-1480: the prefix a configuration property is filed under. *)
Definition property_prefix (prop : json) : result string :=
  (name <- py_get prop "name" (JStr "") ;; prefix_of name)%result.

Definition filed_under (prefix : string) (prop : json) : bool :=
  match property_prefix prop with
  | inr p => String.eqb p prefix
  | inl _ => false
  end.

(** What the grouping loop of the configuration listing keeps true of the
    properties [done] it has gone through and the groups it has built. *)
Definition grouped (done : list json) (groups : list (string * list json)) : Prop :=
  NoDup (List.map fst groups)
  /\ (forall prop, In prop done ->
        exists prefix, property_prefix prop = ok prefix /\ In prefix (List.map fst groups))
  /\ (forall prefix props, In (prefix, props) groups ->
        props <> [] /\ props = List.filter (filed_under prefix) done)
  /\ List.length (List.concat (List.map snd groups)) = List.length done.

(** The order of the headings of the configuration listing. *)
Definition heading_le (a b : string * list json) : Prop :=
  String.leb (fst a) (fst b) = true.

Definition heading_lt (a b : string * list json) : Prop :=
  String.ltb (fst a) (fst b) = true.

(** A piece that holds one character: a byte and the continuation bytes
    that follow it. *)
Fixpoint continuation_only (s : string) : bool :=
  match s with
  | EmptyString => true
  | String c rest => (is_continuation c && continuation_only rest)%bool
  end.

Definition one_character (piece : string) : Prop :=
  exists c tail, piece = String c tail /\ continuation_only tail = true.

(** A piece that holds one character and starts with its first byte. *)
Definition whole_character (piece : string) : Prop :=
  one_character piece /\ starts_with_continuation piece = false.

(** A list of characters as [utf8_chars] yields them. *)
Definition characters (pieces : list string) : Prop :=
  match pieces with
  | [] => True
  | piece :: later => one_character piece /\ Forall whole_character later
  end.

(** A counter as the History Server documents it: a dict whose total
    ([totalCounterValue], [value]), where present, is an integer, and whose
    map-side and reduce-side values, where present, are integers or null. *)
Definition well_formed_counter (counter : json) : Prop :=
  exists fields,
    counter = JObj fields
    /\ (forall key v, In key ["totalCounterValue"; "value"] ->
          assoc key fields = Some v -> exists z, v = JInt z)
    /\ (forall key v, In key ["mapCounterValue"; "reduceCounterValue"] ->
          assoc key fields = Some v -> v = JNull \/ exists z, v = JInt z).

(** A counter group: a dict whose name, where present, is a string and
    whose counters, where present, are a list of well-formed counters. *)
Definition well_formed_group (group : json) : Prop :=
  exists fields,
    group = JObj fields
    /\ (forall v, assoc "counterGroupName" fields = Some v -> exists name, v = JStr name)
    /\ (forall v, assoc "counter" fields = Some v ->
          exists counters, v = JArr counters /\ Forall well_formed_counter counters).

(** [t] ends [s]. *)
Definition suffix_of (t s : string) : Prop := exists before, s = before ++ t.

(** The closing tag [</pre>] occurs nowhere in [s], in any letter case. *)
Definition unclosed (s : string) : Prop :=
  forall t, suffix_of t s -> prefix_ci "</pre>" t = false.

Fixpoint has_no_closing_tag (s : string) : bool :=
  (negb (prefix_ci "</pre>" s)
   && match s with
      | EmptyString => true
      | String _ rest => has_no_closing_tag rest
      end)%bool.

(** [s.startswith(w)] and [s.endswith(w)] *)
Definition starts_with (w s : string) : bool := String.prefix w s.

Definition ends_with (w s : string) : bool := String.prefix (str_rev w) (str_rev s).

(** No whitespace character starts or ends [s]. *)
Definition trimmed (s : string) : Prop :=
  forall w, In w whitespace -> starts_with w s = false /\ ends_with w s = false.

Definition nonempty (w : string) : Prop := w <> "".

(** A decimal digit; a text made of decimal digits. *)
Definition is_digit (c : ascii) : bool :=
  let n := nat_of_ascii c in (Nat.leb 48 n && Nat.leb n 57)%bool.

Fixpoint all_digits (s : string) : bool :=
  match s with
  | EmptyString => true
  | String c rest => (is_digit c && all_digits rest)%bool
  end.

(** The rendering of a duration of [seconds] whole seconds, by tier. *)
Definition duration_text (seconds : Z) : string :=
  if seconds <? 60 then str_int seconds ++ "秒"
  else if seconds <? 3600 then
    str_int (seconds / 60) ++ "分" ++ str_int (seconds mod 60) ++ "秒"
  else
    str_int (seconds / 3600) ++ "时" ++ str_int (seconds mod 3600 / 60) ++ "分"
    ++ str_int (seconds mod 60) ++ "秒".

(** [_format_bytes] renders [n] as that many bytes. *)
Definition renders_as_bytes (rt : runtime) (n : Z) : bool :=
  match _format_bytes rt (JInt n) with
  | inr text => String.eqb text (str_int n ++ " B")
  | inl _ => false
  end.

(** The HTML escaping of a text as a log page shows it: [&], [<] and [>]
    written as entities, every other character as it is. *)
Fixpoint escape_html (text : string) : string :=
  match text with
  | EmptyString => EmptyString
  | String c rest =>
      (if Ascii.eqb c "&" then "&amp;"
       else if Ascii.eqb c "<" then "&lt;"
       else if Ascii.eqb c ">" then "&gt;"
       else String c "") ++ escape_html rest
  end.

(** The first three replacements of [_extract_pre_content], and the last
    three. *)
Definition replace_markup (s : string) : string :=
  replace_entity "amp;" "&" (replace_entity "gt;" ">" (replace_entity "lt;" "<" s)).

Definition replace_others (s : string) : string :=
  replace_entity "nbsp;" " " (replace_entity "#39;" "'" (replace_entity "quot;" dquote s)).

(** Nothing that the pattern takes for an opening tag starts in what
    precedes the element of the [page]. *)
Definition no_opening_in (before page : string) : Prop :=
  forall a b, before = a ++ b -> b <> "" -> prefix_ci "<pre" (b ++ page) = false.

(** The block of lines the counters formatter prints for a [group]: a
    heading with the display name of the group, an empty line, the line of
    each of its counters in their order, and an empty line. *)
Definition rendered_group (rt : runtime) (group : json) (block : list string) : Prop :=
  exists fields short counters lines,
    group = JObj fields
    /\ short_name_of match assoc "counterGroupName" fields with
                     | Some name => name
                     | None => JStr "Unknown Group"
                     end = ok short
    /\ match assoc "counter" fields with Some v => v | None => JArr [] end = JArr counters
    /\ Forall2 (fun counter line => counter_line rt counter = ok line) counters lines
    /\ block = ("## " ++ py_str rt short) :: "" :: List.app lines [""].

(** A configuration property as the History Server documents it: a dict
    whose name and value, where present, are strings. *)
Definition well_formed_property (prop : json) : Prop :=
  exists fields,
    prop = JObj fields
    /\ (forall v, assoc "name" fields = Some v -> exists s, v = JStr s)
    /\ (forall v, assoc "value" fields = Some v -> exists s, v = JStr s).

(** The filter of the configuration listing matches the property. *)
Definition matches_filter (rt : runtime) (filter_key : string) (prop : json) : bool :=
  match name_matches rt (str_lower rt filter_key) prop with
  | inr found => found
  | inl _ => false
  end.

(** The properties the configuration listing shows: all of them without
    a filter, else those the filter matches. *)
Definition shown_properties (rt : runtime) (filter_key : option string)
    (properties : list json) : list json :=
  match filter_key with
  | Some key =>
      if str_is_truthy key then List.filter (matches_filter rt key) properties
      else properties
  | None => properties
  end.

(** The heading of a group of the configuration listing. *)
Definition group_heading (entry : string * list json) : string :=
  "## " ++ fst entry ++ " (" ++ str_int (Z.of_nat (List.length (snd entry))) ++ " 项)".

(** The block of lines the configuration listing prints for a group: its
    heading, an empty line, the line of each of its properties in their
    order, and an empty line. *)
Definition printed_as (rt : runtime) (entry : string * list json)
    (block : list string) : Prop :=
  exists rows,
    Forall2 (fun prop row => property_line rt prop = ok row) (snd entry) rows
    /\ block = group_heading entry :: "" :: List.app rows [""].

(** ** A sample deployment, used to exercise the statements *)

Definition sample_config : config :=
  {| JOBHISTORY_BASE_URL := "http://jh.example.com:19888/ws/v1/history";
     NODEMANAGER_PORT := "8052";
     REQUEST_TIMEOUT := float_of_int 30;
     LOGS_BASE_URL := "http://jh.example.com:19888/jobhistory/logs" |}.

(** The text [{"limit": 5}]. *)
Definition sample_json_text : string :=
  "{" ++ dquote ++ "limit" ++ dquote ++ ": 5}".

(** A runtime that renders what the statements below do not depend on as
    fixed texts, and decodes the one JSON text above. *)
Definition sample_runtime : runtime :=
  {| json_dumps := fun _ => "{...}";
     float_repr := fun _ => "30.0";
     container_str := fun _ => "[...]";
     float_floordiv := fun x _ => x;
     float_mod := fun x _ => x;
     float_format := fun _ _ => "0.0";
     fromtimestamp_strftime := fun _ => CalendarText "2024-01-15 10:30:45";
     str_lower := fun s => s;
     json_loads :=
       fun s =>
         if String.eqb s sample_json_text then ok (JObj [("limit", JInt 5)])
         else raise (PyError "JSONDecodeError" "Expecting value");
     dict_slice_error := PyError "KeyError" "slice(None, 100, None)" |}.

Definition sample_attempt : json :=
  JObj [("taskAttempt",
         JObj [("assignedContainerId", JStr "container_1326381300833_2_2_01_000001");
               ("nodeHttpAddress", JStr "node1.example.com:8042")])].

Definition sample_job : json := JObj [("job", JObj [("user", JStr "hadoop")])].

(** An upstream that answers the first lookup with [attempt], later ones
    with [job], and serves [page] as every log page. *)
Definition scripted_upstream (attempt job : result json) (page : result string)
    : upstream :=
  {| get_json := fun past _ _ => match past with [] => attempt | _ :: _ => job end;
     get_text := fun _ _ => page |}.

Definition sample_partial_input : GetTaskAttemptLogsPartialInput.t :=
  {| GetTaskAttemptLogsPartialInput.job_id := "job_1326381300833_2";
     GetTaskAttemptLogsPartialInput.task_id := "task_1326381300833_2_2_m_0";
     GetTaskAttemptLogsPartialInput.attempt_id := "attempt_1326381300833_2_2_m_0_0";
     GetTaskAttemptLogsPartialInput.log_type := SYSLOG;
     GetTaskAttemptLogsPartialInput.start := -4096;
     GetTaskAttemptLogsPartialInput.end_ := 0;
     GetTaskAttemptLogsPartialInput.response_format := MARKDOWN |}.

Definition sample_full_input : GetTaskAttemptLogsInput.t :=
  {| GetTaskAttemptLogsInput.job_id := "job_1326381300833_2";
     GetTaskAttemptLogsInput.task_id := "task_1326381300833_2_2_m_0";
     GetTaskAttemptLogsInput.attempt_id := "attempt_1326381300833_2_2_m_0_0";
     GetTaskAttemptLogsInput.log_type := STDOUT;
     GetTaskAttemptLogsInput.response_format := JSON |}.

(** The input of the jobs listing whose only filter is
    [started_time_begin = 0]. *)
Definition zero_start_input : ListJobsInput.t :=
  {| ListJobsInput.user := None;
     ListJobsInput.state := None;
     ListJobsInput.queue := None;
     ListJobsInput.limit := Some 20;
     ListJobsInput.started_time_begin := Some 0;
     ListJobsInput.started_time_end := None;
     ListJobsInput.finished_time_begin := None;
     ListJobsInput.finished_time_end := None;
     ListJobsInput.response_format := MARKDOWN |}.

(** The input of the jobs listing with defaults, asking for JSON. *)
Definition json_listing_input : ListJobsInput.t :=
  {| ListJobsInput.user := None;
     ListJobsInput.state := None;
     ListJobsInput.queue := None;
     ListJobsInput.limit := Some 20;
     ListJobsInput.started_time_begin := None;
     ListJobsInput.started_time_end := None;
     ListJobsInput.finished_time_begin := None;
     ListJobsInput.finished_time_end := None;
     ListJobsInput.response_format := JSON |}.

(** A validation of the fields of [ListJobsInput] that reads [limit] and
    leaves the other fields at their defaults. *)
Definition sample_validate (data : json) : result ListJobsInput.t :=
  match data with
  | JObj fields =>
      match assoc "limit" fields with
      | Some (JInt l) =>
          if ((1 <=? l) && (l <=? 100))%bool then
            ok {| ListJobsInput.user := None;
                  ListJobsInput.state := None;
                  ListJobsInput.queue := None;
                  ListJobsInput.limit := Some l;
                  ListJobsInput.started_time_begin := None;
                  ListJobsInput.started_time_end := None;
                  ListJobsInput.finished_time_begin := None;
                  ListJobsInput.finished_time_end := None;
                  ListJobsInput.response_format := MARKDOWN |}
          else raise (PyError "ValidationError" "limit out of range")
      | Some _ => raise (PyError "ValidationError" "limit is not an integer")
      | None => ok ListJobsInput.default
      end
  | _ => raise (PyError "ValidationError" "input is not an object")
  end.

Definition sample_page : result string := inr "<html><pre>log line</pre></html>".

Definition sample_upstream : upstream :=
  scripted_upstream (inr sample_attempt) (inr sample_job) sample_page.

Definition sample_log_url : string :=
  "http://jh.example.com:19888/jobhistory/logs/node1.example.com:8052/"
  ++ "container_1326381300833_2_2_01_000001/attempt_1326381300833_2_2_m_0_0/hadoop/"
  ++ "syslog/?start=-4096&end=0".

Definition sample_full_log_url : string :=
  "http://jh.example.com:19888/jobhistory/logs/node1.example.com:8052/"
  ++ "container_1326381300833_2_2_01_000001/attempt_1326381300833_2_2_m_0_0/hadoop/"
  ++ "stdout/?start=0&start.time=0&end.time=9223372036854775807".

(** An attempt detail without a container id, and one with a container
    id but without a node address. *)
Definition attempt_without_container : json :=
  JObj [("taskAttempt", JObj [("nodeHttpAddress", JStr "node1.example.com:8042")])].

Definition attempt_without_address : json :=
  JObj [("taskAttempt",
         JObj [("assignedContainerId", JStr "container_1326381300833_2_2_01_000001")])].

(** A job detail without a user. *)
Definition job_without_user : json := JObj [("job", JObj [("id", JStr "job_1326381300833_2")])].

(** An upstream that answers every request with status 404. *)
Definition missing_upstream : upstream :=
  {| get_json := fun _ _ _ => inl (HTTPStatusError 404);
     get_text := fun _ _ => inl (HTTPStatusError 404) |}.

Definition sample_job_input : GetJobInput.t :=
  {| GetJobInput.job_id := "job_1326381300833_2";
     GetJobInput.response_format := MARKDOWN |}.

(** An upstream whose list of jobs is empty. *)
Definition idle_upstream : upstream :=
  {| get_json := fun _ _ _ => inr (JObj [("jobs", JObj [("job", JArr [])])]);
     get_text := fun _ _ => inl ConnectError |}.

(** A counters response of a job: one job-level group. *)
Definition job_level_counters : list (string * json) :=
  [ ("id", JStr "job_1326381300833_2");
    ("counterGroup",
     JArr [JObj [("counterGroupName", JStr "Shuffle Errors");
                 ("counter",
                  JArr [JObj [("name", JStr "BAD_ID");
                              ("totalCounterValue", JInt 0);
                              ("mapCounterValue", JInt 0);
                              ("reduceCounterValue", JInt 0)]])]]) ].

(** An upstream whose job detail has a start time of 401 digits. *)
Definition far_future_upstream : upstream :=
  {| get_json :=
       fun _ _ _ =>
         inr (JObj [("job", JObj [("id", JStr "job_1326381300833_2");
                                  ("startTime", JInt (10 ^ 400))])]);
     get_text := fun _ _ => inl ConnectError |}.

(** A counter with a total and both sides. *)
Definition sample_counter : list (string * json) :=
  [ ("name", JStr "FILE_BYTES_READ");
    ("totalCounterValue", JInt 1234567);
    ("mapCounterValue", JInt 1234000);
    ("reduceCounterValue", JInt 567) ].

(** An upstream that answers every request with [reply]. *)
Definition constant_upstream (reply : json) : upstream :=
  {| get_json := fun _ _ _ => inr reply;
     get_text := fun _ _ => inl ConnectError |}.

(** The configuration of a job: four properties under three prefixes. *)
Definition sample_properties : list json :=
  [ JObj [("name", JStr "mapreduce.job.name"); ("value", JStr "wordcount")];
    JObj [("name", JStr "yarn.app.id"); ("value", JStr "1")];
    JObj [("name", JStr "mapreduce.map.memory.mb"); ("value", JStr "1024")];
    JObj [("name", JStr "user"); ("value", JStr "hadoop")] ].

Definition sample_groups : list (string * list json) :=
  [ ("mapreduce",
     [ JObj [("name", JStr "mapreduce.job.name"); ("value", JStr "wordcount")];
       JObj [("name", JStr "mapreduce.map.memory.mb"); ("value", JStr "1024")] ]);
    ("yarn", [JObj [("name", JStr "yarn.app.id"); ("value", JStr "1")]]);
    ("other", [JObj [("name", JStr "user"); ("value", JStr "hadoop")]]) ].

Definition sample_conf : json :=
  JObj [("path", JStr "/history/job_1326381300833_2_conf.xml");
        ("property", JArr sample_properties)].

(** The configuration tool asked for JSON, with a filter. *)
Definition json_conf_input : GetJobConfInput.t :=
  {| GetJobConfInput.job_id := "job_1326381300833_2";
     GetJobConfInput.filter_key := Some "yarn";
     GetJobConfInput.response_format := JSON |}.

(** The tasks listing, in each format. *)
Definition tasks_input (format : ResponseFormat) : ListTasksInput.t :=
  {| ListTasksInput.job_id := "job_1326381300833_2";
     ListTasksInput.task_type := None;
     ListTasksInput.response_format := format |}.

(** A reply of the tasks listing without any task, and one whose only
    task is of a type the listing does not know. *)
Definition no_tasks : json := JObj [("tasks", JObj [("task", JArr [])])].

Definition setup_task : json :=
  JObj [("id", JStr "task_1326381300833_2_2_s_0"); ("type", JStr "SETUP")].

Definition setup_tasks : json := JObj [("tasks", JObj [("task", JArr [setup_task])])].

(** A property whose value has 101 characters. *)
Definition long_value : string := String.concat "" (List.repeat "x" 101).

Definition long_property : json :=
  JObj [("name", JStr "mapreduce.job.classpath"); ("value", JStr long_value)].

(** A log page whose element is blank, and one cut short before the
    closing tag. *)
Definition blank_page : string := "<html><pre>   </pre></html>".

Definition cut_page : string := "<html><pre>log line".

(** A job id with blanks around it. *)
Definition padded_job_id : string := "  job_1326381300833_2 ".

(** * Properties *)

Section Properties.

Variable cfg : config.
Variable rt : runtime.

(** One step of a handler run against an upstream. *)
Ltac run_step := cbn [lift ok raise try_except bind run fst snd List.app].

(** Case analysis on the outcome the handler waits for next. *)
Ltac split_outcome :=
  match goal with
  | |- context [lift ?r] => destruct r eqn:?
  end;
  run_step.

(** ** Strings *)

Lemma append_assoc (a b c : string) : (a ++ b) ++ c = a ++ b ++ c.
Proof. induction a as [|x a IH]; simpl; [reflexivity | rewrite IH; reflexivity]. Qed.

Lemma contains_char_cons (sep c : ascii) (s : string) :
  str_contains (String sep "") (String c s)
  = (Ascii.eqb c sep || str_contains (String sep "") s)%bool.
Proof.
  cbn [str_contains String.prefix].
  destruct (ascii_dec sep c) as [->|Hne].
  - rewrite Ascii.eqb_refl. destruct s; reflexivity.
  - destruct (Ascii.eqb_spec c sep); [congruence | reflexivity].
Qed.

Lemma split_without_separator (sep : ascii) (s : string) :
  str_contains (String sep "") s = false -> str_split sep s = [s].
Proof.
  induction s as [|c s IH]; intros Hnone; [reflexivity|].
  rewrite contains_char_cons in Hnone.
  apply Bool.orb_false_iff in Hnone. destruct Hnone as [Hc Hs].
  cbn [str_split]. rewrite Hc, (IH Hs). reflexivity.
Qed.

Lemma split_nonempty (sep : ascii) (s : string) : str_split sep s <> [].
Proof.
  destruct s as [|c s]; cbn [str_split]; [discriminate|].
  destruct (Ascii.eqb c sep); [discriminate|].
  destruct (str_split sep s); discriminate.
Qed.

Lemma split_two_pieces (sep : ascii) (s : string) :
  str_contains (String sep "") s = true ->
  exists first second others, str_split sep s = first :: second :: others.
Proof.
  induction s as [|c s IH]; intros Hsome; [discriminate|].
  rewrite contains_char_cons in Hsome. cbn [str_split].
  destruct (Ascii.eqb c sep).
  - pose proof (split_nonempty sep s) as Hne.
    destruct (str_split sep s) as [|piece pieces]; [congruence|].
    exists "", piece, pieces. reflexivity.
  - destruct (IH Hsome) as (first & second & others & ->).
    exists (String c first), second, others. reflexivity.
Qed.

(** [s.split(sep)[-1]] is what follows the last separator. *)
Lemma split_last_piece (sep : ascii) (s : string) :
  str_contains (String sep "") s = true ->
  exists before after,
    s = before ++ String sep after
    /\ str_contains (String sep "") after = false
    /\ last_piece (str_split sep s) = after.
Proof.
  induction s as [|c s IH]; intros Hsome; [discriminate|].
  destruct (str_contains (String sep "") s) eqn:Hrest.
  - destruct (IH eq_refl) as (before & after & Hs & Hafter & Hlast).
    exists (String c before), after.
    split; [simpl; rewrite <- Hs; reflexivity|]. split; [assumption|].
    destruct (split_two_pieces sep s Hrest) as (first & second & others & Hsplit).
    unfold last_piece in *. cbn [str_split]. rewrite Hsplit in *.
    destruct (Ascii.eqb c sep); exact Hlast.
  - rewrite contains_char_cons, Hrest, Bool.orb_false_r in Hsome.
    apply Ascii.eqb_eq in Hsome. subst c.
    exists "", s. split; [reflexivity|]. split; [assumption|].
    unfold last_piece. cbn [str_split]. rewrite Ascii.eqb_refl.
    rewrite (split_without_separator sep s Hrest). reflexivity.
Qed.

Lemma substring_all (s : string) : String.substring 0 (String.length s) s = s.
Proof. induction s as [|c s IH]; simpl; [reflexivity | rewrite IH; reflexivity]. Qed.

Lemma str_drop_app (a b : string) : str_drop (String.length a) (a ++ b) = b.
Proof.
  unfold str_drop. induction a as [|c a IH]; simpl.
  - rewrite Nat.sub_0_r. apply substring_all.
  - exact IH.
Qed.

Lemma prefix_ci_app (p s rest : string) :
  prefix_ci p s = true -> prefix_ci p (s ++ rest) = true.
Proof.
  revert s. induction p as [|a p IH]; intros s Hp; [reflexivity|].
  destruct s as [|b s]; [discriminate|]. simpl in *.
  apply Bool.andb_true_iff in Hp. destruct Hp as [Hab Hp].
  rewrite Hab, (IH s Hp). reflexivity.
Qed.

Lemma prefix_nil (s : string) : String.prefix "" s = true.
Proof. destruct s; reflexivity. Qed.

Lemma prefix_cons (a c : ascii) (t s : string) :
  String.prefix (String a t) (String c s)
  = if ascii_dec a c then String.prefix t s else false.
Proof. reflexivity. Qed.

Lemma prefix_app (p s : string) : String.prefix p (p ++ s) = true.
Proof.
  induction p as [|a p IH]; [apply prefix_nil|].
  cbn [append]. rewrite prefix_cons.
  destruct (ascii_dec a a); [exact IH | congruence].
Qed.

Lemma prefix_split (p s : string) :
  String.prefix p s = true -> exists rest, s = p ++ rest.
Proof.
  revert s. induction p as [|a p IH]; intros s Hp.
  - exists s. reflexivity.
  - destruct s as [|c s]; [discriminate|].
    rewrite prefix_cons in Hp. destruct (ascii_dec a c) as [->|]; [|discriminate].
    destruct (IH s Hp) as [rest ->]. exists rest. reflexivity.
Qed.

Lemma length_append (a b : string) :
  String.length (a ++ b) = (String.length a + String.length b)%nat.
Proof. induction a as [|c a IH]; simpl; [reflexivity | rewrite IH; reflexivity]. Qed.

Lemma contains_suffix (sub w s : string) :
  str_contains sub (w ++ s) = false -> str_contains sub s = false.
Proof.
  induction w as [|c w IH]; intros Hnone; [exact Hnone|].
  apply IH. cbn [append str_contains] in Hnone.
  destruct (String.prefix sub (String c (w ++ s))); [discriminate | exact Hnone].
Qed.

(** ** The formatters *)

Lemma truthy_positive_int (ms : Z) : 0 < ms -> truthy (JInt ms) = true.
Proof.
  intros Hpos. simpl. destruct (Z.eqb_spec ms 0); [lia | reflexivity].
Qed.

(** Both formatters answer the sentinel on an int that is zero or
    negative, and on an absent value. *)
Lemma format_sentinel (ms : Z) :
  ms <= 0 ->
  _format_timestamp rt (JInt ms) = ok "N/A" /\ _format_duration rt (JInt ms) = ok "N/A".
Proof.
  intros Hle. unfold _format_timestamp, _format_duration. simpl.
  destruct (Z.eqb_spec ms 0) as [->|Hne]; simpl; [split; reflexivity|].
  destruct (Z.leb_spec ms 0); [split; reflexivity | lia].
Qed.

Lemma format_sentinel_absent :
  _format_timestamp rt JNull = ok "N/A" /\ _format_duration rt JNull = ok "N/A".
Proof. split; reflexivity. Qed.

(** [_format_duration] is integer arithmetic on an int: it never raises. *)
Lemma format_duration_total (ms : Z) : exists text, _format_duration rt (JInt ms) = ok text.
Proof.
  unfold _format_duration. simpl.
  destruct (negb (negb (ms =? 0))); [eexists; reflexivity|].
  destruct (ms <=? 0); [eexists; reflexivity|].
  destruct (ms / 1000 <? 60); [eexists; reflexivity|].
  destruct (ms / 1000 <? 3600); eexists; reflexivity.
Qed.

(** [_format_timestamp] turns the two exceptions it expects from the
    calendar into the sentinel. *)
Lemma format_timestamp_calendar_failure (ms : Z) (t : spec_float) (msg : string) :
  0 < ms ->
  int_truediv ms 1000 = Some t ->
  fromtimestamp_strftime rt t = CalendarValueError msg
  \/ fromtimestamp_strftime rt t = CalendarOSError msg ->
  _format_timestamp rt (JInt ms) = ok "N/A".
Proof.
  intros Hpos Hdiv Hcal. unfold _format_timestamp.
  rewrite truthy_positive_int by assumption. simpl.
  destruct (Z.leb_spec ms 0); [lia|].
  unfold timestamp_text. simpl. rewrite Hdiv. simpl.
  destruct Hcal as [-> | ->]; reflexivity.
Qed.

(** C4 (the part the code breaks): on the int 10^400 the quotient
    [ms / 1000] is too large for a float; the OverflowError it raises is
    neither a ValueError nor an OSError, so [_format_timestamp] raises
    instead of answering "N/A". *)
Theorem format_timestamp_raises_on_huge_int :
  _format_timestamp rt (JInt (10 ^ 400))
  = raise (PyError "OverflowError" "integer division result too large for a float").
Proof. vm_compute. reflexivity. Qed.

(** C5: [_format_duration] truncates a positive [ms] to whole seconds and
    renders them in one of three tiers, with the boundaries at exactly 60
    and 3600 seconds: seconds alone, minutes and seconds, or hours,
    minutes and seconds. *)
Theorem format_duration_tiers (ms : Z) (Hpos : 0 < ms) :
  let seconds := ms / 1000 in
  1000 * seconds <= ms < 1000 * (seconds + 1)
  /\ (seconds < 60 ->
      _format_duration rt (JInt ms) = ok (str_int seconds ++ "秒"))
  /\ (60 <= seconds < 3600 ->
      _format_duration rt (JInt ms)
      = ok (str_int (seconds / 60) ++ "分" ++ str_int (seconds mod 60) ++ "秒"))
  /\ (3600 <= seconds ->
      _format_duration rt (JInt ms)
      = ok (str_int (seconds / 3600) ++ "时" ++ str_int (seconds mod 3600 / 60) ++ "分"
            ++ str_int (seconds mod 60) ++ "秒"))
  /\ _format_duration rt (JInt 59000) = ok "59秒"
  /\ _format_duration rt (JInt 59999) = ok "59秒"
  /\ _format_duration rt (JInt 60000) = ok "1分0秒"
  /\ _format_duration rt (JInt 65000) = ok "1分5秒"
  /\ _format_duration rt (JInt 3599999) = ok "59分59秒"
  /\ _format_duration rt (JInt 3600000) = ok "1时0分0秒"
  /\ _format_duration rt (JInt 3661000) = ok "1时1分1秒".
Proof.
  intros seconds.
  assert (Hrun : _format_duration rt (JInt ms)
                 = if seconds <? 60 then ok (str_int seconds ++ "秒")
                   else if seconds <? 3600 then
                     ok (str_int (seconds / 60) ++ "分" ++ str_int (seconds mod 60) ++ "秒")
                   else
                     ok (str_int (seconds / 3600) ++ "时"
                         ++ str_int (seconds mod 3600 / 60) ++ "分"
                         ++ str_int (seconds mod 60) ++ "秒")).
  { unfold _format_duration. rewrite truthy_positive_int by assumption. simpl.
    destruct (Z.leb_spec ms 0); [lia | reflexivity]. }
  split.
  { subst seconds. pose proof (Z.div_mod ms 1000 ltac:(lia)).
    pose proof (Z.mod_pos_bound ms 1000 ltac:(lia)). lia. }
  repeat split; try reflexivity; intros Hs; rewrite Hrun.
  - destruct (Z.ltb_spec seconds 60); [reflexivity | lia].
  - destruct (Z.ltb_spec seconds 60); [lia|].
    destruct (Z.ltb_spec seconds 3600); [reflexivity | lia].
  - destruct (Z.ltb_spec seconds 60); [lia|].
    destruct (Z.ltb_spec seconds 3600); [lia | reflexivity].
Qed.

(** ** The jobs listing *)

Lemma add_if_truthy {A : Type} (field : option A) (is_truthy : A -> bool)
    (name : string) (value : A -> json) (query_params : query) :
  (forall v, field = Some v -> is_truthy v = true) ->
  add_if field is_truthy name value query_params
  = List.app query_params (present field name value).
Proof.
  intros Htruthy. destruct field as [v|]; simpl.
  - rewrite (Htruthy v eq_refl). reflexivity.
  - symmetry. apply List.app_nil_r.
Qed.

(** Where every filter that is present is also truthy (a non-empty text,
    a non-zero number), the query of the handler holds exactly the
    present filters. *)
Lemma list_jobs_query_of_truthy_fields (params : ListJobsInput.t) :
  ListJobsInput.user params <> Some "" ->
  ListJobsInput.queue params <> Some "" ->
  ListJobsInput.limit params <> Some 0 ->
  ListJobsInput.started_time_begin params <> Some 0 ->
  ListJobsInput.started_time_end params <> Some 0 ->
  ListJobsInput.finished_time_begin params <> Some 0 ->
  ListJobsInput.finished_time_end params <> Some 0 ->
  list_jobs_query_params params = query_of_present_fields params.
Proof.
  intros Huser Hqueue Hlimit Hstb Hste Hftb Hfte.
  assert (Hs : forall field : option string,
             field <> Some "" -> forall v, field = Some v -> str_is_truthy v = true).
  { intros field Hne v ->. unfold str_is_truthy.
    destruct (String.eqb_spec v ""); [congruence | reflexivity]. }
  assert (Hz : forall field : option Z,
             field <> Some 0 -> forall v, field = Some v -> int_is_truthy v = true).
  { intros field Hne v ->. unfold int_is_truthy.
    destruct (Z.eqb_spec v 0); [congruence | reflexivity]. }
  unfold list_jobs_query_params, query_of_present_fields.
  rewrite !add_if_truthy
    by first [ apply Hs; assumption
             | apply Hz; assumption
             | intros state _; destruct state; reflexivity ].
  cbn [List.concat]. rewrite List.app_nil_r, <- !List.app_assoc. reflexivity.
Qed.

(** C8 (the part the code breaks): the validated input whose filter is
    [started_time_begin = 0] is sent upstream without [startedTimeBegin],
    although the field is present and not null; the query of the
    specification holds it. *)
Theorem list_jobs_drops_zero_filter :
  ListJobsInput.valid zero_start_input
  /\ list_jobs_query_params zero_start_input = [("limit", JInt 20)]
  /\ query_of_present_fields zero_start_input
     = [("limit", JInt 20); ("startedTimeBegin", JInt 0)]
  /\ forall u : upstream,
       exists reply,
         exchanges u (jobhistory_list_jobs cfg rt zero_start_input)
         = [Requested (JOBHISTORY_BASE_URL cfg ++ "/" ++ "mapreduce/jobs")
              (Some [("limit", JInt 20)]) reply].
Proof.
  split; [unfold ListJobsInput.valid, zero_start_input; simpl; lia|].
  split; [reflexivity|]. split; [reflexivity|].
  intros u. unfold exchanges, call, jobhistory_list_jobs, _make_request.
  change (list_jobs_query_params zero_start_input) with [("limit", JInt 20)].
  run_step.
  match goal with |- context [lift ?r] => exists r end.
  split_outcome; [reflexivity|].
  split_outcome; [reflexivity|].
  split_outcome; [reflexivity|].
  destruct (negb (truthy _)); run_step; [reflexivity|].
  cbn [ListJobsInput.response_format zero_start_input].
  repeat (split_outcome; [reflexivity|]).
  reflexivity.
Qed.

(** C10: when the upstream's list of jobs is empty, the jobs listing
    answers the fixed text for every input, whatever output format it
    asks for: the check comes before the choice of the format. *)
Theorem list_jobs_empty_ignores_format (u : upstream) (params : ListJobsInput.t)
    (data jobs_field : json) :
  get_json u [] (JOBHISTORY_BASE_URL cfg ++ "/" ++ "mapreduce/jobs")
    (Some (list_jobs_query_params params)) = inr data ->
  py_get data "jobs" (JObj []) = ok jobs_field ->
  py_get jobs_field "job" (JArr []) = ok (JArr []) ->
  outcome u (jobhistory_list_jobs cfg rt params) = ok no_jobs_found.
Proof.
  intros Hreply Hjobs Hjob.
  unfold outcome, call, jobhistory_list_jobs, _make_request.
  run_step. rewrite Hreply.
  run_step. rewrite Hjobs.
  run_step. rewrite Hjob.
  reflexivity.
Qed.

(** ** The HTML log extractor *)

Lemma search_pre_absent (html : string) :
  (forall before rest, html = before ++ rest -> prefix_ci "<pre" rest = false) ->
  search_pre html = None.
Proof.
  induction html as [|c html IH]; intros Habsent.
  - reflexivity.
  - cbn [search_pre]. unfold match_pre.
    rewrite (Habsent "" (String c html) eq_refl).
    apply IH. intros before rest ->.
    apply (Habsent (String c before) rest). reflexivity.
Qed.

(** A page in which the text [<pre] does not occur, in any letter case,
    has no content: the result is the empty string. *)
Lemma extract_pre_content_absent (html : string) :
  (forall before rest, html = before ++ rest -> prefix_ci "<pre" rest = false) ->
  _extract_pre_content html = "".
Proof.
  intros Habsent. unfold _extract_pre_content.
  rewrite (search_pre_absent html Habsent). reflexivity.
Qed.

Lemma after_tag_end_app (attrs rest : string) :
  str_contains ">" attrs = false ->
  after_tag_end (attrs ++ ">" ++ rest) = Some rest.
Proof.
  induction attrs as [|c attrs IH]; intros Hnone.
  - reflexivity.
  - rewrite contains_char_cons in Hnone.
    apply Bool.orb_false_iff in Hnone. destruct Hnone as [Hc Hattrs].
    simpl. rewrite Hc. exact (IH Hattrs).
Qed.

Lemma until_close_app (body tail : string) :
  prefix_ci "</pre>" tail = true ->
  (forall a b, body = a ++ b -> b <> "" -> prefix_ci "</pre>" (b ++ tail) = false) ->
  until_close (body ++ tail) = Some body.
Proof.
  intros Htail. induction body as [|c body IH]; intros Hfirst.
  - simpl. destruct tail; cbn [until_close]; rewrite Htail; reflexivity.
  - pose proof (Hfirst "" (String c body) eq_refl ltac:(discriminate)) as Hhere.
    cbn [append] in Hhere |- *. cbn [until_close]. rewrite Hhere.
    rewrite IH; [reflexivity|].
    intros a b -> Hb. apply (Hfirst (String c a) b); [reflexivity | exact Hb].
Qed.

Lemma search_pre_skips (before rest : string) :
  (forall a b, before = a ++ b -> b <> "" -> prefix_ci "<pre" (b ++ rest) = false) ->
  search_pre (before ++ rest) = search_pre rest.
Proof.
  induction before as [|c before IH]; intros Hnone; [reflexivity|].
  pose proof (Hnone "" (String c before) eq_refl ltac:(discriminate)) as Hhere.
  cbn [append] in Hhere |- *. cbn [search_pre]. unfold match_pre at 1.
  rewrite Hhere. apply IH. intros a b -> Hb. apply (Hnone (String c a) b); [reflexivity | exact Hb].
Qed.

(** The content the pattern captures: in a page made of [before], an
    opening tag [tag ++ attrs ++ ">"] whose first four characters are
    [<pre] in any letter case, a [body], a closing tag [close] that is
    [</pre>] in any letter case, and a [rest], where no opening starts
    inside [before] and no closing starts inside [body], the function
    returns the body (line breaks included), its entities replaced and
    its ends trimmed. *)
Lemma extract_pre_content_first_element (before tag attrs body close rest : string) :
  (forall a b, before = a ++ b -> b <> "" ->
     prefix_ci "<pre" (b ++ tag ++ attrs ++ ">" ++ body ++ close ++ rest) = false) ->
  String.length tag = 4%nat ->
  prefix_ci "<pre" tag = true ->
  str_contains ">" attrs = false ->
  prefix_ci "</pre>" close = true ->
  (forall a b, body = a ++ b -> b <> "" ->
     prefix_ci "</pre>" (b ++ close ++ rest) = false) ->
  _extract_pre_content (before ++ tag ++ attrs ++ ">" ++ body ++ close ++ rest)
  = str_strip (replace_entities body).
Proof.
  intros Hbefore Hlen Htag Hattrs Hclose Hbody.
  unfold _extract_pre_content.
  rewrite (search_pre_skips before _ Hbefore).
  assert (Hmatch : match_pre (tag ++ attrs ++ ">" ++ body ++ close ++ rest) = Some body).
  { unfold match_pre. rewrite (prefix_ci_app _ _ _ Htag).
    rewrite <- Hlen, str_drop_app, (after_tag_end_app attrs _ Hattrs).
    apply until_close_app; [apply prefix_ci_app; exact Hclose | exact Hbody]. }
  destruct (tag ++ attrs ++ ">" ++ body ++ close ++ rest) eqn:Hpage;
    cbn [search_pre]; rewrite Hmatch; reflexivity.
Qed.

(** *** Where the chain of replacements is a decoding *)

(** [free_of avoid t] for a literal [t]. *)
Ltac free_of_literal :=
  let a := fresh "a" in
  let Hin := fresh "Hin" in
  let Hbad := fresh "Hbad" in
  intros a Hin Hbad; cbn in Hin, Hbad;
  repeat match goal with
         | H : _ \/ _ |- _ => destruct H
         end;
  try contradiction; subst; discriminate.

Section Replace.

Variable name new : string.

Lemma replace_entity_char (c : ascii) (s : string) :
  c <> "&"%char ->
  replace_entity name new (String c s) = String c (replace_entity name new s).
Proof.
  intros Hc. unfold replace_entity, str_replace. cbn [replace_from].
  rewrite prefix_cons. destruct (ascii_dec "&"%char c); [congruence | reflexivity].
Qed.

Lemma replace_entity_text (w s : string) :
  free_of ["&"%char] w ->
  replace_entity name new (w ++ s) = w ++ replace_entity name new s.
Proof.
  induction w as [|c w IH]; intros Hfree; [reflexivity|].
  cbn [append]. rewrite replace_entity_char.
  - rewrite IH; [reflexivity|]. intros a Hin. apply Hfree. right. exact Hin.
  - intros ->. apply (Hfree "&"%char); left; reflexivity.
Qed.

Lemma replace_entity_amp_kept (s : string) :
  String.prefix name s = false ->
  replace_entity name new (String "&"%char s)
  = String "&"%char (replace_entity name new s).
Proof.
  intros Hno. unfold replace_entity, str_replace. cbn [replace_from].
  rewrite prefix_cons. destruct (ascii_dec "&"%char "&"%char); [|congruence].
  rewrite Hno. reflexivity.
Qed.

Lemma replace_skip (t s : string) :
  replace_from (String "&"%char name) new (String.length t) (t ++ s)
  = replace_from (String "&"%char name) new O s.
Proof. induction t as [|c t IH]; [reflexivity | exact IH]. Qed.

Lemma replace_entity_match (s : string) :
  replace_entity name new (String "&"%char name ++ s)
  = new ++ replace_entity name new s.
Proof.
  unfold replace_entity, str_replace. cbn [append replace_from].
  change (String "&"%char (name ++ s)) with (String "&"%char name ++ s).
  rewrite prefix_app. cbn [String.length Nat.pred]. rewrite replace_skip.
  reflexivity.
Qed.

(** A replacement leaves a text that holds neither [&] nor the new
    character where it is, at the start of what follows. *)
Lemma replace_entity_keeps_prefix (n : ascii) (t s : string) :
  new = String n "" ->
  free_of ["&"%char; n] t ->
  String.prefix t (replace_entity name new s) = String.prefix t s.
Proof.
  intros Hnew. revert s. induction t as [|a t IH]; intros s Hfree.
  - rewrite !prefix_nil. reflexivity.
  - assert (Ha : a <> "&"%char /\ a <> n).
    { split; intros ->; apply (Hfree _ (or_introl eq_refl)); cbn; tauto. }
    assert (Ht : free_of ["&"%char; n] t).
    { intros b Hin. apply Hfree. right. exact Hin. }
    destruct s as [|c s]; [reflexivity|].
    destruct (ascii_dec c "&"%char) as [->|Hc].
    + rewrite (prefix_cons a "&"%char). destruct (ascii_dec a "&"%char); [tauto|].
      unfold replace_entity, str_replace. cbn [replace_from].
      destruct (String.prefix (String "&"%char name) (String "&"%char s)).
      * rewrite Hnew. cbn [append]. rewrite prefix_cons.
        destruct (ascii_dec a n); [tauto | reflexivity].
      * rewrite prefix_cons. destruct (ascii_dec a "&"%char); [tauto | reflexivity].
    + rewrite (replace_entity_char c s Hc), !prefix_cons.
      destruct (ascii_dec a c); [apply IH; exact Ht | reflexivity].
Qed.

(** A replacement steps over the entity of another name. *)
Lemma replace_entity_other (other s : string) :
  (forall rest, String.prefix name (other ++ rest) = false) ->
  free_of ["&"%char] other ->
  replace_entity name new (String "&"%char other ++ s)
  = String "&"%char other ++ replace_entity name new s.
Proof.
  intros Hother Hfree. cbn [append].
  rewrite (replace_entity_amp_kept _ (Hother s)).
  rewrite (replace_entity_text other s Hfree). reflexivity.
Qed.

End Replace.

Lemma replace_entities_chain (s : string) :
  replace_entities s
  = replace_entity "nbsp;" " "
      (replace_entity "#39;" "'"
         (replace_entity "quot;" dquote
            (replace_entity "amp;" "&"
               (replace_entity "gt;" ">" (replace_entity "lt;" "<" s))))).
Proof. reflexivity. Qed.

(** The innermost replacement that has not yet met the entity at the
    head steps over it. *)
Ltac over_other_entity :=
  rewrite replace_entity_other by (first [intros rest; reflexivity | free_of_literal]).

(** The replacements that come after step over the character [w] that
    was put in. *)
Ltac over_new_character w :=
  rewrite !(replace_entity_text _ _ w) by free_of_literal.

(** The replacement of [&name] by the character [n] does not change
    whether an entity name starts the text. *)
Ltac through name n :=
  rewrite (replace_entity_keeps_prefix name (String n "") n)
    by (reflexivity || free_of_literal).

Lemma chain_char (c : ascii) (s : string) :
  c <> "&"%char -> replace_entities (String c s) = String c (replace_entities s).
Proof.
  intros Hc. rewrite !replace_entities_chain, !replace_entity_char by exact Hc.
  reflexivity.
Qed.

Lemma chain_lt (s : string) : replace_entities ("&lt;" ++ s) = "<" ++ replace_entities s.
Proof.
  rewrite !replace_entities_chain. rewrite (replace_entity_match "lt;" "<" s).
  over_new_character "<". reflexivity.
Qed.

Lemma chain_gt (s : string) : replace_entities ("&gt;" ++ s) = ">" ++ replace_entities s.
Proof.
  rewrite !replace_entities_chain. over_other_entity.
  rewrite (replace_entity_match "gt;" ">"). over_new_character ">". reflexivity.
Qed.

Lemma chain_quot (s : string) :
  replace_entities ("&quot;" ++ s) = dquote ++ replace_entities s.
Proof.
  rewrite !replace_entities_chain. do 3 over_other_entity.
  rewrite (replace_entity_match "quot;" dquote). over_new_character dquote.
  reflexivity.
Qed.

Lemma chain_apos (s : string) : replace_entities ("&#39;" ++ s) = "'" ++ replace_entities s.
Proof.
  rewrite !replace_entities_chain. do 4 over_other_entity.
  rewrite (replace_entity_match "#39;" "'"). over_new_character "'". reflexivity.
Qed.

Lemma chain_nbsp (s : string) : replace_entities ("&nbsp;" ++ s) = " " ++ replace_entities s.
Proof.
  rewrite !replace_entities_chain. do 5 over_other_entity.
  rewrite (replace_entity_match "nbsp;" " "). reflexivity.
Qed.

(** An [&] that starts none of the six entities stays, in the chain and
    in the decoding. *)
Lemma chain_plain_amp (s : string) :
  plain_amp s -> replace_entities (String "&"%char s) = String "&"%char (replace_entities s).
Proof.
  intros (Hlt & Hgt & Hamp & Hquot & Hapos & Hnbsp).
  rewrite !replace_entities_chain.
  rewrite (replace_entity_amp_kept "lt;" "<" s Hlt).
  rewrite (replace_entity_amp_kept "gt;" ">").
  2: { through "lt;" "<"%char. exact Hgt. }
  rewrite (replace_entity_amp_kept "amp;" "&").
  2: { through "gt;" ">"%char. through "lt;" "<"%char. exact Hamp. }
  rewrite (replace_entity_amp_kept "quot;" dquote).
  2: { through "amp;" "&"%char. through "gt;" ">"%char. through "lt;" "<"%char.
       exact Hquot. }
  rewrite (replace_entity_amp_kept "#39;" "'").
  2: { through "quot;" "034"%char. through "amp;" "&"%char. through "gt;" ">"%char.
       through "lt;" "<"%char. exact Hapos. }
  rewrite (replace_entity_amp_kept "nbsp;" " ").
  2: { through "#39;" "'"%char. through "quot;" "034"%char. through "amp;" "&"%char.
       through "gt;" ">"%char. through "lt;" "<"%char. exact Hnbsp. }
  reflexivity.
Qed.

Lemma decode_char (c : ascii) (s : string) :
  c <> "&"%char -> decode_entities (String c s) = String c (decode_entities s).
Proof.
  intros Hc. unfold decode_entities. cbn [decode_from List.find entities fst].
  rewrite !prefix_cons. destruct (ascii_dec "&" c) as [Heq|_]; [|reflexivity].
  exfalso. apply Hc. symmetry. exact Heq.
Qed.

Lemma decode_plain_amp (s : string) :
  plain_amp s -> decode_entities (String "&"%char s) = String "&"%char (decode_entities s).
Proof.
  intros (Hlt & Hgt & Hamp & Hquot & Hapos & Hnbsp).
  unfold decode_entities. cbn [decode_from List.find entities fst].
  rewrite !prefix_cons.
  destruct (ascii_dec "&" "&"); [|congruence].
  rewrite Hlt, Hgt, Hamp, Hquot, Hapos, Hnbsp. reflexivity.
Qed.

Lemma decode_lt (s : string) : decode_entities ("&lt;" ++ s) = "<" ++ decode_entities s.
Proof. destruct s; vm_compute; reflexivity. Qed.

Lemma decode_gt (s : string) : decode_entities ("&gt;" ++ s) = ">" ++ decode_entities s.
Proof. destruct s; vm_compute; reflexivity. Qed.

Lemma decode_quot (s : string) :
  decode_entities ("&quot;" ++ s) = dquote ++ decode_entities s.
Proof. destruct s; vm_compute; reflexivity. Qed.

Lemma decode_apos (s : string) : decode_entities ("&#39;" ++ s) = "'" ++ decode_entities s.
Proof. destruct s; vm_compute; reflexivity. Qed.

Lemma decode_nbsp (s : string) : decode_entities ("&nbsp;" ++ s) = " " ++ decode_entities s.
Proof. destruct s; vm_compute; reflexivity. Qed.

(** The entity [&name] at the head of a text, in the induction below:
    the chain and the decoding both put [char] and go on with the rest.  *)
Ltac entity_at_head name chain_name decode_name Hknown :=
  let rest := fresh "rest" in
  let Hs := fresh "Hs" in
  match goal with
  | Hprefix : String.prefix name ?s = true |- _ =>
      destruct (prefix_split _ _ Hprefix) as [rest Hs];
      rewrite Hs at 1 2;
      change (String "&"%char (name ++ rest)) with (String "&"%char name ++ rest);
      rewrite chain_name, decode_name, (Hknown _ _ Hs); reflexivity
  end.

(** On a content that does not hold the text [&amp;], the chain of
    replacements of the handler is the decoding of the specification. *)
Lemma replace_entities_decodes (content : string) :
  str_contains "&amp;" content = false ->
  replace_entities content = decode_entities content.
Proof.
  assert (Hall : forall (n : nat) (s : string),
             (String.length s <= n)%nat ->
             str_contains "&amp;" s = false ->
             replace_entities s = decode_entities s).
  { induction n as [|n IH]; intros s Hlen Hnone.
    - destruct s; [reflexivity | simpl in Hlen; lia].
    - destruct s as [|c s]; [reflexivity|].
      assert (Hrest : str_contains "&amp;" s = false)
        by exact (contains_suffix "&amp;" (String c "") s Hnone).
      destruct (ascii_dec c "&"%char) as [->|Hc].
      2: { rewrite chain_char, decode_char by exact Hc. f_equal.
           apply IH; [simpl in Hlen; lia | exact Hrest]. }
      assert (Hknown : forall name rest,
                 s = name ++ rest ->
                 replace_entities rest = decode_entities rest).
      { intros name rest ->. apply IH.
        - simpl in Hlen. rewrite length_append in Hlen. lia.
        - exact (contains_suffix "&amp;" name rest Hrest). }
      destruct (String.prefix "lt;" s) eqn:Hlt;
        [entity_at_head "lt;" chain_lt decode_lt Hknown|].
      destruct (String.prefix "gt;" s) eqn:Hgt;
        [entity_at_head "gt;" chain_gt decode_gt Hknown|].
      destruct (String.prefix "quot;" s) eqn:Hquot;
        [entity_at_head "quot;" chain_quot decode_quot Hknown|].
      destruct (String.prefix "#39;" s) eqn:Hapos;
        [entity_at_head "#39;" chain_apos decode_apos Hknown|].
      destruct (String.prefix "nbsp;" s) eqn:Hnbsp;
        [entity_at_head "nbsp;" chain_nbsp decode_nbsp Hknown|].
      assert (Hamp : String.prefix "amp;" s = false).
      { cbn [str_contains] in Hnone. rewrite prefix_cons in Hnone.
        destruct (ascii_dec "&" "&"); [|congruence].
        destruct (String.prefix "amp;" s); [discriminate | reflexivity]. }
      assert (Hplain : plain_amp s) by (unfold plain_amp; tauto).
      rewrite (chain_plain_amp s Hplain), (decode_plain_amp s Hplain). f_equal.
      apply IH; [simpl in Hlen; lia | exact Hrest]. }
  intros Hnone. exact (Hall (String.length content) content (le_n _) Hnone).
Qed.

(** So a page whose content holds no [&amp;] is extracted as the
    specification says. *)
Lemma extract_pre_content_decodes (html content : string) :
  search_pre html = Some content ->
  str_contains "&amp;" content = false ->
  _extract_pre_content html = str_strip (decode_entities content).
Proof.
  intros Hfound Hnone. unfold _extract_pre_content.
  rewrite Hfound, (replace_entities_decodes content Hnone). reflexivity.
Qed.

(** The two examples of the specification, and a tag in capitals with an
    attribute and a line break in its content. *)
Lemma extract_pre_content_examples :
  _extract_pre_content "<html><pre>a &amp; b</pre></html>" = "a & b"
  /\ _extract_pre_content "<html>no pre</html>" = ""
  /\ _extract_pre_content ("<PRE class='log'>" ++ nl ++ " x &lt; y" ++ nl ++ "z </Pre>")
     = "x < y" ++ nl ++ "z".
Proof. repeat split; vm_compute; reflexivity. Qed.

(** C6 (the part the code breaks): in the log text [&amp;quot;] the only
    entity is [&amp;], which stands for [&]; decoding gives [&quot;].
    The handler replaces [&amp;] before [&quot;], so the text it has just
    decoded is decoded again, into a double quote. *)
Theorem extract_pre_content_decodes_twice :
  _extract_pre_content "<pre>&amp;quot;</pre>" = dquote
  /\ str_strip (decode_entities "&amp;quot;") = "&quot;".
Proof. split; vm_compute; reflexivity. Qed.

(** The pattern takes any tag whose name starts with [pre] for the
    opening tag. *)
Lemma extract_pre_content_other_tag :
  _extract_pre_content "<present>x</present><pre>log</pre>" = "x</present><pre>log".
Proof. vm_compute. reflexivity. Qed.

(** ** The normalization of a JSON-encoded input *)

(** C9: for every tool, an input that arrives as one JSON string decoding
    to an object is normalized to that object before validation, so
    validation yields the same input and the tool is the same program
    (same exchanges, same result) as when the object itself is passed. *)
Theorem json_string_input_is_equivalent (Input : Type)
    (validate_fields : json -> result Input) (tool : Input -> io string)
    (s : string) (fields : list (string * json)) :
  json_loads rt s = ok (JObj fields) ->
  parse_json_string rt (JStr s) = ok (JObj fields)
  /\ parse_json_string rt (JObj fields) = ok (JObj fields)
  /\ model_validate rt Input validate_fields (JStr s)
     = model_validate rt Input validate_fields (JObj fields)
  /\ invoke rt Input validate_fields tool (JStr s)
     = invoke rt Input validate_fields tool (JObj fields)
  /\ forall u : upstream,
       call u (invoke rt Input validate_fields tool (JStr s))
       = call u (invoke rt Input validate_fields tool (JObj fields)).
Proof.
  intros Hloads.
  assert (Hparse : parse_json_string rt (JStr s) = ok (JObj fields)).
  { unfold parse_json_string. rewrite Hloads. reflexivity. }
  assert (Hvalidate : model_validate rt Input validate_fields (JStr s)
                      = model_validate rt Input validate_fields (JObj fields)).
  { unfold model_validate. rewrite Hparse. reflexivity. }
  assert (Hinvoke : invoke rt Input validate_fields tool (JStr s)
                    = invoke rt Input validate_fields tool (JObj fields)).
  { unfold invoke. rewrite Hvalidate. reflexivity. }
  repeat split; try assumption.
  intros u. rewrite Hinvoke. reflexivity.
Qed.

(** A string that is not JSON is left as it is, for validation to reject. *)
Lemma parse_json_string_keeps_invalid (s msg : string) :
  json_loads rt s = raise (PyError "JSONDecodeError" msg) ->
  parse_json_string rt (JStr s) = ok (JStr s).
Proof. intros Hloads. unfold parse_json_string. rewrite Hloads. reflexivity. Qed.

(** ** The counters formatter *)

Lemma py_get_object (fields : list (string * json)) (key : string) (default : json) :
  py_get (JObj fields) key default
  = ok (match assoc key fields with Some v => v | None => default end).
Proof. reflexivity. Qed.

(** The group list the handler iterates over. *)
Lemma counter_groups_first_usable (fields : list (string * json)) :
  counter_groups_of (JObj fields) = ok (groups_by_first_usable_key fields).
Proof.
  unfold counter_groups_of, groups_by_first_usable_key, usable.
  rewrite !py_get_object. cbn [rbind ok].
  destruct (assoc "counterGroup" fields) as [first|].
  - destruct (truthy first) eqn:Hfirst; cbn [negb rbind ok].
    + rewrite Hfirst. reflexivity.
    + destruct (assoc "taskCounterGroup" fields) as [second|]; cbn [rbind ok].
      * destruct (truthy second); reflexivity.
      * reflexivity.
  - cbn [truthy negb rbind ok].
    destruct (assoc "taskCounterGroup" fields) as [second|]; cbn [rbind ok].
    + destruct (truthy second); reflexivity.
    + reflexivity.
Qed.

(** C7 as stated fails: in a response whose job-level list is present but
    empty and whose task-level list has a group, the first key that is
    present holds the empty list, yet the handler renders the task-level
    group. *)
Lemma counter_groups_not_first_present :
  ~ (forall fields : list (string * json),
       counter_groups_of (JObj fields) = ok (groups_by_first_present_key fields)).
Proof.
  intros Hclaim. specialize (Hclaim two_level_counters).
  vm_compute in Hclaim. discriminate Hclaim.
Qed.

(** What the handler prints for that response. *)
Lemma two_level_counters_rendering :
  _format_counters_markdown rt (JObj two_level_counters) "t"
  = ok (join_lines ["# t"; ""; "## TaskCounter"; ""; "- **CPU_MILLISECONDS**: 1,234,567"; ""]).
Proof. vm_compute. reflexivity. Qed.

(** The pieces of the counters formatter: the group list is the value
    of the first of [counterGroup] and [taskCounterGroup] that is present
    and not empty, else what [taskAttemptCounterGroup] holds, else an
    empty list (it is the first present key whenever that key's value is
    not empty); a group's display name is what follows the last dot of
    its raw name, or the raw name when it has no dot; a counter's total
    is [totalCounterValue] if present, else [value] if present, else 0;
    and the map-side and reduce-side values follow in parentheses exactly
    when both are present. *)
Lemma counters_pieces :
  (forall fields : list (string * json),
     counter_groups_of (JObj fields) = ok (groups_by_first_usable_key fields)
     /\ (truthy (groups_by_first_present_key fields) = true ->
         groups_by_first_usable_key fields = groups_by_first_present_key fields))
  /\ (forall name : string,
        (str_contains "." name = true ->
         exists before after,
           name = before ++ "." ++ after
           /\ str_contains "." after = false
           /\ short_name_of (JStr name) = ok (JStr after))
        /\ (str_contains "." name = false ->
            short_name_of (JStr name) = ok (JStr name)))
  /\ (forall counter : list (string * json),
        total_value_of (JObj counter)
        = ok (match assoc "totalCounterValue" counter with
              | Some total => total
              | None =>
                  match assoc "value" counter with
                  | Some value => value
                  | None => JInt 0
                  end
              end))
  /\ (forall (counter : list (string * json)) (name total : json) (total_text : string),
        py_get (JObj counter) "name" (JStr "Unknown") = ok name ->
        total_value_of (JObj counter) = ok total ->
        py_format_comma rt total = ok total_text ->
        (forall (map_value reduce_value : json) (map_text reduce_text : string),
           py_get_opt (JObj counter) "mapCounterValue" = ok map_value ->
           py_get_opt (JObj counter) "reduceCounterValue" = ok reduce_value ->
           map_value <> JNull ->
           reduce_value <> JNull ->
           py_format_comma rt map_value = ok map_text ->
           py_format_comma rt reduce_value = ok reduce_text ->
           counter_line rt (JObj counter)
           = ok ("- **" ++ py_str rt name ++ "**: " ++ total_text ++ " (Map: " ++ map_text
                 ++ ", Reduce: " ++ reduce_text ++ ")"))
        /\ (lacks (JObj counter) "mapCounterValue"
            \/ lacks (JObj counter) "reduceCounterValue" ->
            counter_line rt (JObj counter)
            = ok ("- **" ++ py_str rt name ++ "**: " ++ total_text))).
Proof.
  split; [|split; [|split]].
  - intros fields. split; [apply counter_groups_first_usable|].
    unfold groups_by_first_usable_key, groups_by_first_present_key, usable.
    destruct (assoc "counterGroup" fields) as [first|].
    { intros ->. reflexivity. }
    destruct (assoc "taskCounterGroup" fields) as [second|].
    { intros ->. reflexivity. }
    reflexivity.
  - intros name. unfold short_name_of. cbn [py_contains_str rbind ok]. split.
    + intros Hdot. rewrite Hdot.
      destruct (split_last_piece "."%char name Hdot) as (before & after & Hname & Hafter & Hlast).
      exists before, after. rewrite Hlast. repeat split; assumption.
    + intros Hdot. rewrite Hdot. reflexivity.
  - intros counter. unfold total_value_of. rewrite !py_get_object. cbn [rbind ok].
    rewrite py_get_object. reflexivity.
  - intros counter name total total_text Hname Htotal Htext. split.
    + intros map_value reduce_value map_text reduce_text Hmap Hreduce Hm Hr Hmt Hrt.
      unfold counter_line. rewrite Hname. cbn [rbind ok]. rewrite Htotal. cbn [rbind ok].
      rewrite Hmap. cbn [rbind ok]. rewrite Hreduce. cbn [rbind ok].
      replace (is_not_None map_value) with true
        by (destruct map_value; [congruence | reflexivity ..]).
      replace (is_not_None reduce_value) with true
        by (destruct reduce_value; [congruence | reflexivity ..]).
      cbn [andb]. rewrite Htext. cbn [rbind ok]. rewrite Hmt. cbn [rbind ok].
      rewrite Hrt. reflexivity.
    + intros Hlacks. unfold counter_line. rewrite Hname. cbn [rbind ok].
      rewrite Htotal. cbn [rbind ok].
      unfold lacks in Hlacks.
      destruct Hlacks as [Hmap | Hreduce].
      * rewrite Hmap. cbn [rbind ok].
        assert (Hr : exists r, py_get_opt (JObj counter) "reduceCounterValue" = ok r)
          by (eexists; reflexivity).
        destruct Hr as [r ->].
        cbn [rbind ok is_not_None andb]. rewrite Htext. reflexivity.
      * assert (Hm : exists m, py_get_opt (JObj counter) "mapCounterValue" = ok m)
          by (eexists; reflexivity).
        destruct Hm as [m ->].
        cbn [rbind ok]. rewrite Hreduce. cbn [rbind ok is_not_None].
        rewrite Bool.andb_false_r. rewrite Htext. reflexivity.
Qed.

(** ** Exceptions stop at the handler *)

Lemma reraises_bind {A B : Type} (m : io A) (f : A -> io B) :
  reraises m -> (forall a, reraises (f a)) -> reraises (bind m f).
Proof.
  intros Hm Hf. induction Hm as [a|e|url params k Hraise Hk IH|url k Hraise Hk IH];
    cbn [bind].
  - apply Hf.
  - constructor.
  - constructor; [intros e; rewrite Hraise; reflexivity | exact IH].
  - constructor; [intros e; rewrite Hraise; reflexivity | exact IH].
Qed.

Lemma reraises_lift {A : Type} (r : result A) : reraises (lift r).
Proof. destruct r; constructor. Qed.

Lemma reraises_make_request (endpoint : string) (params : option query) :
  reraises (_make_request cfg endpoint params).
Proof. constructor; [reflexivity | intros data; constructor]. Qed.

Lemma reraises_fetch_logs_html (url : string) : reraises (_fetch_logs_html url).
Proof. constructor; [reflexivity | intros text; constructor]. Qed.

(** A body that re-raises, run under [try: ... except Exception as e:
    return h(e)]: the call returns, and returns [h e] as soon as the
    upstream has answered with the exception [e]. *)
Lemma run_try_except {A : Type} (u : upstream) (h : exn -> A) (m : io A) :
  reraises m ->
  forall past,
  exists new a,
    run u (try_except m h) past = (List.app past new, inr a)
    /\ (forall ev e, In ev new -> reply_exception ev = Some e -> a = h e).
Proof.
  intros Hm. induction Hm as [a|e|url params k Hraise Hk IH|url k Hraise Hk IH];
    intros past.
  - exists [], a. cbn [try_except run]. rewrite List.app_nil_r.
    split; [reflexivity | intros ev e' []].
  - exists [], (h e). cbn [try_except run]. rewrite List.app_nil_r.
    split; [reflexivity | intros ev e' []].
  - cbn [try_except run].
    destruct (get_json u past url params) as [e|data] eqn:Hreply.
    + rewrite Hraise. cbn [try_except run].
      exists [Requested url params (inl e)], (h e). split; [reflexivity|].
      intros ev e' [<-|[]] Hev. cbn in Hev. congruence.
    + destruct (IH data (List.app past [Requested url params (inr data)]))
        as (new & a & Hrun & Hnew).
      exists (Requested url params (inr data) :: new), a.
      rewrite Hrun, <- List.app_assoc. split; [reflexivity|].
      intros ev e' [<-|Hin] Hev; [discriminate Hev | exact (Hnew ev e' Hin Hev)].
  - cbn [try_except run].
    destruct (get_text u past url) as [e|text] eqn:Hreply.
    + rewrite Hraise. cbn [try_except run].
      exists [Fetched url (inl e)], (h e). split; [reflexivity|].
      intros ev e' [<-|[]] Hev. cbn in Hev. congruence.
    + destruct (IH text (List.app past [Fetched url (inr text)]))
        as (new & a & Hrun & Hnew).
      exists (Fetched url (inr text) :: new), a.
      rewrite Hrun, <- List.app_assoc. split; [reflexivity|].
      intros ev e' [<-|Hin] Hev; [discriminate Hev | exact (Hnew ev e' Hin Hev)].
Qed.

(** The body of a handler re-raises: every exchange goes through
    [_make_request] or [_fetch_logs_html]. *)
Ltac reraises_body :=
  repeat first
    [ apply reraises_Return
    | apply reraises_make_request
    | apply reraises_fetch_logs_html
    | apply reraises_lift
    | apply reraises_bind; [|intro]
    | match goal with
      | |- reraises (if ?b then _ else _) => destruct b
      | |- reraises (match ?x with _ => _ end) => destruct x
      end
    | progress cbv zeta ].

(** Every handler is one [try] around a body that re-raises, with
    [_handle_error] as its only [except] clause. *)
Lemma handler_is_guarded (c : tool_call) :
  exists body,
    handler cfg rt c = try_except body (_handle_error cfg rt) /\ reraises body.
Proof.
  destruct c; (eexists; split; [reflexivity|]); reraises_body.
Qed.

(** C3: for every tool handler and every upstream, the call returns a
    text and never raises; once the upstream has answered an exchange with
    an exception (a status error, a timeout, a connection failure or any
    other), the text is [_handle_error] of that exception: the not-found
    text for status 404, the permission text for 403, the authentication
    text for 401, the internal-error text for 500, the unavailable text
    for 503, and for any other status the generic text with the status
    code. *)
Theorem handlers_never_raise (c : tool_call) (u : upstream) :
  (exists text, outcome u (handler cfg rt c) = ok text)
  /\ (forall ev e,
        In ev (exchanges u (handler cfg rt c)) ->
        reply_exception ev = Some e ->
        outcome u (handler cfg rt c) = ok (_handle_error cfg rt e))
  /\ _handle_error cfg rt (HTTPStatusError 404)
     = "错误：资源未找到。请检查 ID 是否正确，或者该作业/任务可能已被清理。"
  /\ _handle_error cfg rt (HTTPStatusError 403)
     = "错误：权限不足，无法访问该资源。请检查访问权限配置。"
  /\ _handle_error cfg rt (HTTPStatusError 401)
     = "错误：认证失败。如果启用了安全模式，请检查认证配置。"
  /\ _handle_error cfg rt (HTTPStatusError 500)
     = "错误：服务器内部错误。请检查 JobHistory Server 日志。"
  /\ _handle_error cfg rt (HTTPStatusError 503)
     = "错误：服务暂时不可用。JobHistory Server 可能正在启动或过载。"
  /\ (forall status_code,
        ~ In status_code [404; 403; 401; 500; 503] ->
        _handle_error cfg rt (HTTPStatusError status_code)
        = "错误：API 请求失败，HTTP 状态码 " ++ str_int status_code ++ "。").
Proof.
  destruct (handler_is_guarded c) as (body & Hhandler & Hbody).
  destruct (run_try_except u (_handle_error cfg rt) body Hbody [])
    as (new & text & Hrun & Hnew).
  unfold outcome, exchanges, call. rewrite Hhandler, Hrun. cbn [fst snd List.app].
  split; [exists text; reflexivity|].
  split; [intros ev e Hin Hev; rewrite (Hnew ev e Hin Hev); reflexivity|].
  repeat (split; [reflexivity|]).
  intros status_code Hother. cbn [_handle_error].
  repeat match goal with
         | |- context [status_code =? ?n] =>
             destruct (Z.eqb_spec status_code n);
             [exfalso; apply Hother; subst; simpl; tauto|]
         end.
  reflexivity.
Qed.

(** ** The two log-retrieval handlers *)

Lemma py_get_opt_other_key (d : json) (key other : string) (v : json) :
  py_get_opt d key = ok v -> exists w, py_get_opt d other = ok w.
Proof.
  destruct d; try discriminate. intros _. eexists. reflexivity.
Qed.

(** C2: in both log-retrieval handlers, once the task-attempt detail has
    been fetched, a detail without [assignedContainerId] ends the call
    with the container-id text after that single exchange, whatever the
    upstream would answer next; a detail with a container id but without
    [nodeHttpAddress] ends it with the node-address text, a different
    text; and when both are there and the job detail, once fetched, has no
    [user], the call ends after the two exchanges with the user-info
    text.  In each case the call returns the text: nothing is raised. *)
Theorem log_lookup_failures (u : upstream) (c : log_call) (attempt_data attempt : json) :
  get_json u [] (attempt_url cfg c) None = inr attempt_data ->
  py_get attempt_data "taskAttempt" (JObj []) = ok attempt ->
  let first_exchange := Requested (attempt_url cfg c) None (inr attempt_data) in
  (lacks attempt "assignedContainerId" ->
   call u (log_handler cfg rt c) = ([first_exchange], ok no_container_id))
  /\ (forall container_id,
        provides attempt "assignedContainerId" container_id ->
        lacks attempt "nodeHttpAddress" ->
        call u (log_handler cfg rt c) = ([first_exchange], ok no_node_address))
  /\ (forall container_id node_http_address job_data job,
        provides attempt "assignedContainerId" container_id ->
        provides attempt "nodeHttpAddress" node_http_address ->
        get_json u [first_exchange] (job_url cfg c) None = inr job_data ->
        py_get job_data "job" (JObj []) = ok job ->
        lacks job "user" ->
        call u (log_handler cfg rt c)
        = ([first_exchange; Requested (job_url cfg c) None (inr job_data)],
           ok no_job_user))
  /\ no_container_id <> no_node_address
  /\ no_container_id <> no_job_user
  /\ no_node_address <> no_job_user.
Proof.
  intros Hattempt_data Hattempt first_exchange. subst first_exchange.
  repeat split; try discriminate.
  - intros Hcontainer.
    destruct (py_get_opt_other_key _ _ "nodeHttpAddress" _ Hcontainer) as [address Haddress].
    unfold lacks in Hcontainer.
    destruct c as [params|params];
      unfold call, log_handler, jobhistory_get_task_attempt_logs,
        jobhistory_get_task_attempt_logs_partial, _make_request, attempt_url, job_url in *;
      cbn [log_job_id log_task_id log_attempt_id] in *; cbv zeta;
      run_step; rewrite Hattempt_data; run_step; rewrite Hattempt; run_step;
      rewrite Hcontainer; run_step; rewrite Haddress; run_step; reflexivity.
  - intros container_id [Hcontainer Htruthy] Haddress. unfold lacks in Haddress.
    destruct c as [params|params];
      unfold call, log_handler, jobhistory_get_task_attempt_logs,
        jobhistory_get_task_attempt_logs_partial, _make_request, attempt_url, job_url in *;
      cbn [log_job_id log_task_id log_attempt_id] in *; cbv zeta;
      run_step; rewrite Hattempt_data; run_step; rewrite Hattempt; run_step;
      rewrite Hcontainer; run_step; rewrite Haddress; run_step;
      rewrite Htruthy; reflexivity.
  - intros container_id node_http_address job_data job
      [Hcontainer Hcontainer_truthy] [Haddress Haddress_truthy] Hjob_data Hjob Huser.
    unfold lacks in Huser.
    destruct c as [params|params];
      unfold call, log_handler, jobhistory_get_task_attempt_logs,
        jobhistory_get_task_attempt_logs_partial, _make_request, attempt_url, job_url in *;
      cbn [log_job_id log_task_id log_attempt_id] in *; cbv zeta;
      run_step; rewrite Hattempt_data; run_step; rewrite Hattempt; run_step;
      rewrite Hcontainer; run_step; rewrite Haddress; run_step;
      rewrite Hcontainer_truthy, Haddress_truthy; cbn [negb]; run_step;
      rewrite Hjob_data; run_step; rewrite Hjob; run_step; rewrite Huser; run_step;
      reflexivity.
Qed.

(** A branch of a log-retrieval call that ended before any log page was
    fetched. *)
Ltac no_page_fetched :=
  let Hin := fresh "Hin" in
  intros Hin; cbn [In] in Hin;
  repeat match type of Hin with
         | _ \/ _ => destruct Hin as [Hin|Hin]
         end;
  solve [discriminate Hin | contradiction].

(** The next outcome the handler waits for: an exception ends the call
    without a page. *)
Ltac lookup_succeeds := split_outcome; [no_page_fetched|].

(** The next test of a looked-up value: a falsy one ends the call
    without a page. *)
Ltac value_is_truthy :=
  match goal with
  | |- context [negb (truthy ?v)] => destruct (truthy v) eqn:?
  end;
  cbn [negb]; run_step; [|no_page_fetched].

Lemma log_url_assembled (logs_base node_manager container_id attempt_id user
    log_type query_string : string) :
  logs_base ++ "/" ++ node_manager ++ "/" ++ container_id ++ "/" ++ attempt_id ++ "/"
  ++ user ++ "/" ++ log_type ++ "/" ++ "?" ++ query_string
  = log_url_path logs_base node_manager container_id attempt_id user log_type
    ++ "?" ++ query_string.
Proof.
  unfold log_url_path. rewrite !append_assoc. reflexivity.
Qed.

(** Whenever one of the two log-retrieval handlers fetches a log
    page, it has first fetched the task-attempt detail and the job detail,
    and the page's URL is the path
    [{logs_base}/{node_manager}/{container_id}/{attempt_id}/{user}/{log_type}/]
    built from their container id, node address (host part, with the
    configured NodeManager port) and user, followed by [?] and the query:
    [start=0&start.time=0&end.time=9223372036854775807] for the full
    handler, [start={start}&end={end}] with the decimal text of the two
    given integers, whatever they are, for the partial one. *)
Lemma log_page_comes_after_lookups (u : upstream) (c : log_call) (url : string)
    (reply : result string) :
  In (Fetched url reply) (exchanges u (log_handler cfg rt c)) ->
  exists attempt_data attempt container_id node_http_address job_data job user hostname,
    exchanges u (log_handler cfg rt c)
    = [ Requested (attempt_url cfg c) None (inr attempt_data);
        Requested (job_url cfg c) None (inr job_data);
        Fetched url reply ]
    /\ py_get attempt_data "taskAttempt" (JObj []) = ok attempt
    /\ provides attempt "assignedContainerId" container_id
    /\ provides attempt "nodeHttpAddress" node_http_address
    /\ py_get job_data "job" (JObj []) = ok job
    /\ provides job "user" user
    /\ _extract_hostname node_http_address = ok hostname
    /\ url = log_url_path (LOGS_BASE_URL cfg)
               (py_str rt hostname ++ ":" ++ NODEMANAGER_PORT cfg)
               (py_str rt container_id) (log_attempt_id c) (py_str rt user)
               (log_type_of c)
             ++ "?" ++ log_query c.
Proof.
  destruct c as [params|params];
    unfold exchanges, call, log_handler, jobhistory_get_task_attempt_logs,
      jobhistory_get_task_attempt_logs_partial, _make_request, _fetch_logs_html,
      attempt_url, job_url;
    cbn [log_job_id log_task_id log_attempt_id log_type_of log_query]; cbv zeta;
    run_step.
  (* the task-attempt detail, its container id and node address *)
  all: do 4 lookup_succeeds; do 2 value_is_truthy.
  (* the job detail and its user *)
  all: do 3 lookup_succeeds; value_is_truthy.
  (* the host name, then the page; what follows causes no exchange *)
  all: lookup_succeeds; split_outcome.
  all: repeat match goal with
              | |- context [if ?b then _ else _] => destruct b; run_step
              | |- context [match ?x with MARKDOWN => _ | JSON => _ end] =>
                  destruct x; run_step
              end.
  all: intros Hin; cbn [In] in Hin; destruct Hin as [Hin|[Hin|[Hin|[]]]];
    [discriminate Hin | discriminate Hin | injection Hin as <- <-].
  all: do 8 eexists; unfold provides.
  all: repeat match goal with
              | |- _ /\ _ => split
              end; try eassumption; try reflexivity.
  all: first [ exact (log_url_assembled _ _ _ _ _ _ full_query)
             | exact (log_url_assembled _ _ _ _ _ _ (range_query _ _)) ].
Qed.

(** C1: a log-retrieval call whose two lookups succeed (the task-attempt
    detail provides a container id and a node address, the job detail a
    user) performs exactly three exchanges: the two lookups, then the GET
    of the log page at the path
    [{logs_base}/{node_manager}/{container_id}/{attempt_id}/{user}/{log_type}/]
    built from them (the node manager being the host part of the node
    address with the configured NodeManager port), followed by [?] and
    the query: [start=0&start.time=0&end.time=9223372036854775807] for
    the full handler, [start={start}&end={end}] with the decimal text of
    the two given integers, whatever they are, for the partial one.  And
    in every call, a page that is fetched is that page: it comes after
    the two lookups, at the URL built from what they provide. *)
Theorem log_url_construction (u : upstream) (c : log_call) :
  (forall attempt_data attempt container_id node_http_address job_data job user hostname,
     get_json u [] (attempt_url cfg c) None = inr attempt_data ->
     py_get attempt_data "taskAttempt" (JObj []) = ok attempt ->
     provides attempt "assignedContainerId" container_id ->
     provides attempt "nodeHttpAddress" node_http_address ->
     get_json u [Requested (attempt_url cfg c) None (inr attempt_data)] (job_url cfg c) None
     = inr job_data ->
     py_get job_data "job" (JObj []) = ok job ->
     provides job "user" user ->
     _extract_hostname node_http_address = ok hostname ->
     let lookups :=
       [ Requested (attempt_url cfg c) None (inr attempt_data);
         Requested (job_url cfg c) None (inr job_data) ] in
     let url :=
       log_url_path (LOGS_BASE_URL cfg)
         (py_str rt hostname ++ ":" ++ NODEMANAGER_PORT cfg)
         (py_str rt container_id) (log_attempt_id c) (py_str rt user) (log_type_of c)
       ++ "?"
       ++ match c with
          | full_logs _ => "start=0&start.time=0&end.time=9223372036854775807"
          | partial_logs params =>
              "start=" ++ str_int (GetTaskAttemptLogsPartialInput.start params)
              ++ "&end=" ++ str_int (GetTaskAttemptLogsPartialInput.end_ params)
          end in
     exchanges u (log_handler cfg rt c)
     = List.app lookups [Fetched url (get_text u lookups url)])
  /\ (forall url reply,
        In (Fetched url reply) (exchanges u (log_handler cfg rt c)) ->
        exists attempt_data attempt container_id node_http_address job_data job user
               hostname,
          exchanges u (log_handler cfg rt c)
          = [ Requested (attempt_url cfg c) None (inr attempt_data);
              Requested (job_url cfg c) None (inr job_data);
              Fetched url reply ]
          /\ py_get attempt_data "taskAttempt" (JObj []) = ok attempt
          /\ provides attempt "assignedContainerId" container_id
          /\ provides attempt "nodeHttpAddress" node_http_address
          /\ py_get job_data "job" (JObj []) = ok job
          /\ provides job "user" user
          /\ _extract_hostname node_http_address = ok hostname
          /\ url = log_url_path (LOGS_BASE_URL cfg)
                     (py_str rt hostname ++ ":" ++ NODEMANAGER_PORT cfg)
                     (py_str rt container_id) (log_attempt_id c) (py_str rt user)
                     (log_type_of c)
                   ++ "?" ++ log_query c).
Proof.
  split; [|exact (log_page_comes_after_lookups u c)].
  intros attempt_data attempt container_id node_http_address job_data job user hostname
    Hattempt_data Hattempt [Hcontainer Hcontainer_truthy] [Haddress Haddress_truthy]
    Hjob_data Hjob [Huser Huser_truthy] Hhostname lookups url.
  subst lookups url.
  destruct c as [params|params];
    rewrite <- log_url_assembled;
    unfold exchanges, call, log_handler, jobhistory_get_task_attempt_logs,
      jobhistory_get_task_attempt_logs_partial, _make_request, _fetch_logs_html,
      attempt_url, job_url in *;
    cbn [log_job_id log_task_id log_attempt_id log_type_of] in *; cbv zeta;
    run_step; rewrite Hattempt_data; run_step; rewrite Hattempt; run_step;
    rewrite Hcontainer; run_step; rewrite Haddress; run_step;
    rewrite Hcontainer_truthy, Haddress_truthy; cbn [negb]; run_step;
    rewrite Hjob_data; run_step; rewrite Hjob; run_step; rewrite Huser; run_step;
    rewrite Huser_truthy; cbn [negb]; run_step; rewrite Hhostname; run_step.
  (* the page, then what follows it, which causes no exchange *)
  all: match goal with
       | |- context [lift (get_text ?u ?past ?url)] =>
           destruct (get_text u past url) eqn:Hpage
       end; run_step.
  all: repeat match goal with
              | |- context [if ?b then _ else _] => destruct b; run_step
              | |- context [match ?x with MARKDOWN => _ | JSON => _ end] =>
                  destruct x; run_step
              end.
  all: rewrite <- Hpage; reflexivity.
Qed.

(** The range of the specification's example, as it reaches the URL. *)
Lemma range_query_example : range_query (-4096) 0 = "start=-4096&end=0".
Proof. reflexivity. Qed.

Lemma to_int_normal (z : Z) :
  Z.to_int z <> Decimal.Pos Decimal.Nil /\ Z.to_int z <> Decimal.Neg Decimal.Nil.
Proof.
  pose proof (DecimalZ.to_of (Z.to_int z)) as Hnorm.
  rewrite DecimalZ.of_to in Hnorm. rewrite Hnorm.
  destruct (Z.to_int z) as [d|d]; cbn [Decimal.norm].
  - split; [|discriminate].
    intros Hnil. injection Hnil as Hnil. exact (DecimalFacts.unorm_nonnil d Hnil).
  - destruct (Decimal.nzhead d) eqn:Hhead; split; discriminate.
Qed.

(** The integers of a range are not altered on their way into the query:
    the decimal text determines the integer. *)
Lemma str_int_injective (a b : Z) : str_int a = str_int b -> a = b.
Proof.
  unfold str_int. intros Heq. apply DecimalZ.to_int_inj.
  destruct (to_int_normal a) as [Hap Han]. destruct (to_int_normal b) as [Hbp Hbn].
  pose proof (NilZero.isi (Z.to_int a) Hap Han) as Ha.
  pose proof (NilZero.isi (Z.to_int b) Hbp Hbn) as Hb.
  rewrite Heq in Ha. congruence.
Qed.

End Properties.

(** * Further properties of the server *)

Section MoreProperties.

Variable cfg : config.
Variable rt : runtime.

(** One step of a handler run against an upstream. *)
Ltac step := cbn [lift ok raise try_except bind run fst snd List.app].

(** ** The requests of the handlers *)

Lemma quiet_lift {A : Type} (r : result A) : quiet (lift r).
Proof. destruct r; constructor. Qed.

Lemma quiet_bind {A B : Type} (m : io A) (f : A -> io B) :
  quiet m -> (forall a, quiet (f a)) -> quiet (bind m f).
Proof. intros [a|e] Hf; cbn [bind]; [apply Hf | constructor]. Qed.

Lemma quiet_try_except {A : Type} (m : io A) (h : exn -> A) :
  quiet m -> quiet (try_except m h).
Proof. intros [a|e]; constructor. Qed.

Lemma run_quiet {A : Type} (u : upstream) (m : io A) (past : list event) :
  quiet m -> fst (run u m past) = past.
Proof. intros [a|e]; reflexivity. Qed.

(** A run only adds exchanges to those of the past. *)
Lemma run_extends {A : Type} (u : upstream) (m : io A) :
  forall past, exists new, fst (run u m past) = List.app past new.
Proof.
  induction m as [a|e|url params k IH|url k IH]; intros past; cbn [run].
  - exists []. cbn. rewrite List.app_nil_r. reflexivity.
  - exists []. cbn. rewrite List.app_nil_r. reflexivity.
  - destruct (IH (get_json u past url params)
                (List.app past [Requested url params (get_json u past url params)]))
      as [new Hnew].
    exists (Requested url params (get_json u past url params) :: new).
    rewrite Hnew, <- List.app_assoc. reflexivity.
  - destruct (IH (get_text u past url) (List.app past [Fetched url (get_text u past url)]))
      as [new Hnew].
    exists (Fetched url (get_text u past url) :: new).
    rewrite Hnew, <- List.app_assoc. reflexivity.
Qed.

(** What follows the reply performs no exchange. *)
Ltac quiet_body :=
  repeat first
    [ apply quiet_Return
    | apply quiet_Raise
    | apply quiet_lift
    | apply quiet_try_except
    | apply quiet_bind; [|intro]
    | match goal with
      | |- quiet (if ?b then _ else _) => destruct b
      | |- quiet (match ?x with _ => _ end) => destruct x
      end
    | progress cbv zeta ].

(** Case analysis on the tool, and on whether the tasks listing filters
    by type. *)
Ltac each_tool c :=
  destruct c;
  try match goal with
      | params : ListTasksInput.t |- _ => destruct params as [? [[]|] ?]
      end.

(** Every handler starts with one request; the handlers other than the
    two log handlers go on without any other exchange. *)
Lemma handler_starts_with_request (c : tool_call) :
  exists k,
    handler cfg rt c = HttpGetJson (request_url cfg c) (request_params c) k
    /\ (is_log_tool c = false -> forall reply, quiet (k reply)).
Proof.
  each_tool c; (eexists; split; [reflexivity|]); intros Hlog reply;
    try discriminate Hlog; destruct reply; step; quiet_body.
Qed.

(** X1: whatever the upstream answers, every tool handler first sends one
    GET to [JOBHISTORY_BASE_URL/endpoint] with the endpoint and query
    parameters its input determines, and every handler other than the two
    log handlers performs no other exchange: one request per call, and no
    page fetched. *)
Theorem handlers_first_request (c : tool_call) (u : upstream) :
  exists later,
    exchanges u (handler cfg rt c)
    = Requested (request_url cfg c) (request_params c)
        (get_json u [] (request_url cfg c) (request_params c)) :: later
    /\ (is_log_tool c = false -> later = []).
Proof.
  destruct (handler_starts_with_request c) as (k & Hhandler & Hquiet).
  unfold exchanges, call. rewrite Hhandler. cbn [run List.app].
  destruct (run_extends u (k (get_json u [] (request_url cfg c) (request_params c)))
              [Requested (request_url cfg c) (request_params c)
                 (get_json u [] (request_url cfg c) (request_params c))])
    as [later Hlater].
  exists later. split; [exact Hlater|].
  intros Hlog. rewrite (run_quiet u _ _ (Hquiet Hlog _)) in Hlater.
  destruct later; [reflexivity|].
  apply (f_equal (@List.length event)) in Hlater. cbn in Hlater. lia.
Qed.

(** The handler of each tool, down to its first request. *)
Ltac expose_handler :=
  unfold outcome, exchanges, call, handler, request_url, request_params,
    jobhistory_get_info, jobhistory_list_jobs, jobhistory_get_job,
    jobhistory_get_job_counters, jobhistory_get_job_conf, jobhistory_get_job_attempts,
    jobhistory_list_tasks, jobhistory_get_task, jobhistory_get_task_counters,
    jobhistory_list_task_attempts, jobhistory_get_task_attempt,
    jobhistory_get_task_attempt_counters, jobhistory_get_task_attempt_logs,
    jobhistory_get_task_attempt_logs_partial, counters_reply, attempt_endpoint,
    _make_request in *;
  cbn [first_request fst snd add_if str_is_truthy TaskType_value String.eqb negb
       List.app ListTasksInput.job_id ListTasksInput.task_type
       ListTasksInput.response_format] in *;
  cbv zeta.

(** The reply the handler waits for is the one [Hreply] gives. *)
Ltac reply_is Hreply :=
  match goal with
  | |- context [lift ?r] =>
      let Hr := fresh "Hr" in
      assert (Hr : r = _) by exact Hreply; rewrite Hr; clear Hr
  end;
  step.

(** X2: when the upstream answers the first request of any tool with
    JSON that is not an object (a list, a string, a number, a boolean or
    null), the call ends after that exchange and returns the text of the
    AttributeError that [data.get] raises on such a value. *)
Theorem non_object_reply_is_reported (c : tool_call) (u : upstream) (v : json) :
  get_json u [] (request_url cfg c) (request_params c) = inr v ->
  (forall fields, v <> JObj fields) ->
  call u (handler cfg rt c)
  = ([Requested (request_url cfg c) (request_params c) (inr v)],
     ok ("错误：AttributeError - '" ++ type_name v ++ "' object has no attribute 'get'")).
Proof.
  intros Hreply Hshape.
  each_tool c; expose_handler; step; reply_is Hreply;
    (destruct v; [reflexivity .. | exfalso; exact (Hshape _ eq_refl)]).
Qed.

(** X3: in JSON format, the seven tools that answer one object (job,
    job counters, job configuration, task, task counters, task attempt,
    task-attempt counters) return the serialization of what the reply
    holds under their key, or of an empty object when the key is missing:
    nothing of it is formatted or filtered, whatever the other inputs
    (the [filter_key] of the configuration tool among them). *)
Theorem json_detail_is_passed_through (c : tool_call) (u : upstream) (key : string)
    (fields : list (string * json)) :
  detail_of c = Some (key, JSON) ->
  get_json u [] (request_url cfg c) (request_params c) = inr (JObj fields) ->
  outcome u (handler cfg rt c)
  = ok (json_dumps rt (match assoc key fields with
                       | Some detail => detail
                       | None => JObj []
                       end)).
Proof.
  intros Hdetail Hreply.
  destruct c; try discriminate Hdetail; destruct params;
    cbn in Hdetail; injection Hdetail as <- ->;
    expose_handler; step; reply_is Hreply; reflexivity.
Qed.

(** X4: for the four tools that answer a list (jobs, job attempts, tasks,
    task attempts), when the reply holds the list [items]: in JSON format
    the result is the serialization of [{"total": len(items), name:
    items}], also for an empty list, except in the jobs listing, which
    tests for emptiness first; an empty list gives the tool's fixed text
    in Markdown format, and in the jobs listing in either format. *)
Theorem listing_in_json_and_when_empty (c : tool_call) (u : upstream) (l : listing)
    (format : ResponseFormat) (data outer : json) (items : list json) :
  listing_of c = Some (l, format) ->
  get_json u [] (request_url cfg c) (request_params c) = inr data ->
  py_get data (outer_key l) (JObj []) = ok outer ->
  py_get outer (inner_key l) (JArr []) = ok (JArr items) ->
  (format = JSON ->
   items <> [] \/ emptiness_first l = false ->
   outcome u (handler cfg rt c)
   = ok (json_dumps rt (JObj [("total", JInt (Z.of_nat (List.length items)));
                              (output_key l, JArr items)])))
  /\ (items = [] ->
      format = MARKDOWN \/ emptiness_first l = true ->
      outcome u (handler cfg rt c) = ok (none_found l)).
Proof.
  intros Hlisting Hreply Houter Hinner.
  each_tool c; try discriminate Hlisting; try destruct params;
    cbn in Hlisting; injection Hlisting as <- <-;
    cbn [outer_key inner_key output_key none_found emptiness_first] in *;
    (split; [intros -> Hfull | intros -> Hempty]);
    expose_handler; step; reply_is Hreply;
    rewrite Houter; step; rewrite Hinner; step.
  all: try reflexivity.
  all: try (destruct Hfull as [Hfull|Hfull];
            [destruct items; [congruence | reflexivity] | discriminate Hfull]).
  all: destruct Hempty as [->|Hempty]; [reflexivity | discriminate Hempty].
Qed.

(** ** Tasks of another type in the tasks listing *)

Lemma tasks_of_type_none (kind : string) (tasks : list json) :
  Forall is_dict tasks ->
  Forall (fun task => has_type kind task = false) tasks ->
  tasks_of_type kind tasks = ok [].
Proof.
  intros Hdict Hother. induction Hdict as [|task tasks [fields ->] Hdict IH].
  - reflexivity.
  - inversion Hother as [|? ? Htask Hrest]; subst.
    unfold tasks_of_type in *. cbn [filter_result].
    unfold has_type in Htask. cbn [py_get_opt py_get ok] in Htask |- *.
    cbn [rbind ok]. rewrite Htask, (IH Hrest). reflexivity.
Qed.

(** X5: the Markdown tasks listing counts every task of the reply in its
    heading but lists only those whose [type] is exactly [MAP] or
    [REDUCE]: for a non-empty reply in which no task has one of these two
    types, the result is the heading with the count and no table. *)
Theorem tasks_of_another_type_are_counted_only (u : upstream) (job_id : string)
    (task_type : option TaskType) (data tasks_field : json) (tasks : list json) :
  let params :=
    {| ListTasksInput.job_id := job_id;
       ListTasksInput.task_type := task_type;
       ListTasksInput.response_format := MARKDOWN |} in
  get_json u [] (request_url cfg (list_tasks params)) (request_params (list_tasks params))
  = inr data ->
  py_get data "tasks" (JObj []) = ok tasks_field ->
  py_get tasks_field "task" (JArr []) = ok (JArr tasks) ->
  tasks <> [] ->
  Forall is_dict tasks ->
  Forall (fun task => has_type "MAP" task = false /\ has_type "REDUCE" task = false) tasks ->
  outcome u (jobhistory_list_tasks cfg rt params)
  = ok (join_lines [ "# 任务列表: " ++ job_id;
                     "共 **" ++ str_int (Z.of_nat (List.length tasks)) ++ "** 个任务";
                     "" ]).
Proof.
  intros params Hreply Hfield Htasks Hsome Hdict Hother. subst params.
  destruct task_type as [[]|]; expose_handler; step; reply_is Hreply;
    rewrite Hfield; step; rewrite Htasks; step;
    (destruct tasks as [|task tasks]; [congruence|]);
    cbn [truthy negb py_len py_iter]; step;
    rewrite (tasks_of_type_none "MAP"), (tasks_of_type_none "REDUCE");
    try exact Hdict;
    try (apply Forall_forall; intros t Ht;
         apply (proj1 (Forall_forall _ _) Hother t Ht));
    reflexivity.
Qed.

(** ** The groups of the configuration listing *)

Lemma group_add_size (prefix : string) (prop : json) (groups : list (string * list json)) :
  List.length (List.concat (List.map snd (group_add prefix prop groups)))
  = S (List.length (List.concat (List.map snd groups))).
Proof.
  induction groups as [|[p props] groups IH]; [reflexivity|].
  cbn [group_add]. destruct (String.eqb p prefix); cbn [List.map snd List.concat].
  - rewrite !List.length_app. cbn [List.length]. lia.
  - rewrite !List.length_app, IH. lia.
Qed.

Lemma group_add_keys (prefix : string) (prop : json) (groups : list (string * list json)) :
  List.map fst (group_add prefix prop groups)
  = if List.existsb (String.eqb prefix) (List.map fst groups)
    then List.map fst groups
    else List.app (List.map fst groups) [prefix].
Proof.
  induction groups as [|[p props] groups IH]; [reflexivity|].
  cbn [group_add List.map fst List.existsb].
  rewrite (String.eqb_sym prefix p).
  destruct (String.eqb p prefix); cbn [orb List.map fst]; [reflexivity|].
  rewrite IH. destruct (List.existsb _ _); reflexivity.
Qed.

Lemma existsb_eqb_In (prefix : string) (keys : list string) :
  List.existsb (String.eqb prefix) keys = true <-> In prefix keys.
Proof.
  rewrite List.existsb_exists. split.
  - intros (k & Hin & Heq). apply String.eqb_eq in Heq. subst. exact Hin.
  - intros Hin. exists prefix. split; [exact Hin | apply String.eqb_refl].
Qed.

(** Where an entry of the groups after [group_add] comes from. *)
Lemma group_add_members (prefix : string) (prop : json)
    (groups : list (string * list json)) (p : string) (props : list json) :
  NoDup (List.map fst groups) ->
  In (p, props) (group_add prefix prop groups) ->
  (p <> prefix /\ In (p, props) groups)
  \/ (p = prefix
      /\ ((exists before, In (p, before) groups /\ props = List.app before [prop])
          \/ (~ In prefix (List.map fst groups) /\ props = [prop]))).
Proof.
  induction groups as [|[q qs] groups IH]; intros Hkeys Hin.
  - cbn in Hin. destruct Hin as [Hin|[]]. injection Hin as <- <-.
    right. split; [reflexivity|]. right. split; [intros [] | reflexivity].
  - cbn [group_add] in Hin. cbn [List.map fst] in Hkeys.
    apply NoDup_cons_iff in Hkeys. destruct Hkeys as [Hfresh Hkeys].
    destruct (String.eqb_spec q prefix) as [->|Hne].
    + destruct Hin as [Hin|Hin].
      * injection Hin as <- <-. right. split; [reflexivity|]. left.
        exists qs. split; [left; reflexivity | reflexivity].
      * left. split; [|right; exact Hin].
        intros ->. apply Hfresh. apply (List.in_map fst _ _ Hin).
    + destruct Hin as [Hin|Hin].
      * injection Hin as <- <-. left. split; [exact Hne | left; reflexivity].
      * destruct (IH Hkeys Hin) as [[Hp Hold]|[-> [(before & Hold & ->)|[Hnew ->]]]].
        -- left. split; [exact Hp | right; exact Hold].
        -- right. split; [reflexivity|]. left. exists before.
           split; [right; exact Hold | reflexivity].
        -- right. split; [reflexivity|]. right. split; [|reflexivity].
           intros [Heq|Hin']; [exact (Hne Heq) | exact (Hnew Hin')].
Qed.

Lemma filter_none {A : Type} (f : A -> bool) (l : list A) :
  (forall a, In a l -> f a = false) -> List.filter f l = [].
Proof.
  induction l as [|a l IH]; intros Hnone; [reflexivity|].
  cbn [List.filter]. rewrite (Hnone a (or_introl eq_refl)).
  apply IH. intros b Hb. apply Hnone. right. exact Hb.
Qed.

Lemma filter_snoc {A : Type} (f : A -> bool) (l : list A) (a : A) :
  List.filter f (List.app l [a])
  = List.app (List.filter f l) (if f a then [a] else []).
Proof. rewrite List.filter_app. reflexivity. Qed.

(** One round of the grouping loop keeps its invariant. *)
Lemma grouped_step (done : list json) (groups : list (string * list json))
    (prop : json) (prefix : string) :
  grouped done groups ->
  property_prefix prop = ok prefix ->
  grouped (List.app done [prop]) (group_add prefix prop groups).
Proof.
  intros (Hkeys & Hfiled & Hgroups & Hsize) Hprefix.
  assert (Hown : filed_under prefix prop = true).
  { unfold filed_under. rewrite Hprefix. unfold ok. apply String.eqb_refl. }
  assert (Hother : forall p, p <> prefix -> filed_under p prop = false).
  { intros p Hp. unfold filed_under. rewrite Hprefix. unfold ok.
    destruct (String.eqb_spec prefix p); [congruence | reflexivity]. }
  split; [|split; [|split]].
  4: { rewrite group_add_size, Hsize, List.length_app. cbn [List.length]. lia. }
  - rewrite group_add_keys.
    destruct (List.existsb (String.eqb prefix) (List.map fst groups)) eqn:Hknown;
      [exact Hkeys|].
    apply NoDup_app; [exact Hkeys | repeat constructor; intros [] |].
    intros k Hk [<-|[]].
    apply existsb_eqb_In in Hk. congruence.
  - intros item Hitem. rewrite group_add_keys.
    apply List.in_app_or in Hitem. destruct Hitem as [Hitem|[<-|[]]].
    + destruct (Hfiled item Hitem) as (p & Hp & Hin). exists p. split; [exact Hp|].
      destruct (List.existsb _ _); [exact Hin | apply List.in_or_app; left; exact Hin].
    + exists prefix. split; [exact Hprefix|].
      destruct (List.existsb _ _) eqn:Hknown;
        [apply existsb_eqb_In; exact Hknown | apply List.in_or_app; right; left; reflexivity].
  - intros p props Hin. rewrite filter_snoc.
    destruct (group_add_members prefix prop groups p props Hkeys Hin)
      as [[Hp Hold]|[-> [(before & Hold & ->)|[Hnew ->]]]].
    + destruct (Hgroups p props Hold) as [Hne Hprops].
      rewrite (Hother p Hp), List.app_nil_r. split; assumption.
    + destruct (Hgroups prefix before Hold) as [Hne Hprops].
      rewrite Hown, <- Hprops. split; [|reflexivity].
      destruct before; discriminate.
    + rewrite Hown. split; [discriminate|].
      rewrite filter_none; [reflexivity|].
      intros item Hitem. destruct (Hfiled item Hitem) as (p & Hp & Hkey).
      unfold filed_under. rewrite Hp. unfold ok.
      destruct (String.eqb_spec p prefix); [subst; contradiction | reflexivity].
Qed.

Lemma group_by_prefix_grouped (rest : list json) :
  forall (done : list json) (groups final : list (string * list json)),
    grouped done groups ->
    group_by_prefix rest groups = ok final ->
    grouped (List.app done rest) final.
Proof.
  induction rest as [|prop rest IH]; intros done groups final Hgrouped Hrun.
  - injection Hrun as <-. rewrite List.app_nil_r. exact Hgrouped.
  - cbn [group_by_prefix] in Hrun.
    destruct (property_prefix prop) as [e|prefix] eqn:Hprefix.
    + unfold property_prefix in Hprefix.
      destruct (py_get prop "name" (JStr "")) as [e'|name]; cbn [rbind] in *;
        [discriminate Hrun|].
      rewrite Hprefix in Hrun. discriminate Hrun.
    + assert (Hstep : group_by_prefix rest (group_add prefix prop groups) = ok final).
      { unfold property_prefix in Hprefix.
        destruct (py_get prop "name" (JStr "")) as [e'|name]; cbn [rbind] in *;
          [discriminate Hrun|].
        rewrite Hprefix in Hrun. exact Hrun. }
      replace (List.app done (prop :: rest)) with (List.app (List.app done [prop]) rest)
        by (rewrite <- List.app_assoc; reflexivity).
      exact (IH _ _ _ (grouped_step _ _ _ _ Hgrouped Hprefix) Hstep).
Qed.

Lemma grouped_nil : grouped [] [].
Proof.
  split; [constructor|]. split; [intros prop []|].
  split; [intros prefix props [] | reflexivity].
Qed.

(** X6: the grouping of the configuration listing is a partition of the
    properties by prefix: the prefixes of the groups are distinct, every
    property is filed under the prefix of its name, each group is not
    empty and holds, in their order, exactly the properties of its prefix,
    and the sizes of the groups add up to the number of properties (the
    count the heading announces). *)
Theorem conf_groups_partition (properties : list json)
    (groups : list (string * list json)) :
  group_by_prefix properties [] = ok groups ->
  NoDup (List.map fst groups)
  /\ (forall prop, In prop properties ->
        exists prefix, property_prefix prop = ok prefix /\ In prefix (List.map fst groups))
  /\ (forall prefix props, In (prefix, props) groups ->
        props <> [] /\ props = List.filter (filed_under prefix) properties)
  /\ List.length (List.concat (List.map snd groups)) = List.length properties.
Proof.
  intros Hrun. exact (group_by_prefix_grouped properties [] [] groups grouped_nil Hrun).
Qed.

Lemma insert_sorted_permutation (entry : string * list json)
    (sorted : list (string * list json)) :
  Permutation (insert_sorted entry sorted) (entry :: sorted).
Proof.
  induction sorted as [|e rest IH]; cbn [insert_sorted]; [reflexivity|].
  destruct (String.leb (fst entry) (fst e)); [reflexivity|].
  rewrite IH. apply perm_swap.
Qed.

Lemma sorted_groups_permutation (groups : list (string * list json)) :
  Permutation (sorted_groups groups) groups.
Proof.
  unfold sorted_groups. induction groups as [|g groups IH]; cbn [List.fold_right].
  - reflexivity.
  - rewrite insert_sorted_permutation. constructor. exact IH.
Qed.

Lemma insert_sorted_head (entry e : string * list json)
    (sorted : list (string * list json)) :
  heading_le e entry -> HdRel heading_le e sorted ->
  HdRel heading_le e (insert_sorted entry sorted).
Proof.
  intros Hentry Hhead. destruct sorted as [|f rest]; cbn [insert_sorted].
  - constructor. exact Hentry.
  - destruct (String.leb (fst entry) (fst f)); constructor;
      [exact Hentry | inversion Hhead; assumption].
Qed.

Lemma insert_sorted_sorted (entry : string * list json)
    (sorted : list (string * list json)) :
  Sorted heading_le sorted -> Sorted heading_le (insert_sorted entry sorted).
Proof.
  induction 1 as [|e rest Hrest IH Hhead]; cbn [insert_sorted].
  - repeat constructor.
  - destruct (String.leb (fst entry) (fst e)) eqn:Hle.
    + constructor; [constructor; assumption | constructor; exact Hle].
    + constructor; [exact IH|].
      apply insert_sorted_head; [|exact Hhead].
      unfold heading_le. destruct (String.leb_total (fst e) (fst entry)); congruence.
Qed.

Lemma sorted_groups_sorted (groups : list (string * list json)) :
  Sorted heading_le (sorted_groups groups).
Proof.
  unfold sorted_groups. induction groups as [|g groups IH]; cbn [List.fold_right].
  - constructor.
  - apply insert_sorted_sorted. exact IH.
Qed.

Lemma leb_distinct (a b : string) :
  String.leb a b = true -> a <> b -> String.ltb a b = true.
Proof.
  unfold String.leb, String.ltb. intros Hle Hne.
  destruct (String.compare a b) eqn:Hcmp; [|reflexivity|discriminate].
  apply String.compare_eq_iff in Hcmp. contradiction.
Qed.

Lemma ascii_compare_lt_trans (a b c : ascii) :
  Ascii.compare a b = Lt -> Ascii.compare b c = Lt -> Ascii.compare a c = Lt.
Proof.
  unfold Ascii.compare. rewrite !N.compare_lt_iff. apply N.lt_trans.
Qed.

Lemma compare_lt_trans (a b c : string) :
  String.compare a b = Lt -> String.compare b c = Lt -> String.compare a c = Lt.
Proof.
  revert b c. induction a as [|x a IH]; intros [|y b] [|z c]; cbn [String.compare];
    try discriminate; try reflexivity.
  destruct (Ascii.compare x y) eqn:Hxy; try discriminate;
    destruct (Ascii.compare y z) eqn:Hyz; try discriminate.
  - apply Ascii.compare_eq_iff in Hxy, Hyz. subst.
    replace (Ascii.compare z z) with Eq
      by (symmetry; unfold Ascii.compare; apply N.compare_refl).
    apply IH.
  - apply Ascii.compare_eq_iff in Hxy. subst. rewrite Hyz. reflexivity.
  - apply Ascii.compare_eq_iff in Hyz. subst. rewrite Hxy. reflexivity.
  - rewrite (ascii_compare_lt_trans x y z Hxy Hyz). reflexivity.
Qed.

Lemma heading_lt_trans (a b c : string * list json) :
  heading_lt a b -> heading_lt b c -> heading_lt a c.
Proof.
  unfold heading_lt, String.ltb. intros Hab Hbc.
  destruct (String.compare (fst a) (fst b)) eqn:Hab'; try discriminate.
  destruct (String.compare (fst b) (fst c)) eqn:Hbc'; try discriminate.
  rewrite (compare_lt_trans _ _ _ Hab' Hbc'). reflexivity.
Qed.

Lemma sorted_distinct (groups : list (string * list json)) :
  NoDup (List.map fst groups) -> Sorted heading_le groups -> Sorted heading_lt groups.
Proof.
  intros Hkeys Hsorted. induction Hsorted as [|e rest Hrest IH Hhead].
  - constructor.
  - cbn [List.map] in Hkeys. apply NoDup_cons_iff in Hkeys. destruct Hkeys as [Hfresh Hkeys].
    constructor; [exact (IH Hkeys)|].
    destruct Hhead as [|f rest Hle]; constructor.
    apply leb_distinct; [exact Hle|].
    intros Heq. apply Hfresh. left. symmetry. exact Heq.
Qed.

Lemma map_result_each {A B : Type} (f : A -> result B) (R : A -> B -> Prop)
    (l : list A) :
  Forall (fun a => exists b, f a = ok b /\ R a b) l ->
  exists bs, map_result f l = ok bs /\ Forall2 R l bs.
Proof.
  induction 1 as [|a l (b & Hb & Hab) Hl (bs & Hbs & Hall)].
  - exists []. split; [reflexivity | constructor].
  - exists (b :: bs). cbn [map_result]. rewrite Hb. cbn [rbind ok]. rewrite Hbs.
    split; [reflexivity | constructor; assumption].
Qed.

Lemma name_matches_well_formed (filter_lower : string) (prop : json) :
  well_formed_property prop ->
  exists found, name_matches rt filter_lower prop = ok found.
Proof.
  intros (fields & -> & Hname & _). unfold name_matches. rewrite py_get_object.
  cbn [rbind ok].
  destruct (assoc "name" fields) as [v|]; [|eexists; reflexivity].
  destruct (Hname v eq_refl) as [s ->]. eexists. reflexivity.
Qed.

Lemma filter_result_well_formed (filter_key : string) (properties : list json) :
  Forall well_formed_property properties ->
  filter_result (name_matches rt (str_lower rt filter_key)) properties
  = ok (List.filter (matches_filter rt filter_key) properties).
Proof.
  induction 1 as [|prop properties Hprop Hrest IH]; [reflexivity|].
  cbn [filter_result List.filter]. unfold matches_filter at 1.
  destruct (name_matches_well_formed (str_lower rt filter_key) prop Hprop) as [found ->].
  cbn [rbind ok]. rewrite IH. reflexivity.
Qed.

Lemma shown_properties_well_formed (filter_key : option string) (properties : list json) :
  Forall well_formed_property properties ->
  Forall well_formed_property (shown_properties rt filter_key properties).
Proof.
  intros Hwell. unfold shown_properties.
  destruct filter_key as [key|]; [|exact Hwell].
  destruct (str_is_truthy key); [|exact Hwell].
  apply Forall_forall. intros prop Hin. apply List.filter_In in Hin.
  exact (proj1 (Forall_forall _ _) Hwell prop (proj1 Hin)).
Qed.

Lemma property_prefix_well_formed (prop : json) :
  well_formed_property prop -> exists prefix, property_prefix prop = ok prefix.
Proof.
  intros (fields & -> & Hname & _). unfold property_prefix. rewrite py_get_object.
  cbn [rbind ok].
  destruct (assoc "name" fields) as [v|]; [|eexists; reflexivity].
  destruct (Hname v eq_refl) as [s ->]. unfold prefix_of. cbn [py_contains_str rbind ok].
  destruct (str_contains "." s); eexists; reflexivity.
Qed.

Lemma group_by_prefix_well_formed (properties : list json) :
  Forall well_formed_property properties ->
  forall groups, exists grouped, group_by_prefix properties groups = ok grouped.
Proof.
  induction 1 as [|prop properties Hprop Hrest IH]; intros groups.
  - exists groups. reflexivity.
  - destruct (property_prefix_well_formed prop Hprop) as [prefix Hprefix].
    unfold property_prefix in Hprefix. cbn [group_by_prefix].
    destruct (py_get prop "name" (JStr "")) as [e|name]; cbn [rbind] in *;
      [discriminate Hprefix|].
    rewrite Hprefix. cbn [rbind ok]. apply IH.
Qed.

Lemma property_line_well_formed (prop : json) :
  well_formed_property prop -> exists row, property_line rt prop = ok row.
Proof.
  intros (fields & -> & _ & Hvalue). unfold property_line. rewrite !py_get_object.
  cbn [rbind ok].
  assert (Htext : exists s,
             match assoc "value" fields with Some v => v | None => JStr "N/A" end = JStr s).
  { destruct (assoc "value" fields) as [v|]; [exact (Hvalue v eq_refl)|].
    eexists. reflexivity. }
  destruct Htext as [s ->]. cbn [py_len rbind ok].
  destruct (100 <? Z.of_nat (List.length (utf8_chars s))); eexists; reflexivity.
Qed.

Lemma prefix_lines_printed (entry : string * list json) :
  Forall well_formed_property (snd entry) ->
  exists block, prefix_lines rt entry = ok block /\ printed_as rt entry block.
Proof.
  destruct entry as [prefix props]. cbn [snd]. intros Hwell. unfold prefix_lines.
  destruct (map_result_each (property_line rt)
              (fun prop row => property_line rt prop = ok row) props)
    as (rows & Hrows & Heach).
  { apply Forall_forall. intros prop Hin.
    destruct (property_line_well_formed prop (proj1 (Forall_forall _ _) Hwell prop Hin))
      as [row Hrow].
    exists row. split; exact Hrow. }
  rewrite Hrows. cbn [rbind ok]. eexists. split; [reflexivity|].
  exists rows. split; [exact Heach | reflexivity].
Qed.

(** X7: for a configuration whose properties are well formed (dicts with
    string names and values), the Markdown listing is five lines of
    header followed by one block per group of the properties shown, each
    with its heading and the lines of its properties, and the blocks come
    in strictly ascending order of their prefixes (as byte strings, which
    is the order of the code points): the groups printed are those the
    grouping built, each prefix less than every later one. *)
Theorem conf_groups_in_order (job_id : string) (filter_key : option string)
    (conf : list (string * json)) (properties : list json) :
  match assoc "property" conf with Some v => v | None => JArr [] end = JArr properties ->
  Forall well_formed_property properties ->
  exists header groups printed blocks,
    conf_markdown rt job_id filter_key (JObj conf)
    = ok (join_lines (List.app header (List.concat blocks)))
    /\ List.length header = 5%nat
    /\ group_by_prefix (shown_properties rt filter_key properties) [] = ok groups
    /\ Permutation printed groups
    /\ StronglySorted heading_lt printed
    /\ Forall2 (printed_as rt) printed blocks.
Proof.
  intros Hproperties Hwell.
  pose proof (shown_properties_well_formed filter_key properties Hwell) as Hshown.
  destruct (group_by_prefix_well_formed _ Hshown []) as [groups Hgroups].
  destruct (group_by_prefix_grouped _ [] [] groups grouped_nil Hgroups)
    as (Hkeys & _ & Hfiled & _).
  destruct (map_result_each (prefix_lines rt) (printed_as rt) (sorted_groups groups))
    as (blocks & Hblocks & Heach).
  { apply Forall_forall. intros entry Hin. apply prefix_lines_printed.
    apply (Permutation_in _ (sorted_groups_permutation groups)) in Hin.
    destruct entry as [prefix props]. cbn [snd].
    destruct (Hfiled prefix props Hin) as [_ ->].
    apply Forall_forall. intros prop Hprop. apply List.filter_In in Hprop.
    exact (proj1 (Forall_forall _ _) Hshown prop (proj1 Hprop)). }
  assert (Hrun : exists header,
             conf_markdown rt job_id filter_key (JObj conf)
             = ok (join_lines (List.app header (List.concat blocks)))
             /\ List.length header = 5%nat).
  { unfold conf_markdown. rewrite !py_get_object. cbn [rbind ok]. rewrite Hproperties.
    unfold shown_properties in Hgroups.
    destruct filter_key as [key|]; [destruct (str_is_truthy key) eqn:Hkey|];
      cbn [py_iter py_len rbind ok];
      try rewrite (filter_result_well_formed key properties Hwell);
      cbn [py_iter py_len rbind ok]; rewrite Hgroups; cbn [rbind ok];
      rewrite Hblocks; cbn [rbind ok]; eexists; split; reflexivity. }
  destruct Hrun as (header & Hrun & Hheader).
  exists header, groups, (sorted_groups groups), blocks.
  split; [exact Hrun|]. split; [exact Hheader|]. split; [exact Hgroups|].
  split; [apply sorted_groups_permutation|]. split; [|exact Heach].
  apply Sorted_StronglySorted; [exact heading_lt_trans|].
  apply sorted_distinct; [|apply sorted_groups_sorted].
  apply (Permutation_NoDup (l := List.map fst groups)); [|exact Hkeys].
  apply Permutation_map. symmetry. apply sorted_groups_permutation.
Qed.

(** ** Characters of a string, and the cut of a long value *)

Lemma append_nil_r (s : string) : s ++ "" = s.
Proof. induction s as [|c s IH]; simpl; [reflexivity | rewrite IH; reflexivity]. Qed.

Lemma concat_cons (piece : string) (pieces : list string) :
  String.concat "" (piece :: pieces) = piece ++ String.concat "" pieces.
Proof.
  destruct pieces; cbn [String.concat]; [rewrite append_nil_r|]; reflexivity.
Qed.

Lemma concat_app (l l' : list string) :
  String.concat "" (List.app l l') = String.concat "" l ++ String.concat "" l'.
Proof.
  induction l as [|piece l IH]; [reflexivity|].
  cbn [List.app]. rewrite !concat_cons, IH, append_assoc. reflexivity.
Qed.

(** The characters of a string, put together again, are the string. *)
Lemma concat_utf8_chars (s : string) : String.concat "" (utf8_chars s) = s.
Proof.
  induction s as [|c s IH]; [reflexivity|].
  cbn [utf8_chars]. destruct (utf8_chars s) as [|piece pieces].
  - cbn in IH. subst s. reflexivity.
  - destruct (starts_with_continuation s).
    + rewrite concat_cons in *. cbn [append]. rewrite IH. reflexivity.
    + rewrite concat_cons, IH. reflexivity.
Qed.

Lemma utf8_chars_characters (s : string) : characters (utf8_chars s).
Proof.
  induction s as [|c s IH]; [exact I|].
  cbn [utf8_chars].
  pose proof (concat_utf8_chars s) as Hs.
  destruct (utf8_chars s) as [|piece pieces].
  - split; [|constructor]. exists c, "". split; reflexivity.
  - destruct IH as [(d & tail & -> & Htail) Hlater].
    rewrite concat_cons in Hs. cbn [append] in Hs. subst s.
    cbn [starts_with_continuation]. destruct (is_continuation d) eqn:Hd.
    + split; [|exact Hlater].
      exists c, (String d tail). split; [reflexivity|].
      cbn [continuation_only]. rewrite Hd, Htail. reflexivity.
    + split; [exists c, ""; split; reflexivity|].
      constructor; [|exact Hlater].
      split; [exists d, tail; split; [reflexivity | exact Htail] | exact Hd].
Qed.

Lemma Forall_firstn {A : Type} (P : A -> Prop) (n : nat) (l : list A) :
  Forall P l -> Forall P (List.firstn n l).
Proof.
  revert l. induction n as [|n IH]; intros l Hl; [constructor|].
  destruct Hl; [constructor|]. cbn [List.firstn].
  constructor; [assumption | apply IH; assumption].
Qed.

Lemma characters_firstn (n : nat) (pieces : list string) :
  characters pieces -> characters (List.firstn n pieces).
Proof.
  destruct n as [|n]; [intros _; exact I|].
  destruct pieces as [|piece later]; [intros _; exact I|].
  intros [Hpiece Hlater]. split; [exact Hpiece | apply Forall_firstn; exact Hlater].
Qed.

Lemma characters_app (pieces later : list string) :
  characters pieces -> Forall whole_character later -> characters (List.app pieces later).
Proof.
  destruct pieces as [|piece pieces]; intros Hpieces Hlater.
  - destruct Hlater as [|first later [Hfirst _] Hlater]; [exact I|].
    split; [exact Hfirst | exact Hlater].
  - destruct Hpieces as [Hpiece Hpieces]. split; [exact Hpiece|].
    apply Forall_app. split; assumption.
Qed.

(** A first byte, continuation bytes, then the text of whole characters:
    the first character is the byte with its continuation bytes. *)
Lemma utf8_chars_first (c : ascii) (tail : string) (pieces : list string) :
  continuation_only tail = true ->
  Forall whole_character pieces ->
  utf8_chars (String.concat "" pieces) = pieces ->
  utf8_chars (String c (tail ++ String.concat "" pieces)) = String c tail :: pieces.
Proof.
  intros Htail Hpieces Hsplit. revert c.
  induction tail as [|d tail IH]; intros c.
  - cbn [append utf8_chars]. rewrite Hsplit.
    destruct pieces as [|piece later]; [reflexivity|].
    inversion Hpieces as [|? ? [(e & rest & -> & _) Hstart] _]; subst.
    rewrite concat_cons. cbn [append starts_with_continuation].
    cbn in Hstart. rewrite Hstart. reflexivity.
  - cbn [continuation_only] in Htail. apply Bool.andb_true_iff in Htail.
    destruct Htail as [Hd Htail].
    cbn [append]. change (utf8_chars (String c ?s))
      with (match utf8_chars s with
            | piece :: pieces =>
                if starts_with_continuation s then String c piece :: pieces
                else String c EmptyString :: piece :: pieces
            | [] => [String c EmptyString]
            end).
    rewrite (IH Htail d). cbn [starts_with_continuation]. rewrite Hd. reflexivity.
Qed.

(** Splitting what a list of characters spells gives the list back. *)
Lemma utf8_chars_concat (pieces : list string) :
  characters pieces -> utf8_chars (String.concat "" pieces) = pieces.
Proof.
  assert (Hwhole : forall later, Forall whole_character later ->
                     utf8_chars (String.concat "" later) = later).
  { induction later as [|piece later IH]; intros Hlater; [reflexivity|].
    inversion Hlater as [|? ? [(c & tail & -> & Htail) _] Hrest]; subst.
    rewrite concat_cons. cbn [append].
    apply utf8_chars_first; [exact Htail | exact Hrest | exact (IH Hrest)]. }
  destruct pieces as [|piece later]; [reflexivity|].
  intros [(c & tail & -> & Htail) Hlater].
  rewrite concat_cons. cbn [append].
  apply utf8_chars_first; [exact Htail | exact Hlater | exact (Hwhole later Hlater)].
Qed.

(** [s[:n]] has [min(n, len(s))] characters and starts [s]. *)
Lemma str_take_len (n : nat) (s : string) :
  str_len (str_take n s) = Nat.min n (str_len s).
Proof.
  unfold str_len, str_take.
  rewrite utf8_chars_concat by (apply characters_firstn, utf8_chars_characters).
  apply List.length_firstn.
Qed.

Lemma str_take_prefix (n : nat) (s : string) :
  s = str_take n s ++ String.concat "" (List.skipn n (utf8_chars s)).
Proof.
  unfold str_take. rewrite <- concat_app, List.firstn_skipn, concat_utf8_chars.
  reflexivity.
Qed.

(** The three dots that mark a cut count as three characters. *)
Lemma str_len_cut (n : nat) (s : string) :
  str_len (str_take n s ++ "...") = (Nat.min n (str_len s) + 3)%nat.
Proof.
  unfold str_len, str_take.
  change "..." with (String.concat "" ["."; "."; "."]).
  rewrite <- concat_app, utf8_chars_concat.
  - rewrite List.length_app, List.length_firstn. reflexivity.
  - apply characters_app; [apply characters_firstn, utf8_chars_characters|].
    repeat constructor; exists "."%char, ""; split; reflexivity.
Qed.

(** X8: in the configuration listing a property whose value is a string
    of at most 100 characters is shown with the whole value; a longer
    value is shown as its first 100 characters followed by three dots, 103
    characters in all, and what is left out is not empty. *)
Theorem property_value_is_cut_at_100 (prop name : json) (value : string) :
  py_get prop "name" (JStr "N/A") = ok name ->
  py_get prop "value" (JStr "N/A") = ok (JStr value) ->
  ((str_len value <= 100)%nat ->
   property_line rt prop = ok ("- `" ++ py_str rt name ++ "` = `" ++ value ++ "`"))
  /\ ((100 < str_len value)%nat ->
      exists rest,
        value = str_take 100 value ++ rest
        /\ rest <> ""
        /\ str_len (str_take 100 value) = 100%nat
        /\ str_len (str_take 100 value ++ "...") = 103%nat
        /\ property_line rt prop
           = ok ("- `" ++ py_str rt name ++ "` = `" ++ (str_take 100 value ++ "...")
                 ++ "`")).
Proof.
  intros Hname Hvalue. unfold property_line. rewrite Hname, Hvalue.
  cbn [rbind ok py_len]. fold (str_len value). split; intros Hlen.
  - destruct (Z.ltb_spec 100 (Z.of_nat (str_len value))); [lia | reflexivity].
  - destruct (Z.ltb_spec 100 (Z.of_nat (str_len value))); [|lia].
    assert (Htake : str_len (str_take 100 value) = 100%nat)
      by (rewrite str_take_len; lia).
    exists (String.concat "" (List.skipn 100 (utf8_chars value))).
    split; [apply str_take_prefix|]. split; [|split; [exact Htake|split]].
    + intros Hrest. pose proof (str_take_prefix 100 value) as Hsplit.
      rewrite Hrest, append_nil_r in Hsplit. rewrite <- Hsplit in Htake. lia.
    + rewrite str_len_cut. lia.
    + reflexivity.
Qed.

(** ** The counters formatter on well-formed counters *)

Lemma map_result_total {A B : Type} (f : A -> result B) (P : A -> Prop) (l : list A) :
  (forall a, P a -> exists b, f a = ok b) ->
  Forall P l ->
  exists bs, map_result f l = ok bs /\ List.length bs = List.length l.
Proof.
  intros Hf Hl. induction Hl as [|a l Ha Hl IH].
  - exists []. split; reflexivity.
  - destruct (Hf a Ha) as [b Hb]. destruct IH as (bs & Hbs & Hlen).
    exists (b :: bs). cbn [map_result]. rewrite Hb. cbn [rbind ok]. rewrite Hbs.
    split; [reflexivity | cbn; rewrite Hlen; reflexivity].
Qed.

Lemma counter_line_total (counter : json) :
  well_formed_counter counter -> exists line, counter_line rt counter = ok line.
Proof.
  intros (fields & -> & Htotal & Hsides).
  unfold counter_line, total_value_of. rewrite !py_get_object. cbn [rbind ok].
  rewrite py_get_object. unfold py_get_opt. rewrite !py_get_object. cbn [rbind ok].
  assert (Htotal_text :
            exists text,
              py_format_comma rt
                match assoc "totalCounterValue" fields with
                | Some v => v
                | None => match assoc "value" fields with Some v => v | None => JInt 0 end
                end = ok text).
  { destruct (assoc "totalCounterValue" fields) as [v|] eqn:Hv.
    - destruct (Htotal "totalCounterValue" v) as [z ->];
        [left; reflexivity | exact Hv | eexists; reflexivity].
    - destruct (assoc "value" fields) as [v|] eqn:Hw; [|eexists; reflexivity].
      destruct (Htotal "value" v) as [z ->];
        [right; left; reflexivity | exact Hw | eexists; reflexivity]. }
  destruct Htotal_text as [text ->]. cbn [rbind ok].
  destruct (assoc "mapCounterValue" fields) as [m|] eqn:Hm;
    [|cbn [is_not_None andb]; eexists; reflexivity].
  destruct (Hsides "mapCounterValue" m) as [->|[zm ->]];
    [left; reflexivity | exact Hm | cbn [is_not_None andb]; eexists; reflexivity |].
  destruct (assoc "reduceCounterValue" fields) as [r|] eqn:Hr;
    [|cbn [is_not_None andb]; eexists; reflexivity].
  destruct (Hsides "reduceCounterValue" r) as [->|[zr ->]];
    [right; left; reflexivity | exact Hr | | ];
    cbn [is_not_None andb py_format_comma rbind ok]; eexists; reflexivity.
Qed.

Lemma group_lines_total (group : json) :
  well_formed_group group -> exists lines, group_lines rt group = ok lines.
Proof.
  intros (fields & -> & Hname & Hcounters).
  unfold group_lines. rewrite !py_get_object. cbn [rbind ok].
  assert (Hshort : exists short,
             short_name_of match assoc "counterGroupName" fields with
                           | Some v => v
                           | None => JStr "Unknown Group"
                           end = ok short).
  { destruct (assoc "counterGroupName" fields) as [v|].
    - destruct (Hname v eq_refl) as [name ->].
      unfold short_name_of. cbn [py_contains_str rbind ok].
      destruct (str_contains "." name); eexists; reflexivity.
    - eexists. reflexivity. }
  destruct Hshort as [short ->]. cbn [rbind ok].
  assert (Hlist : exists counters,
             match assoc "counter" fields with Some v => v | None => JArr [] end
             = JArr counters
             /\ Forall well_formed_counter counters).
  { destruct (assoc "counter" fields) as [v|].
    - exact (Hcounters v eq_refl).
    - exists []. split; [reflexivity | constructor]. }
  destruct Hlist as (counters & -> & Hwell). cbn [py_iter rbind ok].
  destruct (map_result_total (counter_line rt) well_formed_counter counters
              counter_line_total Hwell) as (lines & -> & _).
  eexists. reflexivity.
Qed.

(** X9: on a counters response whose groups are well formed (each a dict
    with a string name and a list of counters that are dicts with integer
    totals and integer or null map-side and reduce-side values), the
    counters formatter does not raise: it returns the title line, an empty
    line and one block of lines per group. *)
Theorem counters_of_a_well_formed_response (counters_data : json) (title : string)
    (groups : list json) :
  counter_groups_of counters_data = ok (JArr groups) ->
  Forall well_formed_group groups ->
  exists blocks,
    _format_counters_markdown rt counters_data title
    = ok (join_lines (("# " ++ title) :: "" :: List.concat blocks))
    /\ List.length blocks = List.length groups.
Proof.
  intros Hgroups Hwell. unfold _format_counters_markdown.
  rewrite Hgroups. cbn [rbind ok py_iter].
  destruct (map_result_total (group_lines rt) well_formed_group groups
              group_lines_total Hwell) as (blocks & -> & Hlen).
  exists blocks. split; [reflexivity | exact Hlen].
Qed.

(** ** The counters formatter, whole *)

Lemma group_lines_rendered (group : json) :
  well_formed_group group ->
  exists block, group_lines rt group = ok block /\ rendered_group rt group block.
Proof.
  intros (fields & -> & Hname & Hcounters).
  unfold group_lines. rewrite !py_get_object. cbn [rbind ok].
  assert (Hshort : exists short,
             short_name_of match assoc "counterGroupName" fields with
                           | Some v => v
                           | None => JStr "Unknown Group"
                           end = ok short).
  { destruct (assoc "counterGroupName" fields) as [v|].
    - destruct (Hname v eq_refl) as [name ->].
      unfold short_name_of. cbn [py_contains_str rbind ok].
      destruct (str_contains "." name); eexists; reflexivity.
    - eexists. reflexivity. }
  destruct Hshort as [short Hshort]. rewrite Hshort. cbn [rbind ok].
  assert (Hlist : exists counters,
             match assoc "counter" fields with Some v => v | None => JArr [] end
             = JArr counters
             /\ Forall well_formed_counter counters).
  { destruct (assoc "counter" fields) as [v|].
    - exact (Hcounters v eq_refl).
    - exists []. split; [reflexivity | constructor]. }
  destruct Hlist as (counters & Hlist & Hwell). rewrite Hlist. cbn [py_iter rbind ok].
  destruct (map_result_each (counter_line rt)
              (fun counter line => counter_line rt counter = ok line) counters)
    as (lines & Hlines & Heach).
  { apply Forall_forall. intros counter Hin.
    destruct (counter_line_total counter (proj1 (Forall_forall _ _) Hwell counter Hin))
      as [line Hline].
    exists line. split; exact Hline. }
  rewrite Hlines. eexists. split; [reflexivity|].
  exists fields, short, counters, lines. repeat split; assumption.
Qed.

Lemma format_counters_composed (fields : list (string * json)) (title : string)
    (groups : list json) :
  groups_by_first_usable_key fields = JArr groups ->
  Forall well_formed_group groups ->
  exists blocks,
    _format_counters_markdown rt (JObj fields) title
    = ok (join_lines (("# " ++ title) :: "" :: List.concat blocks))
    /\ Forall2 (rendered_group rt) groups blocks.
Proof.
  intros Hgroups Hwell. unfold _format_counters_markdown.
  rewrite counter_groups_first_usable, Hgroups. cbn [rbind ok py_iter].
  destruct (map_result_each (group_lines rt) (rendered_group rt) groups)
    as (blocks & Hblocks & Heach).
  { apply Forall_forall. intros group Hin.
    exact (group_lines_rendered group (proj1 (Forall_forall _ _) Hwell group Hin)). }
  rewrite Hblocks. exists blocks. split; [reflexivity | exact Heach].
Qed.

(** C7, amended: for a counters response whose group list is the value
    of the first of [counterGroup] and [taskCounterGroup] that is present
    and not empty, else what [taskAttemptCounterGroup] holds, else an
    empty list (it is the first present key whenever that key's value is
    not empty), the counters formatter returns, when the groups of that
    list are well formed, the title line, an empty line and for each
    group in order a block: a heading with the display name, an empty
    line, one line per counter and an empty line.  The display name is
    what follows the last dot of the raw name, or the raw name when it
    has no dot; the line of a counter shows its total, which is
    [totalCounterValue] if present, else [value] if present, else 0; and
    the map-side and reduce-side values follow in parentheses exactly
    when both are present. *)
Theorem format_counters_shape :
  (forall (fields : list (string * json)) (title : string) (groups : list json),
     groups_by_first_usable_key fields = JArr groups ->
     Forall well_formed_group groups ->
     exists blocks,
       _format_counters_markdown rt (JObj fields) title
       = ok (join_lines (("# " ++ title) :: "" :: List.concat blocks))
       /\ Forall2 (rendered_group rt) groups blocks)
  /\ (forall fields : list (string * json),
        counter_groups_of (JObj fields) = ok (groups_by_first_usable_key fields)
        /\ (truthy (groups_by_first_present_key fields) = true ->
            groups_by_first_usable_key fields = groups_by_first_present_key fields))
  /\ (forall name : string,
        (str_contains "." name = true ->
         exists before after,
           name = before ++ "." ++ after
           /\ str_contains "." after = false
           /\ short_name_of (JStr name) = ok (JStr after))
        /\ (str_contains "." name = false ->
            short_name_of (JStr name) = ok (JStr name)))
  /\ (forall counter : list (string * json),
        total_value_of (JObj counter)
        = ok (match assoc "totalCounterValue" counter with
              | Some total => total
              | None =>
                  match assoc "value" counter with
                  | Some value => value
                  | None => JInt 0
                  end
              end))
  /\ (forall (counter : list (string * json)) (name total : json) (total_text : string),
        py_get (JObj counter) "name" (JStr "Unknown") = ok name ->
        total_value_of (JObj counter) = ok total ->
        py_format_comma rt total = ok total_text ->
        (forall (map_value reduce_value : json) (map_text reduce_text : string),
           py_get_opt (JObj counter) "mapCounterValue" = ok map_value ->
           py_get_opt (JObj counter) "reduceCounterValue" = ok reduce_value ->
           map_value <> JNull ->
           reduce_value <> JNull ->
           py_format_comma rt map_value = ok map_text ->
           py_format_comma rt reduce_value = ok reduce_text ->
           counter_line rt (JObj counter)
           = ok ("- **" ++ py_str rt name ++ "**: " ++ total_text ++ " (Map: " ++ map_text
                 ++ ", Reduce: " ++ reduce_text ++ ")"))
        /\ (lacks (JObj counter) "mapCounterValue"
            \/ lacks (JObj counter) "reduceCounterValue" ->
            counter_line rt (JObj counter)
            = ok ("- **" ++ py_str rt name ++ "**: " ++ total_text))).
Proof.
  split; [exact format_counters_composed | exact (counters_pieces rt)].
Qed.

(** ** The query of the jobs listing *)

Lemma add_if_keeps {A : Type} (field : option A) (is_truthy : A -> bool)
    (name : string) (value : A -> json) (query_params : query) (names : list string) :
  incl (List.map fst query_params) names ->
  NoDup (List.map fst query_params) ->
  ~ In name names ->
  incl (List.map fst (add_if field is_truthy name value query_params))
       (List.app names [name])
  /\ NoDup (List.map fst (add_if field is_truthy name value query_params)).
Proof.
  intros Hincl Hkeys Hfresh.
  assert (Hsame : incl (List.map fst query_params) (List.app names [name])).
  { intros k Hk. apply List.in_or_app. left. exact (Hincl k Hk). }
  unfold add_if. destruct field as [v|]; [|split; assumption].
  destruct (is_truthy v); [|split; assumption].
  rewrite List.map_app. cbn [List.map fst]. split.
  - intros k Hk. apply List.in_app_or in Hk. apply List.in_or_app.
    destruct Hk as [Hk|Hk]; [left; exact (Hincl k Hk) | right; exact Hk].
  - apply NoDup_app; [exact Hkeys | repeat constructor; intros [] |].
    intros k Hk [Heq|[]]. subst k. exact (Hfresh (Hincl name Hk)).
Qed.

Lemma add_if_member {A : Type} (field : option A) (is_truthy : A -> bool)
    (name : string) (value : A -> json) (query_params : query) (k : string) (w : json) :
  In (k, w) (add_if field is_truthy name value query_params) ->
  In (k, w) query_params
  \/ (exists v, field = Some v /\ is_truthy v = true /\ k = name /\ w = value v).
Proof.
  unfold add_if. destruct field as [v|]; [|left; assumption].
  destruct (is_truthy v) eqn:Hv; [|left; assumption].
  intros Hin. apply List.in_app_or in Hin. destruct Hin as [Hin|[Hin|[]]].
  - left. exact Hin.
  - injection Hin as <- <-. right. exists v. repeat split. exact Hv.
Qed.

(** A name that is not among the names used so far. *)
Ltac fresh_name :=
  let Hbad := fresh "Hbad" in
  cbn; intros Hbad;
  repeat match type of Hbad with
         | _ \/ _ => destruct Hbad as [Hbad|Hbad]
         end;
  solve [discriminate Hbad | contradiction].

(** X10: the query the jobs listing sends holds only filters its input
    carries, each under its upstream name with the value given, none of
    them empty or zero, and no name twice. *)
Theorem list_jobs_query_is_sound (params : ListJobsInput.t) :
  (forall name value,
     In (name, value) (list_jobs_query_params params) ->
     In (name, value) (query_of_present_fields params) /\ truthy value = true)
  /\ NoDup (List.map fst (list_jobs_query_params params)).
Proof.
  split.
  - intros name value Hin. unfold list_jobs_query_params in Hin. cbv zeta in Hin.
    unfold query_of_present_fields. cbn [List.concat]. rewrite List.app_nil_r.
    repeat (apply add_if_member in Hin;
            destruct Hin as [Hin|(v & Hfield & Htruthy & -> & ->)];
            [|rewrite Hfield; cbn [present]; split;
              [repeat first [ apply List.in_or_app; left; left; reflexivity
                            | left; reflexivity
                            | apply List.in_or_app; right ]
              | first [ exact Htruthy | destruct v; reflexivity ] ]]).
    destruct Hin.
  - unfold list_jobs_query_params. cbv zeta.
    pose proof (add_if_keeps (ListJobsInput.user params) str_is_truthy "user" JStr [] []
                  (List.incl_nil_l _) (NoDup_nil _) (fun Hin => Hin)) as [Hincl Hkeys].
    pose proof (add_if_keeps (ListJobsInput.state params)
                  (fun s => str_is_truthy (JobState_value s)) "state"
                  (fun s => JStr (JobState_value s)) _ _ Hincl Hkeys ltac:(fresh_name))
      as [Hincl2 Hkeys2].
    pose proof (add_if_keeps (ListJobsInput.queue params) str_is_truthy "queue" JStr
                  _ _ Hincl2 Hkeys2 ltac:(fresh_name)) as [Hincl3 Hkeys3].
    pose proof (add_if_keeps (ListJobsInput.limit params) int_is_truthy "limit" JInt
                  _ _ Hincl3 Hkeys3 ltac:(fresh_name)) as [Hincl4 Hkeys4].
    pose proof (add_if_keeps (ListJobsInput.started_time_begin params) int_is_truthy
                  "startedTimeBegin" JInt _ _ Hincl4 Hkeys4 ltac:(fresh_name))
      as [Hincl5 Hkeys5].
    pose proof (add_if_keeps (ListJobsInput.started_time_end params) int_is_truthy
                  "startedTimeEnd" JInt _ _ Hincl5 Hkeys5 ltac:(fresh_name))
      as [Hincl6 Hkeys6].
    pose proof (add_if_keeps (ListJobsInput.finished_time_begin params) int_is_truthy
                  "finishedTimeBegin" JInt _ _ Hincl6 Hkeys6 ltac:(fresh_name))
      as [Hincl7 Hkeys7].
    exact (proj2 (add_if_keeps (ListJobsInput.finished_time_end params) int_is_truthy
                    "finishedTimeEnd" JInt _ _ Hincl7 Hkeys7 ltac:(fresh_name))).
Qed.

(** ** A log page without content *)

(** Case analysis on the outcome the handler waits for next. *)
Ltac next_outcome :=
  match goal with
  | |- context [lift ?r] => destruct r eqn:?
  end;
  step.

(** A branch of a log-retrieval call that ended without the page. *)
Ltac without_page :=
  let Hin := fresh "Hin" in
  intros Hin; cbn [In] in Hin;
  repeat match type of Hin with
         | _ \/ _ => destruct Hin as [Hin|Hin]
         end;
  solve [discriminate Hin | contradiction].

Ltac next_lookup := next_outcome; [without_page|].

Ltac next_truthy :=
  match goal with
  | |- context [negb (truthy ?v)] => destruct (truthy v) eqn:?
  end;
  cbn [negb]; step; [|without_page].

(** X11: when one of the two log handlers has fetched a log page from
    which no content is extracted (no [pre] element, or one whose content
    is empty or blank), it returns the empty-log text with the URL of the
    page, in JSON format as in Markdown format. *)
Theorem empty_log_is_reported (u : upstream) (c : log_call) (url text : string) :
  In (Fetched url (inr text)) (exchanges u (log_handler cfg rt c)) ->
  _extract_pre_content text = "" ->
  outcome u (log_handler cfg rt c) = ok (empty_log url).
Proof.
  destruct c as [params|params];
    unfold outcome, exchanges, call, log_handler, jobhistory_get_task_attempt_logs,
      jobhistory_get_task_attempt_logs_partial, _make_request, _fetch_logs_html;
    cbv zeta; step.
  all: do 4 next_lookup; do 2 next_truthy.
  all: do 3 next_lookup; next_truthy.
  all: next_lookup; next_outcome; [without_page|].
  all: match goal with
       | |- context [_extract_pre_content ?page] =>
           destruct (str_is_truthy (_extract_pre_content page)) eqn:Hcontent
       end; cbn [negb]; step.
  all: try (repeat match goal with
                   | |- context [match ?x with MARKDOWN => _ | JSON => _ end] =>
                       destruct x; step
                   end).
  all: intros Hin Hempty; cbn [In] in Hin; destruct Hin as [Hin|[Hin|[Hin|[]]]];
    [discriminate Hin | discriminate Hin | injection Hin as <- <-].
  all: try (rewrite Hempty in Hcontent; discriminate Hcontent).
  all: reflexivity.
Qed.

(** ** A page whose element is not closed *)

Lemma suffix_of_refl (s : string) : suffix_of s s.
Proof. exists "". reflexivity. Qed.

Lemma suffix_of_tail (c : ascii) (t s : string) : suffix_of t s -> suffix_of t (String c s).
Proof. intros [before ->]. exists (String c before). reflexivity. Qed.

Lemma suffix_of_trans (a b c : string) : suffix_of a b -> suffix_of b c -> suffix_of a c.
Proof.
  intros [x ->] [y ->]. exists (y ++ x). rewrite append_assoc. reflexivity.
Qed.

Lemma has_no_closing_tag_unclosed (s : string) :
  has_no_closing_tag s = true -> unclosed s.
Proof.
  induction s as [|c s IH]; cbn [has_no_closing_tag]; intros Hnone t [before Ht].
  - destruct before; [|discriminate Ht]. cbn in Ht. subst t. reflexivity.
  - apply Bool.andb_true_iff in Hnone. destruct Hnone as [Hhere Hrest].
    destruct before as [|d before].
    + cbn in Ht. subst t. apply Bool.negb_true_iff. exact Hhere.
    + cbn in Ht. injection Ht as -> ->. apply (IH Hrest). exists before. reflexivity.
Qed.

Lemma until_close_unclosed (s : string) : unclosed s -> until_close s = None.
Proof.
  induction s as [|c s IH]; intros Hopen.
  - reflexivity.
  - cbn [until_close]. rewrite (Hopen _ (suffix_of_refl _)).
    rewrite IH; [reflexivity|].
    intros t Ht. apply Hopen. apply suffix_of_tail. exact Ht.
Qed.

Lemma after_tag_end_suffix (s body : string) :
  after_tag_end s = Some body -> suffix_of body s.
Proof.
  induction s as [|c s IH]; [discriminate|].
  cbn [after_tag_end]. destruct (Ascii.eqb c ">").
  - intros Hbody. injection Hbody as <-. exists (String c ""). reflexivity.
  - intros Hbody. apply suffix_of_tail. exact (IH Hbody).
Qed.

Lemma substring_suffix (n : nat) (s : string) :
  suffix_of (String.substring n (String.length s - n) s) s.
Proof.
  revert s. induction n as [|n IH]; intros s.
  - rewrite Nat.sub_0_r, substring_all. apply suffix_of_refl.
  - destruct s as [|c s]; [apply suffix_of_refl|].
    cbn [String.length String.substring Nat.sub]. apply suffix_of_tail. apply IH.
Qed.

Lemma match_pre_unclosed (s : string) : unclosed s -> match_pre s = None.
Proof.
  intros Hopen. unfold match_pre. destruct (prefix_ci "<pre" s); [|reflexivity].
  destruct (after_tag_end (str_drop 4 s)) as [body|] eqn:Hbody; [|reflexivity].
  apply until_close_unclosed. intros t Ht. apply Hopen.
  apply (suffix_of_trans t body s Ht).
  apply (suffix_of_trans body (str_drop 4 s) s (after_tag_end_suffix _ _ Hbody)).
  apply substring_suffix.
Qed.

(** X12: a page in which the closing tag [</pre>] occurs nowhere, in any
    letter case (a page cut short, say), has no content for the extractor,
    even when it holds an opening [<pre>] followed by log text: the result
    is the empty string. *)
Theorem extract_pre_content_of_unclosed_page (html : string) :
  unclosed html -> _extract_pre_content html = "".
Proof.
  intros Hopen. unfold _extract_pre_content.
  assert (Hnone : search_pre html = None).
  { induction html as [|c html IH].
    - cbn [search_pre]. rewrite (match_pre_unclosed "" Hopen). reflexivity.
    - cbn [search_pre]. rewrite (match_pre_unclosed _ Hopen).
      apply IH. intros t Ht. apply Hopen. apply suffix_of_tail. exact Ht. }
  rewrite Hnone. reflexivity.
Qed.

(** ** [str.strip] *)

Lemma length_list_ascii (s : string) :
  List.length (list_ascii_of_string s) = String.length s.
Proof. induction s as [|c s IH]; simpl; [reflexivity | rewrite IH; reflexivity]. Qed.

Lemma length_of_list_ascii (l : list ascii) :
  String.length (string_of_list_ascii l) = List.length l.
Proof. induction l as [|c l IH]; simpl; [reflexivity | rewrite IH; reflexivity]. Qed.

Lemma list_ascii_app (a b : string) :
  list_ascii_of_string (a ++ b)
  = List.app (list_ascii_of_string a) (list_ascii_of_string b).
Proof. induction a as [|c a IH]; simpl; [reflexivity | rewrite IH; reflexivity]. Qed.

Lemma of_list_ascii_app (a b : list ascii) :
  string_of_list_ascii (List.app a b) = string_of_list_ascii a ++ string_of_list_ascii b.
Proof. induction a as [|c a IH]; simpl; [reflexivity | rewrite IH; reflexivity]. Qed.

Lemma str_rev_involutive (s : string) : str_rev (str_rev s) = s.
Proof.
  unfold str_rev. rewrite list_ascii_of_string_of_list_ascii, List.rev_involutive.
  apply string_of_list_ascii_of_string.
Qed.

Lemma str_rev_length (s : string) : String.length (str_rev s) = String.length s.
Proof.
  unfold str_rev. rewrite length_of_list_ascii, List.length_rev. apply length_list_ascii.
Qed.

Lemma str_rev_app (a b : string) : str_rev (a ++ b) = str_rev b ++ str_rev a.
Proof.
  unfold str_rev. rewrite list_ascii_app, List.rev_app_distr. apply of_list_ascii_app.
Qed.

(** [drop_one_of] finds nothing exactly when no entry starts the text. *)
Lemma drop_one_of_none (chars : list string) (s : string) :
  drop_one_of chars s = None <-> (forall w, In w chars -> String.prefix w s = false).
Proof.
  induction chars as [|w chars IH]; cbn [drop_one_of].
  - split; [intros _ w [] | reflexivity].
  - destruct (String.prefix w s) eqn:Hw.
    + split; [discriminate|]. intros Hnone. rewrite (Hnone w (or_introl eq_refl)) in Hw.
      discriminate.
    + rewrite IH. split.
      * intros Hnone v [<-|Hv]; [exact Hw | exact (Hnone v Hv)].
      * intros Hnone v Hv. apply Hnone. right. exact Hv.
Qed.

Lemma drop_one_of_some (chars : list string) (s rest : string) :
  drop_one_of chars s = Some rest -> exists w, In w chars /\ s = w ++ rest.
Proof.
  induction chars as [|w chars IH]; cbn [drop_one_of]; [discriminate|].
  destruct (String.prefix w s) eqn:Hw.
  - intros Hrest. injection Hrest as <-.
    destruct (prefix_split w s Hw) as [tail ->].
    exists w. split; [left; reflexivity|]. rewrite str_drop_app. reflexivity.
  - intros Hrest. destruct (IH Hrest) as (v & Hv & Hs).
    exists v. split; [right; exact Hv | exact Hs].
Qed.

(** With a round for every byte of the text, the loop of [lstrip] ends on
    a text that none of [chars] starts. *)
Lemma lstrip_fuel_done (chars : list string) :
  Forall nonempty chars ->
  forall (fuel : nat) (s : string),
    (String.length s <= fuel)%nat ->
    drop_one_of chars (lstrip_fuel chars fuel s) = None.
Proof.
  intros Hchars. induction fuel as [|fuel IH]; intros s Hlen.
  - destruct s; [|simpl in Hlen; lia]. cbn [lstrip_fuel].
    apply drop_one_of_none. intros w Hw.
    destruct w; [|reflexivity].
    exfalso. exact (proj1 (Forall_forall _ _) Hchars "" Hw eq_refl).
  - cbn [lstrip_fuel]. destruct (drop_one_of chars s) as [rest|] eqn:Hdrop; [|exact Hdrop].
    apply IH. destruct (drop_one_of_some chars s rest Hdrop) as (w & Hw & ->).
    rewrite length_append in Hlen.
    assert (w <> "") by exact (proj1 (Forall_forall _ _) Hchars w Hw).
    destruct w; [congruence | simpl in Hlen; lia].
Qed.

Lemma lstrip_fuel_fixed (chars : list string) (fuel : nat) (s : string) :
  drop_one_of chars s = None -> lstrip_fuel chars fuel s = s.
Proof. intros Hnone. destruct fuel; cbn [lstrip_fuel]; [|rewrite Hnone]; reflexivity. Qed.

(** What the loop of [lstrip] removes starts the text. *)
Lemma lstrip_fuel_suffix (chars : list string) (fuel : nat) (s : string) :
  exists dropped, s = dropped ++ lstrip_fuel chars fuel s.
Proof.
  revert s. induction fuel as [|fuel IH]; intros s; cbn [lstrip_fuel].
  - exists "". reflexivity.
  - destruct (drop_one_of chars s) as [rest|] eqn:Hdrop; [|exists ""; reflexivity].
    destruct (drop_one_of_some chars s rest Hdrop) as (w & _ & ->).
    destruct (IH rest) as [dropped Hrest].
    exists (w ++ dropped). rewrite append_assoc, <- Hrest. reflexivity.
Qed.

Lemma whitespace_nonempty : Forall nonempty whitespace.
Proof. repeat constructor; discriminate. Qed.

Lemma reversed_whitespace_nonempty : Forall nonempty (List.map str_rev whitespace).
Proof. repeat constructor; discriminate. Qed.

Lemma prefix_of_prefix (w r x : string) :
  String.prefix w r = true -> String.prefix w (r ++ x) = true.
Proof.
  intros Hw. destruct (prefix_split w r Hw) as [tail ->].
  rewrite append_assoc. apply prefix_app.
Qed.

(** What [strip] returns has no whitespace at either end, and stripping
    it again changes nothing. *)
Lemma strip_trimmed (s : string) :
  trimmed (str_strip s) /\ str_strip (str_strip s) = str_strip s.
Proof.
  unfold str_strip.
  set (t := str_lstrip s).
  assert (Ht : drop_one_of whitespace t = None)
    by (apply (lstrip_fuel_done whitespace whitespace_nonempty); apply le_n).
  assert (Hr : drop_one_of (List.map str_rev whitespace) (str_rev (str_rstrip t)) = None).
  { unfold str_rstrip. rewrite str_rev_involutive.
    apply (lstrip_fuel_done _ reversed_whitespace_nonempty).
    rewrite str_rev_length. apply le_n. }
  assert (Hprefix : exists x, t = str_rstrip t ++ x).
  { unfold str_rstrip.
    destruct (lstrip_fuel_suffix (List.map str_rev whitespace) (String.length t) (str_rev t))
      as [dropped Hsplit].
    exists (str_rev dropped).
    rewrite <- str_rev_app, <- Hsplit, str_rev_involutive. reflexivity. }
  assert (Hl : drop_one_of whitespace (str_rstrip t) = None).
  { apply drop_one_of_none. intros w Hw.
    destruct (String.prefix w (str_rstrip t)) eqn:Hstart; [|reflexivity].
    destruct Hprefix as [x Hx].
    pose proof (prefix_of_prefix w _ x Hstart) as Hbad. rewrite <- Hx in Hbad.
    rewrite (proj1 (drop_one_of_none whitespace t) Ht w Hw) in Hbad. discriminate. }
  split.
  - intros w Hw. split.
    + exact (proj1 (drop_one_of_none _ _) Hl w Hw).
    + apply (proj1 (drop_one_of_none _ _) Hr). apply List.in_map. exact Hw.
  - unfold str_lstrip at 1. rewrite (lstrip_fuel_fixed _ _ _ Hl).
    unfold str_rstrip at 1. rewrite (lstrip_fuel_fixed _ _ _ Hr).
    apply str_rev_involutive.
Qed.

(** X13: whatever the page, the content the extractor returns neither
    starts nor ends with a whitespace character, and stripping it again
    leaves it as it is. *)
Theorem extract_pre_content_is_trimmed (html : string) :
  trimmed (_extract_pre_content html)
  /\ str_strip (_extract_pre_content html) = _extract_pre_content html.
Proof.
  unfold _extract_pre_content. destruct (search_pre html) as [content|].
  - apply strip_trimmed.
  - exact (strip_trimmed "").
Qed.

(** ** The host of a node address *)

Lemma rsplit_last (sep : ascii) (s : string) :
  str_contains (String sep "") s = true ->
  exists before after,
    s = before ++ String sep after
    /\ str_contains (String sep "") after = false
    /\ str_rsplit1 sep s = [before; after].
Proof.
  induction s as [|c s IH]; intros Hsome; [discriminate|].
  cbn [str_rsplit1]. destruct (str_contains (String sep "") s) eqn:Hrest.
  - destruct (IH eq_refl) as (before & after & Hs & Hafter & ->).
    exists (String c before), after. rewrite Hs at 1. repeat split; assumption.
  - rewrite contains_char_cons, Hrest, Bool.orb_false_r in Hsome.
    rewrite Hsome. apply Ascii.eqb_eq in Hsome. subst c.
    exists "", s. repeat split. exact Hrest.
Qed.

(** X14: the host of a node address is the address itself when it holds
    no colon, and otherwise what precedes its last colon: the address is
    the host, a colon and a port without colon. *)
Theorem extract_hostname_cuts_at_last_colon (address : string) :
  (str_contains ":" address = false ->
   _extract_hostname (JStr address) = ok (JStr address))
  /\ (str_contains ":" address = true ->
      exists host port,
        address = host ++ ":" ++ port
        /\ str_contains ":" port = false
        /\ _extract_hostname (JStr address) = ok (JStr host)).
Proof.
  unfold _extract_hostname. cbn [py_contains_str rbind ok]. split; intros Hcolon;
    rewrite Hcolon; [reflexivity|].
  destruct (rsplit_last ":"%char address Hcolon) as (host & port & Haddress & Hport & ->).
  exists host, port. repeat split; assumption.
Qed.

(** ** The status code in the error text *)

Lemma append_cancel_l (p a b : string) : p ++ a = p ++ b -> a = b.
Proof.
  induction p as [|c p IH]; intros Heq; [exact Heq|].
  cbn [append] in Heq. injection Heq as Heq. exact (IH Heq).
Qed.

Lemma append_cancel_r (a b q : string) : a ++ q = b ++ q -> a = b.
Proof.
  intros Heq.
  assert (Hlen : String.length a = String.length b).
  { apply (f_equal String.length) in Heq. rewrite !length_append in Heq. lia. }
  revert b Heq Hlen. induction a as [|c a IH]; intros [|d b] Heq Hlen;
    try discriminate Hlen; [reflexivity|].
  cbn [append] in Heq. injection Heq as -> Heq.
  rewrite (IH b Heq); [reflexivity|]. simpl in Hlen. lia.
Qed.

(** X15: the error text of an HTTP status error tells the status code:
    two different codes never give the same text. *)
Theorem status_code_is_in_the_error_text (a b : Z) :
  a <> b ->
  _handle_error cfg rt (HTTPStatusError a) <> _handle_error cfg rt (HTTPStatusError b).
Proof.
  intros Hne. cbn [_handle_error].
  repeat match goal with
         | |- context [?x =? ?n] => destruct (Z.eqb_spec x n)
         end;
    intros Heq; try congruence; try discriminate Heq.
  apply append_cancel_l, append_cancel_r in Heq. exact (Hne (str_int_injective a b Heq)).
Qed.

(** ** The two formatters on values that are not numbers *)

(** X16: on a value that is not a number (a string, a list or a dict,
    from an upstream that does not follow the documented types), the
    timestamp and duration formatters answer "N/A" when the value is empty
    (falsy), null included, and raise the TypeError of the comparison
    [ms <= 0] when it is not. *)
Theorem formatters_on_values_without_order (v : json) :
  as_num v = None ->
  (truthy v = false ->
   _format_timestamp rt v = ok "N/A" /\ _format_duration rt v = ok "N/A")
  /\ (truthy v = true ->
      let refused :=
        PyError "TypeError"
          ("'<=' not supported between instances of '" ++ type_name v ++ "' and 'int'") in
      _format_timestamp rt v = raise refused /\ _format_duration rt v = raise refused).
Proof.
  intros Hnum. unfold _format_timestamp, _format_duration, ordered_with_int.
  rewrite Hnum. split; intros ->; split; reflexivity.
Qed.

(** ** The rendering of a duration determines its whole seconds *)

Lemma digits_of_uint (d : Decimal.uint) : all_digits (NilEmpty.string_of_uint d) = true.
Proof. induction d; [reflexivity | exact IHd ..]. Qed.

Lemma str_int_digits (z : Z) : 0 <= z -> all_digits (str_int z) = true.
Proof.
  intros Hz. destruct z as [|p|p]; [reflexivity | | lia].
  unfold str_int. cbn [Z.to_int NilZero.string_of_int NilZero.string_of_uint].
  generalize (Pos.to_uint p). intros d.
  destruct d; [reflexivity | exact (digits_of_uint _) ..].
Qed.

(** A text made of digits and then a character that is not a digit is
    read in one way only. *)
Lemma digits_then_other (d d' : string) (c c' : ascii) (r r' : string) :
  all_digits d = true -> all_digits d' = true ->
  is_digit c = false -> is_digit c' = false ->
  d ++ String c r = d' ++ String c' r' ->
  d = d' /\ c = c' /\ r = r'.
Proof.
  intros Hd. revert d'. induction d as [|x d IH]; intros d' Hd' Hc Hc' Heq.
  - destruct d' as [|y d'].
    + injection Heq as -> ->. repeat split.
    + cbn in Heq, Hd'. injection Heq as -> _.
      apply Bool.andb_true_iff in Hd'. destruct Hd' as [Hy _]. congruence.
  - cbn [all_digits] in Hd. apply Bool.andb_true_iff in Hd. destruct Hd as [Hx Hd].
    destruct d' as [|y d'].
    + cbn in Heq. injection Heq as -> _. congruence.
    + cbn [all_digits] in Hd'. apply Bool.andb_true_iff in Hd'. destruct Hd' as [Hy Hd'].
      cbn in Heq. injection Heq as -> Heq.
      destruct (IH Hd d' Hd' Hc Hc' Heq) as (-> & -> & ->). repeat split.
Qed.

Lemma format_duration_positive (ms : Z) :
  0 < ms -> _format_duration rt (JInt ms) = ok (duration_text (ms / 1000)).
Proof.
  intros Hpos. unfold _format_duration, duration_text.
  rewrite truthy_positive_int by assumption. simpl.
  destruct (Z.leb_spec ms 0); [lia|].
  destruct (ms / 1000 <? 60); [reflexivity|].
  destruct (ms / 1000 <? 3600); reflexivity.
Qed.

(** The number a rendering starts with, and what follows it. *)
Ltac read_number H :=
  apply digits_then_other in H;
  [ | apply str_int_digits; Z.div_mod_to_equations; lia
    | apply str_int_digits; Z.div_mod_to_equations; lia
    | reflexivity | reflexivity ].

Lemma duration_text_injective (s s' : Z) :
  0 <= s -> 0 <= s' -> duration_text s = duration_text s' -> s = s'.
Proof.
  intros Hs Hs'. unfold duration_text.
  destruct (Z.ltb_spec s 60); destruct (Z.ltb_spec s' 60);
    [|destruct (Z.ltb_spec s' 3600) | destruct (Z.ltb_spec s 3600) |
     destruct (Z.ltb_spec s 3600); destruct (Z.ltb_spec s' 3600)];
    intros Heq.
  all: read_number Heq; destruct Heq as (Hfirst & Hsep & Hrest); try discriminate Hsep.
  - exact (str_int_injective _ _ Hfirst).
  - injection Hrest as Hrest. read_number Hrest.
    destruct Hrest as (Hsecond & _ & _).
    apply str_int_injective in Hfirst, Hsecond. Z.div_mod_to_equations. lia.
  - injection Hrest as Hrest. read_number Hrest.
    destruct Hrest as (Hsecond & _ & Hrest). injection Hrest as Hrest.
    read_number Hrest. destruct Hrest as (Hthird & _ & _).
    apply str_int_injective in Hfirst, Hsecond, Hthird. Z.div_mod_to_equations. lia.
Qed.

(** X17: the rendering of a positive duration determines its whole
    seconds: two durations rendered alike differ by less than a second
    (they have the same quotient by 1000), so no two tiers and no two
    readings of one text are confused. *)
Theorem duration_rendering_determines_seconds (a b : Z) :
  0 < a -> 0 < b ->
  _format_duration rt (JInt a) = _format_duration rt (JInt b) ->
  a / 1000 = b / 1000.
Proof.
  intros Ha Hb. rewrite !format_duration_positive by assumption.
  intros Heq. injection Heq as Heq.
  apply duration_text_injective; [| | exact Heq]; Z.div_mod_to_equations; lia.
Qed.

(** ** [_format_bytes] *)

(** The loop of [_format_bytes] stops because its condition fails, never
    because the rounds are used up. *)
Lemma scale_bytes_ends (rounds : nat) (value : spec_float) (unit_index : nat) :
  (List.length units - 1 <= unit_index + rounds)%nat ->
  let (final, index) := scale_bytes rounds value unit_index in
  (SFleb (float_of_int 1024) final && Nat.ltb index (List.length units - 1))%bool = false.
Proof.
  revert value unit_index. induction rounds as [|rounds IH]; intros value unit_index Hrounds.
  - cbn [scale_bytes]. destruct (Nat.ltb_spec unit_index (List.length units - 1)); [lia|].
    apply Bool.andb_false_r.
  - cbn [scale_bytes].
    destruct (SFleb (float_of_int 1024) value
              && Nat.ltb unit_index (List.length units - 1))%bool eqn:Hgo.
    + apply IH. lia.
    + exact Hgo.
Qed.

Lemma small_counts_render :
  List.forallb (fun k => renders_as_bytes rt (Z.of_nat k)) (List.seq 1 1023) = true.
Proof. vm_compute. reflexivity. Qed.

(** X18: [_format_bytes] renders a count that is zero or negative as
    "0 B", a count from 1 to 1023 exactly, as that many bytes with the unit
    B and no rounding, and raises OverflowError on the count 2^1024, which
    no float holds. *)
Theorem format_bytes_below_one_kilobyte (n : Z) :
  (n <= 0 -> _format_bytes rt (JInt n) = ok "0 B")
  /\ (0 < n < 1024 -> _format_bytes rt (JInt n) = ok (str_int n ++ " B"))
  /\ _format_bytes rt (JInt (2 ^ 1024))
     = raise (PyError "OverflowError" "int too large to convert to float").
Proof.
  split; [|split].
  - intros Hn. unfold _format_bytes. cbn [truthy].
    destruct (Z.eqb_spec n 0) as [->|Hne]; [reflexivity|].
    cbn [negb below_int as_num rbind ok num_lt].
    destruct (Z.ltb_spec n 0); [reflexivity | lia].
  - intros Hn.
    pose proof (proj1 (List.forallb_forall _ _) small_counts_render (Z.to_nat n)) as Hsmall.
    cbv beta in Hsmall. rewrite Z2Nat.id in Hsmall by lia.
    assert (Hin : In (Z.to_nat n) (List.seq 1 1023)) by (apply List.in_seq; lia).
    specialize (Hsmall Hin). unfold renders_as_bytes in Hsmall.
    destruct (_format_bytes rt (JInt n)) as [e|text]; [discriminate|].
    apply String.eqb_eq in Hsmall. subst text. reflexivity.
  - vm_compute. reflexivity.
Qed.

(** ** [validate_job_id] *)

(** X19: the validator of a job id rejects, with ValueError, an id that
    is empty once stripped, and otherwise returns the stripped id, which is
    not empty, has no whitespace at either end, and is accepted unchanged
    when validated again. *)
Theorem validate_job_id_is_stable (v : string) :
  (str_strip v = "" -> validate_job_id v = ValueError "作业 ID 不能为空")
  /\ (forall id, validate_job_id v = ok id ->
        id = str_strip v /\ id <> "" /\ trimmed id /\ validate_job_id id = ok id).
Proof.
  unfold validate_job_id, str_is_truthy. split.
  - intros ->. reflexivity.
  - intros id. destruct (String.eqb_spec (str_strip v) "") as [Hempty|Hfull];
      cbn [negb]; [discriminate|].
    intros Hid. injection Hid as <-.
    destruct (strip_trimmed v) as [Htrimmed Hagain].
    rewrite Hagain.
    destruct (String.eqb_spec (str_strip v) ""); [contradiction|].
    repeat split; try assumption; apply Htrimmed; assumption.
Qed.

(** ** [_safe_serialize_params] *)

(** X20: the text [_safe_serialize_params] gives to the log never exceeds
    503 characters: a serialization of at most 500 characters is given
    whole, a longer one as its first 500 characters and three dots, and
    when dumping the object or serializing it raises an exception the
    fixed failure text is given in its place. *)
Theorem logged_parameters_are_bounded (dumps_for_log : json -> result string)
    (params : option logged_object) :
  (str_len (_safe_serialize_params dumps_for_log params) <= 503)%nat
  /\ (forall object data text,
        params = Some object ->
        dumped object = ok data ->
        dumps_for_log data = ok text ->
        ((str_len text <= 500)%nat ->
         _safe_serialize_params dumps_for_log params = text)
        /\ ((500 < str_len text)%nat ->
            _safe_serialize_params dumps_for_log params = str_take 500 text ++ "..."
            /\ str_len (_safe_serialize_params dumps_for_log params) = 503%nat))
  /\ (forall object e,
        params = Some object ->
        dumped object = raise e
        \/ (exists data, dumped object = ok data /\ dumps_for_log data = raise e) ->
        _safe_serialize_params dumps_for_log params = "<序列化失败>").
Proof.
  split; [|split].
  - destruct params as [object|]; [|cbv; lia].
    unfold _safe_serialize_params.
    destruct (dumped object) as [e|data]; cbn [rbind]; [cbv; lia|].
    destruct (dumps_for_log data) as [e|result]; cbn [rbind ok]; [cbv; lia|].
    destruct (Nat.ltb_spec 500 (str_len result)).
    + rewrite str_len_cut. lia.
    + lia.
  - intros object data text -> Hdata Htext. cbn [_safe_serialize_params].
    rewrite Hdata. cbn [rbind ok]. rewrite Htext. cbn [rbind ok].
    split; intros Hlen.
    + destruct (Nat.ltb_spec 500 (str_len text)); [lia | reflexivity].
    + destruct (Nat.ltb_spec 500 (str_len text)); [|lia].
      split; [reflexivity|]. rewrite str_len_cut. lia.
  - intros object e -> [Hdata|(data & Hdata & Htext)]; cbn [_safe_serialize_params];
      rewrite Hdata; cbn [rbind raise ok]; [reflexivity|].
    rewrite Htext. reflexivity.
Qed.

(** ** The log text behind an escaped page *)

(** [free_of avoid t] for a literal [t]. *)
Ltac literal_free_of :=
  let a := fresh "a" in
  let Hin := fresh "Hin" in
  let Hbad := fresh "Hbad" in
  intros a Hin Hbad; cbn in Hin, Hbad;
  repeat match goal with
         | H : _ \/ _ |- _ => destruct H
         end;
  try contradiction; subst; discriminate.

Lemma replace_entities_stages (s : string) :
  replace_entities s = replace_others (replace_markup s).
Proof. reflexivity. Qed.

Lemma replace_markup_char (c : ascii) (s : string) :
  c <> "&"%char -> replace_markup (String c s) = String c (replace_markup s).
Proof.
  intros Hc. unfold replace_markup. rewrite !replace_entity_char by exact Hc. reflexivity.
Qed.

Lemma replace_markup_lt (s : string) : replace_markup ("&lt;" ++ s) = "<" ++ replace_markup s.
Proof.
  unfold replace_markup. rewrite (replace_entity_match "lt;" "<" s).
  rewrite !(replace_entity_text _ _ "<") by literal_free_of. reflexivity.
Qed.

Lemma replace_markup_gt (s : string) : replace_markup ("&gt;" ++ s) = ">" ++ replace_markup s.
Proof.
  unfold replace_markup.
  rewrite replace_entity_other by (first [intros rest; reflexivity | literal_free_of]).
  rewrite (replace_entity_match "gt;" ">").
  rewrite !(replace_entity_text _ _ ">") by literal_free_of. reflexivity.
Qed.

Lemma replace_markup_amp (s : string) : replace_markup ("&amp;" ++ s) = "&" ++ replace_markup s.
Proof.
  unfold replace_markup.
  rewrite !replace_entity_other by (first [intros rest; reflexivity | literal_free_of]).
  rewrite (replace_entity_match "amp;" "&"). reflexivity.
Qed.

(** The first three replacements undo the escaping, whatever the text. *)
Lemma replace_markup_escape (text : string) : replace_markup (escape_html text) = text.
Proof.
  induction text as [|c text IH]; [reflexivity|].
  cbn [escape_html].
  destruct (Ascii.eqb_spec c "&") as [->|Hamp].
  { rewrite replace_markup_amp, IH. reflexivity. }
  destruct (Ascii.eqb_spec c "<") as [->|Hlt].
  { rewrite replace_markup_lt, IH. reflexivity. }
  destruct (Ascii.eqb_spec c ">") as [->|Hgt].
  { rewrite replace_markup_gt, IH. reflexivity. }
  cbn [append]. rewrite replace_markup_char by exact Hamp. rewrite IH. reflexivity.
Qed.

(** A replacement of a text that does not occur changes nothing. *)
Lemma replace_absent (old new s : string) :
  str_contains old s = false -> str_replace old new s = s.
Proof.
  unfold str_replace. induction s as [|c s IH]; intros Hnone; [reflexivity|].
  cbn [replace_from]. cbn [str_contains] in Hnone.
  destruct (String.prefix old (String c s)); [discriminate|].
  rewrite (IH Hnone). reflexivity.
Qed.

Lemma replace_others_absent (text : string) :
  str_contains "&quot;" text = false ->
  str_contains "&#39;" text = false ->
  str_contains "&nbsp;" text = false ->
  replace_others text = text.
Proof.
  intros Hquot Hapos Hnbsp. unfold replace_others, replace_entity.
  rewrite (replace_absent "&quot;" dquote text Hquot).
  rewrite (replace_absent "&#39;" "'" text Hapos).
  apply (replace_absent "&nbsp;" " " text Hnbsp).
Qed.

(** No [<] is left in an escaped text, so no tag starts in it. *)
Lemma escape_html_suffix (text a b : string) :
  escape_html text = a ++ b -> b <> "" ->
  exists c rest, b = String c rest /\ c <> "<"%char.
Proof.
  revert a. induction text as [|c text IH]; intros a Heq Hb.
  - destruct a; destruct b; try discriminate. contradiction.
  - assert (Hpiece : forall piece, free_of ["<"%char] piece ->
              forall a, piece ++ escape_html text = a ++ b ->
              exists c rest, b = String c rest /\ c <> "<"%char).
    { induction piece as [|p piece IHp]; intros Hfree a' Heq'.
      - exact (IH a' Heq' Hb).
      - destruct a' as [|x a'].
        + cbn [append] in Heq'. exists p, (piece ++ escape_html text).
          split; [symmetry; exact Heq'|].
          intros ->. apply (Hfree "<"%char); left; reflexivity.
        + cbn [append] in Heq'. injection Heq' as _ Heq'.
          apply (IHp (fun y Hy => Hfree y (or_intror Hy)) a' Heq'). }
    cbn [escape_html] in Heq.
    destruct (Ascii.eqb_spec c "&").
    { apply (Hpiece "&amp;" ltac:(literal_free_of) a Heq). }
    destruct (Ascii.eqb_spec c "<").
    { apply (Hpiece "&lt;" ltac:(literal_free_of) a Heq). }
    destruct (Ascii.eqb_spec c ">").
    { apply (Hpiece "&gt;" ltac:(literal_free_of) a Heq). }
    apply (Hpiece (String c "") ltac:(intros y [<-|[]] [Hy|[]]; congruence) a Heq).
Qed.

(** X21: a log text that the page shows HTML-escaped ([&], [<] and [>]
    as entities) in its [pre] element, the first of the page, comes back
    as it was, its ends trimmed, when it holds none of [&quot;], [&#39;]
    and [&nbsp;]; in general it comes back with these three replaced. *)
Theorem escaped_log_is_recovered (before attrs text rest : string) :
  no_opening_in before ("<pre" ++ attrs ++ ">" ++ escape_html text ++ "</pre>" ++ rest) ->
  str_contains ">" attrs = false ->
  _extract_pre_content (before ++ "<pre" ++ attrs ++ ">" ++ escape_html text ++ "</pre>" ++ rest)
  = str_strip (replace_others text)
  /\ (str_contains "&quot;" text = false ->
      str_contains "&#39;" text = false ->
      str_contains "&nbsp;" text = false ->
      _extract_pre_content
        (before ++ "<pre" ++ attrs ++ ">" ++ escape_html text ++ "</pre>" ++ rest)
      = str_strip text).
Proof.
  intros Hbefore Hattrs.
  assert (Hfound : _extract_pre_content
            (before ++ "<pre" ++ attrs ++ ">" ++ escape_html text ++ "</pre>" ++ rest)
          = str_strip (replace_others text)).
  { rewrite (extract_pre_content_first_element before "<pre" attrs (escape_html text)
               "</pre>" rest Hbefore eq_refl eq_refl Hattrs eq_refl).
    - rewrite replace_entities_stages, replace_markup_escape. reflexivity.
    - intros a b Heq Hb.
      destruct (escape_html_suffix text a b Heq Hb) as (c & tail & -> & Hc).
      cbn [append prefix_ci].
      destruct (Ascii.eqb_spec (ascii_lower "<") (ascii_lower c)) as [Hsame|]; [|reflexivity].
      exfalso. apply Hc. revert Hsame. unfold ascii_lower.
      destruct c as [[] [] [] [] [] [] [] []]; vm_compute; congruence. }
  split; [exact Hfound|].
  intros Hquot Hapos Hnbsp.
  rewrite Hfound, (replace_others_absent text Hquot Hapos Hnbsp). reflexivity.
Qed.

(** ** The heading of a configuration property *)

(** [s.split(sep)[0]] is what precedes the first separator. *)
Lemma split_first_piece (sep : ascii) (s : string) :
  str_contains (String sep "") s = true ->
  exists before after,
    s = before ++ String sep after
    /\ str_contains (String sep "") before = false
    /\ first_piece (str_split sep s) = before.
Proof.
  induction s as [|c s IH]; intros Hsome; [discriminate|].
  rewrite contains_char_cons in Hsome. cbn [str_split].
  destruct (Ascii.eqb_spec c sep) as [->|Hc].
  - exists "", s. repeat split.
  - destruct (IH Hsome) as (before & after & Hs & Hbefore & Hfirst).
    exists (String c before), after.
    split; [cbn [append]; rewrite <- Hs; reflexivity|].
    split.
    + rewrite contains_char_cons, Hbefore.
      destruct (Ascii.eqb_spec c sep); [contradiction | reflexivity].
    + pose proof (split_nonempty sep s) as Hne.
      destruct (str_split sep s) as [|piece pieces]; [congruence|].
      cbn in Hfirst |- *. rewrite Hfirst. reflexivity.
Qed.

(** X22: the heading a configuration property is filed under is [other]
    when the property has no name or a name without dot, and otherwise
    what precedes the first dot of the name; a name that is [null] raises
    a TypeError. *)
Theorem property_prefix_is_before_first_dot (fields : list (string * json)) :
  (assoc "name" fields = None -> property_prefix (JObj fields) = ok "other")
  /\ (assoc "name" fields = Some JNull ->
      property_prefix (JObj fields)
      = TypeError "argument of type 'NoneType' is not iterable")
  /\ (forall name, assoc "name" fields = Some (JStr name) ->
      (str_contains "." name = false -> property_prefix (JObj fields) = ok "other")
      /\ (str_contains "." name = true ->
          exists prefix rest,
            name = prefix ++ "." ++ rest
            /\ str_contains "." prefix = false
            /\ property_prefix (JObj fields) = ok prefix)).
Proof.
  unfold property_prefix, py_get, prefix_of.
  split; [intros ->; reflexivity|].
  split; [intros ->; reflexivity|].
  intros name ->. cbn [rbind ok py_contains_str].
  split; intros Hdot; rewrite Hdot; [reflexivity|].
  destruct (split_first_piece "."%char name Hdot) as (prefix & rest & Hname & Hprefix & ->).
  exists prefix, rest. repeat split; assumption.
Qed.

End MoreProperties.

(** * The statements at work on the sample deployment *)

Lemma log_url_construction_witness :
  exchanges sample_upstream
    (log_handler sample_config sample_runtime (full_logs sample_full_input))
  = [ Requested (attempt_url sample_config (full_logs sample_full_input)) None
        (inr sample_attempt);
      Requested (job_url sample_config (full_logs sample_full_input)) None
        (inr sample_job);
      Fetched sample_full_log_url sample_page ]
  /\ exchanges sample_upstream
       (log_handler sample_config sample_runtime (partial_logs sample_partial_input))
     = [ Requested (attempt_url sample_config (partial_logs sample_partial_input)) None
           (inr sample_attempt);
         Requested (job_url sample_config (partial_logs sample_partial_input)) None
           (inr sample_job);
         Fetched sample_log_url sample_page ]
  /\ exists attempt_data attempt container_id node_http_address job_data job user hostname,
       exchanges sample_upstream
         (log_handler sample_config sample_runtime (full_logs sample_full_input))
       = [ Requested (attempt_url sample_config (full_logs sample_full_input)) None
             (inr attempt_data);
           Requested (job_url sample_config (full_logs sample_full_input)) None
             (inr job_data);
           Fetched sample_full_log_url sample_page ]
       /\ py_get attempt_data "taskAttempt" (JObj []) = ok attempt
       /\ provides attempt "assignedContainerId" container_id
       /\ provides attempt "nodeHttpAddress" node_http_address
       /\ py_get job_data "job" (JObj []) = ok job
       /\ provides job "user" user
       /\ _extract_hostname node_http_address = ok hostname
       /\ sample_full_log_url
          = log_url_path (LOGS_BASE_URL sample_config)
              (py_str sample_runtime hostname ++ ":" ++ NODEMANAGER_PORT sample_config)
              (py_str sample_runtime container_id)
              (log_attempt_id (full_logs sample_full_input))
              (py_str sample_runtime user)
              (log_type_of (full_logs sample_full_input))
            ++ "?" ++ log_query (full_logs sample_full_input).
Proof.
  assert (Hfull :
            exchanges sample_upstream
              (log_handler sample_config sample_runtime (full_logs sample_full_input))
            = [ Requested (attempt_url sample_config (full_logs sample_full_input)) None
                  (inr sample_attempt);
                Requested (job_url sample_config (full_logs sample_full_input)) None
                  (inr sample_job);
                Fetched sample_full_log_url sample_page ]).
  { exact (proj1 (log_url_construction sample_config sample_runtime sample_upstream
                    (full_logs sample_full_input))
             sample_attempt
             (JObj [("assignedContainerId", JStr "container_1326381300833_2_2_01_000001");
                    ("nodeHttpAddress", JStr "node1.example.com:8042")])
             (JStr "container_1326381300833_2_2_01_000001")
             (JStr "node1.example.com:8042")
             sample_job (JObj [("user", JStr "hadoop")]) (JStr "hadoop")
             (JStr "node1.example.com")
             eq_refl eq_refl (conj eq_refl eq_refl) (conj eq_refl eq_refl)
             eq_refl eq_refl (conj eq_refl eq_refl) eq_refl). }
  split; [exact Hfull|]. split.
  - exact (proj1 (log_url_construction sample_config sample_runtime sample_upstream
                    (partial_logs sample_partial_input))
             sample_attempt
             (JObj [("assignedContainerId", JStr "container_1326381300833_2_2_01_000001");
                    ("nodeHttpAddress", JStr "node1.example.com:8042")])
             (JStr "container_1326381300833_2_2_01_000001")
             (JStr "node1.example.com:8042")
             sample_job (JObj [("user", JStr "hadoop")]) (JStr "hadoop")
             (JStr "node1.example.com")
             eq_refl eq_refl (conj eq_refl eq_refl) (conj eq_refl eq_refl)
             eq_refl eq_refl (conj eq_refl eq_refl) eq_refl).
  - apply (proj2 (log_url_construction sample_config sample_runtime sample_upstream
                    (full_logs sample_full_input))
             sample_full_log_url sample_page).
    rewrite Hfull. right. right. left. reflexivity.
Defined.

Lemma log_lookup_failures_witness :
  call (scripted_upstream (inr attempt_without_container) (inr sample_job) sample_page)
    (log_handler sample_config sample_runtime (full_logs sample_full_input))
  = ([Requested (attempt_url sample_config (full_logs sample_full_input)) None
        (inr attempt_without_container)],
     ok no_container_id)
  /\ call (scripted_upstream (inr attempt_without_address) (inr sample_job) sample_page)
       (log_handler sample_config sample_runtime (partial_logs sample_partial_input))
     = ([Requested (attempt_url sample_config (partial_logs sample_partial_input)) None
           (inr attempt_without_address)],
        ok no_node_address)
  /\ call (scripted_upstream (inr sample_attempt) (inr job_without_user) sample_page)
       (log_handler sample_config sample_runtime (full_logs sample_full_input))
     = ([Requested (attempt_url sample_config (full_logs sample_full_input)) None
           (inr sample_attempt);
         Requested (job_url sample_config (full_logs sample_full_input)) None
           (inr job_without_user)],
        ok no_job_user).
Proof.
  split; [|split].
  - pose proof (log_lookup_failures sample_config sample_runtime
                  (scripted_upstream (inr attempt_without_container) (inr sample_job)
                     sample_page)
                  (full_logs sample_full_input) attempt_without_container
                  (JObj [("nodeHttpAddress", JStr "node1.example.com:8042")])
                  eq_refl eq_refl) as Hcases.
    cbv zeta in Hcases. destruct Hcases as (Hcontainer & _).
    apply Hcontainer. reflexivity.
  - pose proof (log_lookup_failures sample_config sample_runtime
                  (scripted_upstream (inr attempt_without_address) (inr sample_job)
                     sample_page)
                  (partial_logs sample_partial_input) attempt_without_address
                  (JObj [("assignedContainerId",
                          JStr "container_1326381300833_2_2_01_000001")])
                  eq_refl eq_refl) as Hcases.
    cbv zeta in Hcases. destruct Hcases as (_ & Haddress & _).
    apply (Haddress (JStr "container_1326381300833_2_2_01_000001")).
    + split; reflexivity.
    + reflexivity.
  - pose proof (log_lookup_failures sample_config sample_runtime
                  (scripted_upstream (inr sample_attempt) (inr job_without_user)
                     sample_page)
                  (full_logs sample_full_input) sample_attempt
                  (JObj [("assignedContainerId",
                          JStr "container_1326381300833_2_2_01_000001");
                         ("nodeHttpAddress", JStr "node1.example.com:8042")])
                  eq_refl eq_refl) as Hcases.
    cbv zeta in Hcases. destruct Hcases as (_ & _ & Huser & _).
    apply (Huser (JStr "container_1326381300833_2_2_01_000001")
             (JStr "node1.example.com:8042") job_without_user
             (JObj [("id", JStr "job_1326381300833_2")])).
    + split; reflexivity.
    + split; reflexivity.
    + reflexivity.
    + reflexivity.
    + reflexivity.
Defined.

Lemma handlers_never_raise_witness :
  In (Requested
        (JOBHISTORY_BASE_URL sample_config ++ "/" ++ "mapreduce/jobs/job_1326381300833_2")
        None (inl (HTTPStatusError 404)))
     (exchanges missing_upstream
        (handler sample_config sample_runtime (get_job sample_job_input)))
  /\ outcome missing_upstream
       (handler sample_config sample_runtime (get_job sample_job_input))
     = ok "错误：资源未找到。请检查 ID 是否正确，或者该作业/任务可能已被清理。".
Proof.
  assert (Hasked :
            In (Requested
                  (JOBHISTORY_BASE_URL sample_config ++ "/"
                   ++ "mapreduce/jobs/job_1326381300833_2")
                  None (inl (HTTPStatusError 404)))
               (exchanges missing_upstream
                  (handler sample_config sample_runtime (get_job sample_job_input)))).
  { vm_compute. left. reflexivity. }
  split; [exact Hasked|].
  destruct (handlers_never_raise sample_config sample_runtime (get_job sample_job_input)
              missing_upstream) as (_ & Hcaught & _).
  exact (Hcaught _ (HTTPStatusError 404) Hasked eq_refl).
Defined.

Lemma format_duration_tiers_witness :
  0 < 65000 /\ _format_duration sample_runtime (JInt 65000) = ok "1分5秒".
Proof.
  assert (Hpos : 0 < 65000) by lia.
  split; [exact Hpos|].
  destruct (format_duration_tiers sample_runtime 65000 Hpos) as (_ & _ & Hminutes & _).
  apply Hminutes. vm_compute. split; [discriminate | reflexivity].
Defined.

Lemma format_counters_shape_witness :
  (exists blocks,
     _format_counters_markdown sample_runtime (JObj two_level_counters) "t"
     = ok (join_lines ("# t" :: "" :: List.concat blocks))
     /\ Forall2 (rendered_group sample_runtime)
          [JObj [("counterGroupName", JStr "org.apache.hadoop.mapreduce.TaskCounter");
                 ("counter",
                  JArr [JObj [("name", JStr "CPU_MILLISECONDS");
                              ("value", JInt 1234567)]])]]
          blocks)
  /\ groups_by_first_usable_key job_level_counters
     = groups_by_first_present_key job_level_counters
  /\ (exists before after,
     "org.apache.hadoop.mapreduce.TaskCounter" = before ++ "." ++ after
     /\ str_contains "." after = false
     /\ short_name_of (JStr "org.apache.hadoop.mapreduce.TaskCounter") = ok (JStr after))
  /\ short_name_of (JStr "Shuffle Errors") = ok (JStr "Shuffle Errors")
  /\ counter_line sample_runtime (JObj sample_counter)
     = ok "- **FILE_BYTES_READ**: 1,234,567 (Map: 1,234,000, Reduce: 567)"
  /\ counter_line sample_runtime
       (JObj [("name", JStr "CPU_MILLISECONDS"); ("value", JInt 1234567);
              ("mapCounterValue", JInt 5)])
     = ok "- **CPU_MILLISECONDS**: 1,234,567".
Proof.
  destruct (format_counters_shape sample_runtime)
    as (Hformatter & Hgroups & Hname & _ & Hline).
  split; [|split; [|split; [|split; [|split]]]].
  - apply (Hformatter two_level_counters "t"); [reflexivity|].
    repeat constructor.
    eexists. split; [reflexivity|]. split.
    + intros v Hv. injection Hv as <-. eexists. reflexivity.
    + intros v Hv. injection Hv as <-. eexists. split; [reflexivity|].
      repeat constructor.
      eexists. split; [reflexivity|]. split.
      * intros key v [<-|[<-|[]]] Hv; [discriminate Hv|].
        injection Hv as <-. eexists. reflexivity.
      * intros key v [<-|[<-|[]]] Hv; discriminate Hv.
  - apply (proj2 (Hgroups job_level_counters)). reflexivity.
  - apply (proj1 (Hname "org.apache.hadoop.mapreduce.TaskCounter")). reflexivity.
  - apply (proj2 (Hname "Shuffle Errors")). reflexivity.
  - apply (proj1 (Hline sample_counter (JStr "FILE_BYTES_READ") (JInt 1234567) "1,234,567"
                    eq_refl eq_refl eq_refl)
             (JInt 1234000) (JInt 567) "1,234,000" "567");
      try reflexivity; discriminate.
  - apply (proj2 (Hline [("name", JStr "CPU_MILLISECONDS"); ("value", JInt 1234567);
                         ("mapCounterValue", JInt 5)]
                    (JStr "CPU_MILLISECONDS") (JInt 1234567) "1,234,567"
                    eq_refl eq_refl eq_refl)).
    right. reflexivity.
Defined.

Lemma json_string_input_is_equivalent_witness :
  json_loads sample_runtime sample_json_text = ok (JObj [("limit", JInt 5)])
  /\ model_validate sample_runtime ListJobsInput.t sample_validate (JStr sample_json_text)
     = model_validate sample_runtime ListJobsInput.t sample_validate
         (JObj [("limit", JInt 5)])
  /\ forall u : upstream,
       call u (invoke sample_runtime ListJobsInput.t sample_validate
                 (jobhistory_list_jobs sample_config sample_runtime)
                 (JStr sample_json_text))
       = call u (invoke sample_runtime ListJobsInput.t sample_validate
                   (jobhistory_list_jobs sample_config sample_runtime)
                   (JObj [("limit", JInt 5)])).
Proof.
  assert (Hloads : json_loads sample_runtime sample_json_text
                   = ok (JObj [("limit", JInt 5)])) by reflexivity.
  split; [exact Hloads|].
  destruct (json_string_input_is_equivalent sample_runtime ListJobsInput.t sample_validate
              (jobhistory_list_jobs sample_config sample_runtime)
              sample_json_text [("limit", JInt 5)] Hloads)
    as (_ & _ & Hvalidate & _ & Hcall).
  split; [exact Hvalidate | exact Hcall].
Defined.

Lemma list_jobs_empty_ignores_format_witness :
  ListJobsInput.response_format json_listing_input = JSON
  /\ outcome idle_upstream (jobhistory_list_jobs sample_config sample_runtime json_listing_input)
     = ok no_jobs_found.
Proof.
  split; [reflexivity|].
  apply (list_jobs_empty_ignores_format sample_config sample_runtime idle_upstream
           json_listing_input (JObj [("jobs", JObj [("job", JArr [])])])
           (JObj [("job", JArr [])]));
    reflexivity.
Defined.

(** At the handler the exception of [_format_timestamp] is caught: the
    job detail is answered by an error text in place of its rendering. *)
Lemma get_job_with_huge_start_time :
  outcome far_future_upstream (jobhistory_get_job sample_config sample_runtime sample_job_input)
  = ok "错误：OverflowError - integer division result too large for a float".
Proof. vm_compute. reflexivity. Qed.

(** * The further properties at work on the sample deployment *)

Lemma non_object_reply_is_reported_witness :
  get_json (constant_upstream (JArr [])) [] (request_url sample_config get_info)
    (request_params get_info) = inr (JArr [])
  /\ call (constant_upstream (JArr [])) (handler sample_config sample_runtime get_info)
     = ([Requested (request_url sample_config get_info) (request_params get_info)
           (inr (JArr []))],
        ok "错误：AttributeError - 'list' object has no attribute 'get'").
Proof.
  split; [reflexivity|].
  apply (non_object_reply_is_reported sample_config sample_runtime get_info
           (constant_upstream (JArr [])) (JArr []) eq_refl).
  intros fields. discriminate.
Defined.

Lemma json_detail_is_passed_through_witness :
  detail_of (get_job_conf json_conf_input) = Some ("conf", JSON)
  /\ outcome (constant_upstream (JObj [("conf", sample_conf)]))
       (handler sample_config sample_runtime (get_job_conf json_conf_input))
     = ok (json_dumps sample_runtime sample_conf).
Proof.
  split; [reflexivity|].
  exact (json_detail_is_passed_through sample_config sample_runtime
           (get_job_conf json_conf_input) (constant_upstream (JObj [("conf", sample_conf)]))
           "conf" [("conf", sample_conf)] eq_refl eq_refl).
Defined.

Lemma listing_in_json_and_when_empty_witness :
  outcome (constant_upstream no_tasks)
    (handler sample_config sample_runtime (list_tasks (tasks_input JSON)))
  = ok (json_dumps sample_runtime (JObj [("total", JInt 0); ("tasks", JArr [])]))
  /\ outcome (constant_upstream no_tasks)
       (handler sample_config sample_runtime (list_tasks (tasks_input MARKDOWN)))
     = ok "没有找到任务。".
Proof.
  split.
  - destruct (listing_in_json_and_when_empty sample_config sample_runtime
                (list_tasks (tasks_input JSON)) (constant_upstream no_tasks)
                {| outer_key := "tasks"; inner_key := "task"; output_key := "tasks";
                   none_found := "没有找到任务。"; emptiness_first := false |}
                JSON no_tasks (JObj [("task", JArr [])]) []
                eq_refl eq_refl eq_refl eq_refl) as [Hjson _].
    apply Hjson; [reflexivity | right; reflexivity].
  - destruct (listing_in_json_and_when_empty sample_config sample_runtime
                (list_tasks (tasks_input MARKDOWN)) (constant_upstream no_tasks)
                {| outer_key := "tasks"; inner_key := "task"; output_key := "tasks";
                   none_found := "没有找到任务。"; emptiness_first := false |}
                MARKDOWN no_tasks (JObj [("task", JArr [])]) []
                eq_refl eq_refl eq_refl eq_refl) as [_ Hempty].
    apply Hempty; [reflexivity | left; reflexivity].
Defined.

Lemma tasks_of_another_type_are_counted_only_witness :
  has_type "MAP" setup_task = false
  /\ has_type "REDUCE" setup_task = false
  /\ outcome (constant_upstream setup_tasks)
       (jobhistory_list_tasks sample_config sample_runtime (tasks_input MARKDOWN))
     = ok (join_lines ["# 任务列表: job_1326381300833_2"; "共 **1** 个任务"; ""]).
Proof.
  split; [reflexivity|]. split; [reflexivity|].
  apply (tasks_of_another_type_are_counted_only sample_config sample_runtime
           (constant_upstream setup_tasks) "job_1326381300833_2" None setup_tasks
           (JObj [("task", JArr [setup_task])]) [setup_task]);
    try reflexivity.
  - discriminate.
  - repeat constructor. eexists. reflexivity.
  - repeat constructor.
Defined.

Lemma conf_groups_partition_witness :
  group_by_prefix sample_properties [] = ok sample_groups
  /\ NoDup (List.map fst sample_groups)
  /\ (forall prop, In prop sample_properties ->
        exists prefix,
          property_prefix prop = ok prefix /\ In prefix (List.map fst sample_groups))
  /\ (forall prefix props, In (prefix, props) sample_groups ->
        props <> [] /\ props = List.filter (filed_under prefix) sample_properties)
  /\ List.length (List.concat (List.map snd sample_groups))
     = List.length sample_properties.
Proof.
  split; [reflexivity|].
  exact (conf_groups_partition sample_properties sample_groups eq_refl).
Defined.

Lemma conf_groups_in_order_witness :
  conf_markdown sample_runtime "job_1326381300833_2" None sample_conf
  = ok (join_lines
          [ "# 作业配置: job_1326381300833_2";
            "**配置文件路径**: `/history/job_1326381300833_2_conf.xml`";
            "";
            "共 **4** 个配置项";
            "";
            "## mapreduce (2 项)";
            "";
            "- `mapreduce.job.name` = `wordcount`";
            "- `mapreduce.map.memory.mb` = `1024`";
            "";
            "## other (1 项)";
            "";
            "- `user` = `hadoop`";
            "";
            "## yarn (1 项)";
            "";
            "- `yarn.app.id` = `1`";
            "" ])
  /\ exists header groups printed blocks,
       conf_markdown sample_runtime "job_1326381300833_2" None sample_conf
       = ok (join_lines (List.app header (List.concat blocks)))
       /\ List.length header = 5%nat
       /\ group_by_prefix (shown_properties sample_runtime None sample_properties) []
          = ok groups
       /\ Permutation printed groups
       /\ StronglySorted heading_lt printed
       /\ Forall2 (printed_as sample_runtime) printed blocks.
Proof.
  split; [vm_compute; reflexivity|].
  apply (conf_groups_in_order sample_runtime "job_1326381300833_2" None
           [("path", JStr "/history/job_1326381300833_2_conf.xml");
            ("property", JArr sample_properties)]
           sample_properties eq_refl).
  repeat constructor;
    (eexists; split; [reflexivity|];
     split; intros v Hv; injection Hv as <-; eexists; reflexivity).
Defined.

Lemma property_value_is_cut_at_100_witness :
  (100 < str_len long_value)%nat
  /\ exists rest,
       long_value = str_take 100 long_value ++ rest
       /\ rest <> ""
       /\ str_len (str_take 100 long_value) = 100%nat
       /\ str_len (str_take 100 long_value ++ "...") = 103%nat
       /\ property_line sample_runtime long_property
          = ok ("- `" ++ py_str sample_runtime (JStr "mapreduce.job.classpath") ++ "` = `"
                ++ (str_take 100 long_value ++ "...") ++ "`").
Proof.
  assert (Hlong : (100 < str_len long_value)%nat) by (vm_compute; lia).
  split; [exact Hlong|].
  exact (proj2 (property_value_is_cut_at_100 sample_runtime long_property
                  (JStr "mapreduce.job.classpath") long_value eq_refl eq_refl) Hlong).
Defined.

Lemma counters_of_a_well_formed_response_witness :
  exists blocks,
    _format_counters_markdown sample_runtime (JObj job_level_counters) "作业计数器"
    = ok (join_lines (("# " ++ "作业计数器") :: "" :: List.concat blocks))
    /\ List.length blocks = 1%nat.
Proof.
  refine (counters_of_a_well_formed_response sample_runtime (JObj job_level_counters)
            "作业计数器" _ eq_refl _).
  constructor; [|constructor].
  eexists. split; [reflexivity|]. split.
  - intros v Hv. vm_compute in Hv. injection Hv as <-. eexists. reflexivity.
  - intros v Hv. vm_compute in Hv. injection Hv as <-. eexists. split; [reflexivity|].
    constructor; [|constructor].
    eexists. split; [reflexivity|]. split.
    + intros key v [<-|[<-|[]]] Hv; vm_compute in Hv; [|discriminate Hv].
      injection Hv as <-. eexists. reflexivity.
    + intros key v [<-|[<-|[]]] Hv; vm_compute in Hv; injection Hv as <-;
        right; eexists; reflexivity.
Defined.

Lemma empty_log_is_reported_witness :
  In (Fetched sample_log_url (inr blank_page))
     (exchanges (scripted_upstream (inr sample_attempt) (inr sample_job) (inr blank_page))
        (log_handler sample_config sample_runtime (partial_logs sample_partial_input)))
  /\ outcome (scripted_upstream (inr sample_attempt) (inr sample_job) (inr blank_page))
       (log_handler sample_config sample_runtime (partial_logs sample_partial_input))
     = ok (empty_log sample_log_url).
Proof.
  assert (Hfetched :
            In (Fetched sample_log_url (inr blank_page))
               (exchanges
                  (scripted_upstream (inr sample_attempt) (inr sample_job) (inr blank_page))
                  (log_handler sample_config sample_runtime
                     (partial_logs sample_partial_input)))).
  { vm_compute. right. right. left. reflexivity. }
  split; [exact Hfetched|].
  apply (empty_log_is_reported sample_config sample_runtime _ _ _ blank_page Hfetched).
  vm_compute. reflexivity.
Defined.

Lemma extract_pre_content_of_unclosed_page_witness :
  has_no_closing_tag cut_page = true /\ _extract_pre_content cut_page = "".
Proof.
  assert (Hopen : has_no_closing_tag cut_page = true) by (vm_compute; reflexivity).
  split; [exact Hopen|].
  exact (extract_pre_content_of_unclosed_page cut_page
           (has_no_closing_tag_unclosed cut_page Hopen)).
Defined.

Lemma extract_hostname_cuts_at_last_colon_witness :
  str_contains ":" "node1.example.com:8042" = true
  /\ exists host port,
       "node1.example.com:8042" = host ++ ":" ++ port
       /\ str_contains ":" port = false
       /\ _extract_hostname (JStr "node1.example.com:8042") = ok (JStr host).
Proof.
  split; [reflexivity|].
  apply (proj2 (extract_hostname_cuts_at_last_colon "node1.example.com:8042")).
  reflexivity.
Defined.

Lemma status_code_is_in_the_error_text_witness :
  404 <> 500
  /\ _handle_error sample_config sample_runtime (HTTPStatusError 404)
     <> _handle_error sample_config sample_runtime (HTTPStatusError 500).
Proof.
  assert (Hne : 404 <> 500) by lia.
  split; [exact Hne|].
  exact (status_code_is_in_the_error_text sample_config sample_runtime 404 500 Hne).
Defined.

Lemma formatters_on_values_without_order_witness :
  as_num (JStr "yesterday") = None
  /\ _format_timestamp sample_runtime (JStr "yesterday")
     = raise (PyError "TypeError"
                "'<=' not supported between instances of 'str' and 'int'")
  /\ _format_duration sample_runtime (JStr "") = ok "N/A".
Proof.
  split; [reflexivity|]. split.
  - exact (proj1 (proj2 (formatters_on_values_without_order sample_runtime
                           (JStr "yesterday") eq_refl) eq_refl)).
  - exact (proj2 (proj1 (formatters_on_values_without_order sample_runtime
                           (JStr "") eq_refl) eq_refl)).
Defined.

Lemma duration_rendering_determines_seconds_witness :
  _format_duration sample_runtime (JInt 65000) = _format_duration sample_runtime (JInt 65999)
  /\ 65000 / 1000 = 65999 / 1000.
Proof.
  assert (Hsame : _format_duration sample_runtime (JInt 65000)
                  = _format_duration sample_runtime (JInt 65999)) by reflexivity.
  split; [exact Hsame|].
  apply (duration_rendering_determines_seconds sample_runtime 65000 65999); [lia | lia|].
  exact Hsame.
Defined.

Lemma format_bytes_below_one_kilobyte_witness :
  0 < 512 < 1024 /\ _format_bytes sample_runtime (JInt 512) = ok "512 B".
Proof.
  assert (Hsmall : 0 < 512 < 1024) by lia.
  split; [exact Hsmall|].
  exact (proj1 (proj2 (format_bytes_below_one_kilobyte sample_runtime 512)) Hsmall).
Defined.

Lemma validate_job_id_is_stable_witness :
  validate_job_id padded_job_id = ok "job_1326381300833_2"
  /\ "job_1326381300833_2" = str_strip padded_job_id
  /\ "job_1326381300833_2" <> ""
  /\ trimmed "job_1326381300833_2"
  /\ validate_job_id "job_1326381300833_2" = ok "job_1326381300833_2".
Proof.
  assert (Hvalid : validate_job_id padded_job_id = ok "job_1326381300833_2")
    by (vm_compute; reflexivity).
  split; [exact Hvalid|].
  exact (proj2 (validate_job_id_is_stable padded_job_id) "job_1326381300833_2" Hvalid).
Defined.

Lemma escaped_log_is_recovered_witness :
  _extract_pre_content
    ("<html><body><p>" ++ "<pre" ++ " class='log'" ++ ">"
     ++ escape_html "if a < b && c > d: &lt;ok&gt; " ++ "</pre>" ++ "</body></html>")
  = "if a < b && c > d: &lt;ok&gt;".
Proof.
  refine (proj2 (escaped_log_is_recovered "<html><body><p>" " class='log'"
                   "if a < b && c > d: &lt;ok&gt; " "</body></html>" _ eq_refl)
            eq_refl eq_refl eq_refl).
  intros a b Heq Hb.
  repeat (destruct a as [|? a]; cbn [append] in Heq;
          [subst b; reflexivity | injection Heq as ? Heq; subst]).
  destruct b; [contradiction | destruct a; discriminate].
Defined.
